(** * ZCLI: a shallow embedding of the line interpreter of [ZCLI.py]

    The development follows the source file top to bottom:

    - [Py]: the Python [str] and [re] primitives the interpreter relies on
      ([strip], [lower], [startswith], [split(maxsplit=2)],
      [re.split(r'\s*:\s*', _)], the colour-tag pattern), written out as
      executable functions on [string];
    - the interpreter object [ZCLILanguage] with its five fields, extended
      with the two pieces of the outside world the methods touch (pending
      standard input and the file system);
    - one definition per method: [_get_ansi_color_code],
      [_parse_and_execute_line], [_run_program_lines], [_save_program],
      [_open_program] and the two halves of [run_repl];
    - the properties of the specification, one theorem per claim.

    Text is modelled by [string]; a character is a code point below 256
    (Latin-1), which is where [str.lower], [str.isspace] and the regular
    expression classes are specified below.  Every [print] call of the source
    becomes one [event]; a method returns an [outcome]: the events it
    printed, the interpreter afterwards, and how it completed (normally, by
    a Python exception, or by [sys.exit]). *)

From Stdlib Require Import Ascii String List Bool Arith ZArith Lia.
From stdpp Require Import base gmap strings list.

#[local] Arguments String.append : simpl nomatch.
#[local] Open Scope char_scope.
#[local] Open Scope stdpp_scope.

(* ===================================================================== *)
(** ** Python string primitives *)
(* ===================================================================== *)

Module Py.

(** [c.isspace()] for a code point below 256; the class [\s] of a [str]
    pattern is the same set. *)
Definition isspace (c : ascii) : bool :=
  let n := N_of_ascii c in
  ((9 <=? n) && (n <=? 13) || (28 <=? n) && (n <=? 32) || (n =? 133) || (n =? 160))%N.

(** [c.lower()] for a code point below 256. *)
Definition lower_char (c : ascii) : ascii :=
  let n := N_of_ascii c in
  if ((65 <=? n) && (n <=? 90) || (192 <=? n) && (n <=? 222) && negb (n =? 215))%N
  then ascii_of_N (n + 32) else c.

Fixpoint lower (s : string) : string :=
  match s with
  | EmptyString => EmptyString
  | String c s' => String (lower_char c) (lower s')
  end.

(** [not s]: the truth value of a string. *)
Definition is_empty (s : string) : bool :=
  match s with EmptyString => true | _ => false end.

(** [s.startswith(p)]. *)
Fixpoint startswith (p s : string) : bool :=
  match p, s with
  | EmptyString, _ => true
  | String a p', String b s' => Ascii.eqb a b && startswith p' s'
  | String _ _, EmptyString => false
  end.

(** [s.endswith(p)]: [p] is [s] itself or a suffix of its tail. *)
Fixpoint endswith (p s : string) : bool :=
  String.eqb s p ||
  match s with
  | EmptyString => false
  | String _ s' => endswith p s'
  end.

(** [s[:-1]]. *)
Fixpoint drop_last (s : string) : string :=
  match s with
  | EmptyString => EmptyString
  | String c EmptyString => EmptyString
  | String c s' => String c (drop_last s')
  end.

(** [s[1:-1]]; the empty string when [len(s) <= 2]. *)
Definition slice_1_m1 (s : string) : string :=
  match s with
  | EmptyString => EmptyString
  | String _ s' => drop_last s'
  end.

(** [s[n:]]. *)
Fixpoint slice_from (n : nat) (s : string) : string :=
  match n, s with
  | O, _ => s
  | S n', String _ s' => slice_from n' s'
  | S _, EmptyString => EmptyString
  end.

(** [s.lstrip()], [s.rstrip()], [s.strip()]. *)
Fixpoint lstrip (s : string) : string :=
  match s with
  | EmptyString => EmptyString
  | String c s' => if isspace c then lstrip s' else s
  end.

Fixpoint rstrip (s : string) : string :=
  match s with
  | EmptyString => EmptyString
  | String c s' =>
      let r := rstrip s' in
      if is_empty r && isspace c then EmptyString else String c r
  end.

Definition strip (s : string) : string := rstrip (lstrip s).

(** The longest prefix without white space, and what follows it. *)
Fixpoint break_space (s : string) : string * string :=
  match s with
  | EmptyString => (EmptyString, EmptyString)
  | String c s' =>
      if isspace c then (EmptyString, s)
      else let (w, r) := break_space s' in (String c w, r)
  end.

(** [s.split(maxsplit=maxcount)] (no separator: runs of white space
    separate, leading white space is skipped).  Once [maxcount] words have
    been cut, what is left after its leading white space is the last item,
    trailing white space included. *)
Fixpoint split (maxcount : nat) (s : string) : list string :=
  let s1 := lstrip s in
  if is_empty s1 then []
  else
    match maxcount with
    | O => [s1]
    | S n => let (w, r) := break_space s1 in w :: split n r
    end.

(** ["".join(l)]. *)
Definition join (l : list string) : string := foldr String.append EmptyString l.

(** *** [re.split(r'\s*:\s*', s)] *)

(** A match of [\s*:\s*] at the very start of [s]: both stars are greedy
    and nothing can be given back (a colon is no white space), so the match
    is the white space, the colon, and all white space after it.  The
    result is what follows the match. *)
Definition colon_at (s : string) : option string :=
  match lstrip s with
  | String ":" r => Some (lstrip r)
  | _ => None
  end.

(** The scan of [re.split]: at every position the pattern is tried; on a
    match the text collected so far is emitted and the scan resumes after
    the match, otherwise the character joins the current piece.  A match is
    never empty, so the text left shrinks at every step and [fuel] above
    its length is never used up (lemma [re_split_go_fuel]). *)
Fixpoint re_split_go (fuel : nat) (cur s : string) : list string :=
  match fuel with
  | O => [cur +:+ s]
  | S fuel' =>
      match colon_at s with
      | Some rest => cur :: re_split_go fuel' EmptyString rest
      | None =>
          match s with
          | EmptyString => [cur]
          | String c s' => re_split_go fuel' (cur +:+ String c EmptyString) s'
          end
      end
  end.

Definition re_split_colon (s : string) : list string :=
  re_split_go (S (String.length s)) EmptyString s.

(** *** The colour tag [\s*\(\(color\s+([a-zA-Z0-9#]+)\)\)\s*$] *)

(** The class [[a-zA-Z0-9#]]. *)
Definition is_color_char (c : ascii) : bool :=
  let n := N_of_ascii c in
  ((97 <=? n) && (n <=? 122) || (65 <=? n) && (n <=? 90) ||
   (48 <=? n) && (n <=? 57) || (n =? 35))%N.

(** The longest prefix of characters of the class, and the rest. *)
Fixpoint span_color (s : string) : string * string :=
  match s with
  | EmptyString => (EmptyString, EmptyString)
  | String c s' =>
      if is_color_char c
      then let (w, r) := span_color s' in (String c w, r)
      else (EmptyString, s)
  end.

(** The pattern matched at the very start of [s] and up to its end; the
    group is returned.  Each repetition is followed by a character outside
    its class, so the greedy match is the only one. *)
Definition color_tag_at (s : string) : option string :=
  let s1 := lstrip s in
  if startswith "((color" s1 then
    let s2 := slice_from 7 s1 in
    match s2 with
    | String c _ =>
        if isspace c then
          let (name, s4) := span_color (lstrip s2) in
          if negb (is_empty name) && startswith "))" s4
             && is_empty (lstrip (slice_from 2 s4))
          then Some name else None
        else None
    | EmptyString => None
    end
  else None.

(** [re.search(color_tag_pattern, line)]: the leftmost position where the
    pattern matches.  The result is the text before the match and group 1.
    The match runs to the end of the line, hence the text before it is also
    [re.sub(color_tag_pattern, '', line)]. *)
Fixpoint color_tag_search (line : string) : option (string * string) :=
  match color_tag_at line with
  | Some name => Some (EmptyString, name)
  | None =>
      match line with
      | EmptyString => None
      | String c rest =>
          match color_tag_search rest with
          | Some (before, name) => Some (String c before, name)
          | None => None
          end
      end
  end.

(** *** The hex pattern [^#([0-9a-f]{3}){1,2}$] *)

Definition is_lower_hex (c : ascii) : bool :=
  let n := N_of_ascii c in
  ((48 <=? n) && (n <=? 57) || (97 <=? n) && (n <=? 102))%N.

Fixpoint all_chars (p : ascii -> bool) (s : string) : bool :=
  match s with
  | EmptyString => true
  | String c s' => p c && all_chars p s'
  end.

(** [#] and three or six hex digits, up to the end of the string. *)
Definition hex_digits_to_end (s : string) : bool :=
  match s with
  | String "#" h =>
      all_chars is_lower_hex h &&
      (Nat.eqb (String.length h) 3 || Nat.eqb (String.length h) 6)
  | _ => false
  end.

(** [re.match] of the pattern: [$] matches at the end of the string and
    also just before a line feed that ends the string. *)
Definition is_hex_color (s : string) : bool :=
  hex_digits_to_end s
  || endswith (String "010" EmptyString) s && hex_digits_to_end (drop_last s).

(** *** Text files *)

(** The lines a text file yields when iterated (universal newlines: a line
    ends at LF, CR LF or CR), without their terminators.  The interpreter
    strips every line and drops the empty ones, so neither the terminators
    nor an empty last line matter. *)
Fixpoint file_lines_go (cur s : string) : list string :=
  match s with
  | EmptyString => [cur]
  | String "010" s' => cur :: file_lines_go EmptyString s'
  | String "013" (String "010" s' as t) => file_lines_go cur t
  | String "013" s' => cur :: file_lines_go EmptyString s'
  | String c s' => file_lines_go (cur +:+ String c EmptyString) s'
  end.

Definition file_lines (content : string) : list string :=
  file_lines_go EmptyString content.

(** [re.sub(color_tag_pattern, '', line)]. *)
Definition color_tag_sub (line : string) : string :=
  match color_tag_search line with
  | Some (before, _) => before
  | None => line
  end.

End Py.


(* ===================================================================== *)
(** ** The interpreter object and the outside world *)
(* ===================================================================== *)

(** [self.mode]: the strings ["compiler"] (Buffering) and ["interpreter"]
    (Immediate). *)
Inductive Mode := compiler | interpreter.

(** The fields of [ZCLILanguage.__init__], then the environment of the
    process: the lines [input()] will still deliver ([input()] raises
    [EOFError] when there is none), the text files by path, and the paths
    whose [open] raises an [IOError]. *)
Record ZCLILanguage := {
  variables : gmap string string;
  program_lines : list string;
  mode : Mode;
  session_history : list string;
  last_input_value : option string;
  stdin : list string;
  files : gmap string string;
  denied : gset string
}.

Definition set_variables (v : gmap string string) (z : ZCLILanguage) :=
  {| variables := v; program_lines := program_lines z; mode := mode z;
     session_history := session_history z;
     last_input_value := last_input_value z;
     stdin := stdin z; files := files z; denied := denied z |}.

Definition set_program_lines (l : list string) (z : ZCLILanguage) :=
  {| variables := variables z; program_lines := l; mode := mode z;
     session_history := session_history z;
     last_input_value := last_input_value z;
     stdin := stdin z; files := files z; denied := denied z |}.

Definition set_mode (m : Mode) (z : ZCLILanguage) :=
  {| variables := variables z; program_lines := program_lines z; mode := m;
     session_history := session_history z;
     last_input_value := last_input_value z;
     stdin := stdin z; files := files z; denied := denied z |}.

Definition set_session_history (h : list string) (z : ZCLILanguage) :=
  {| variables := variables z; program_lines := program_lines z;
     mode := mode z; session_history := h;
     last_input_value := last_input_value z;
     stdin := stdin z; files := files z; denied := denied z |}.

Definition set_last_input_value (v : option string) (z : ZCLILanguage) :=
  {| variables := variables z; program_lines := program_lines z;
     mode := mode z; session_history := session_history z;
     last_input_value := v;
     stdin := stdin z; files := files z; denied := denied z |}.

Definition set_stdin (i : list string) (z : ZCLILanguage) :=
  {| variables := variables z; program_lines := program_lines z;
     mode := mode z; session_history := session_history z;
     last_input_value := last_input_value z;
     stdin := i; files := files z; denied := denied z |}.

Definition set_files (f : gmap string string) (z : ZCLILanguage) :=
  {| variables := variables z; program_lines := program_lines z;
     mode := mode z; session_history := session_history z;
     last_input_value := last_input_value z;
     stdin := stdin z; files := f; denied := denied z |}.

(** The error kinds of the specification, given to a diagnostic by the
    place that prints it.  [WrongModeError] is the refusal of [execute] in
    interpreter mode, which the taxonomy of the specification leaves out. *)
Inductive error_kind :=
| SyntaxError
| UndefinedVariableError
| UnboundInputError
| InvalidOperandError
| UnknownCommandError
| IOFailure
| WrongModeError.

(** One [print] call (or the prompt written by [input]). *)
Inductive event :=
| Shown (color_code content : string)
    (* print(f"{color_code}{content_to_print}{self.ANSI_RESET}") *)
| Prompt (text : string)
| Diagnostic (kind : error_kind) (text : string)
| Warning (text : string)
| Notice (text : string)
| Crash (text : string)
    (* the report of a Python exception *)
| HelpText.
    (* the lines of _print_help *)

(** How a call ends: it returns, a Python [Exception] propagates out of
    it, or [sys.exit(code)] does. *)
Inductive completion :=
| Returned
| Raised (exc : string)
| SystemExit (code : Z).

Record outcome := {
  printed : list event;
  after : ZCLILanguage;
  how : completion
}.

Definition ret (z : ZCLILanguage) : outcome :=
  {| printed := []; after := z; how := Returned |}.

Definition say (evs : list event) (z : ZCLILanguage) : outcome :=
  {| printed := evs; after := z; how := Returned |}.

(** The events [evs] were printed before [o] ran. *)
Definition preceded (evs : list event) (o : outcome) : outcome :=
  {| printed := evs ++ printed o; after := after o; how := how o |}.

(** The exit status of the process when its last call ended as [o]. *)
Definition exit_status (o : outcome) : Z :=
  match how o with
  | Returned => 0
  | Raised _ => 1
  | SystemExit code => code
  end.

(** The double quote and the line feed, which a string literal cannot
    hold. *)
Definition dq : string := String "034" EmptyString.
Definition nl : string := String "010" EmptyString.

(** [part.startswith(q) and part.endswith(q')]. *)
Definition wrapped (open close part : string) : bool :=
  Py.startswith open part && Py.endswith close part.

(* ===================================================================== *)
(** ** The methods of [ZCLILanguage] *)
(* ===================================================================== *)

(** The escape sequences of colorama: [Fore.X] and [Style.RESET_ALL]. *)
Definition sgr (code : string) : string := String "027" ("[" +:+ code +:+ "m").

Definition ANSI_RESET : string := sgr "0".

(** The text [print(f"{color_code}{content_to_print}{self.ANSI_RESET}")]
    writes. *)
Definition shown_text (color_code content_to_print : string) : string :=
  color_code +:+ content_to_print +:+ ANSI_RESET.

Definition ANSI_COLORS : gmap string string :=
  list_to_map
    [ ("red", sgr "31"); ("orange", sgr "33"); ("yellow", sgr "33");
      ("green", sgr "32"); ("blue", sgr "34"); ("indigo", sgr "34");
      ("violet", sgr "35"); ("purple", sgr "35"); ("cyan", sgr "36");
      ("white", sgr "37"); ("black", sgr "30") ].

(** [_get_ansi_color_code]: the events printed and the code returned. *)
Definition _get_ansi_color_code (color_name_or_hex : string)
  : list event * string :=
  let color_name_or_hex_lower := Py.lower color_name_or_hex in
  match ANSI_COLORS !! color_name_or_hex_lower with
  | Some code => ([], code)
  | None =>
      if Py.is_hex_color color_name_or_hex_lower then
        ([Warning ("Warning: Hex color '" +:+ color_name_or_hex +:+
                   "' is not fully supported in this basic terminal environment. Displaying with default color.")],
         EmptyString)
      else ([], EmptyString)
  end.

(** [_get_user_input]: the prompt is written, then one pending line is
    consumed; [None] stands for [EOFError]. *)
Definition _get_user_input (prompt : string) (z : ZCLILanguage)
  : list event * option (string * ZCLILanguage) :=
  match stdin z with
  | [] => ([Prompt prompt], None)
  | l :: more => ([Prompt prompt], Some (l, set_stdin more z))
  end.

Definition EOFError_text : string := "EOF when reading a line".

(** *** The [define] branch *)

Definition define_usage : string :=
  "define variablename " +:+ dq +:+ "value" +:+ dq +:+
  " or define variablename ((input)) or define <var> <part1> : <part2>".

(** The loop over [concatenation_parts]; [evaluated_value_parts] is the
    accumulator.  An early [return] after a [print] is the left injection
    of the diagnostic printed. *)
Fixpoint define_loop (vars : gmap string string) (last_input : option string)
    (concatenation_parts : list string) (evaluated_value_parts : list string)
  : event + list string :=
  match concatenation_parts with
  | [] => inr evaluated_value_parts
  | part :: rest =>
      if Py.is_empty part then
        define_loop vars last_input rest evaluated_value_parts
      else if wrapped dq dq part then
        define_loop vars last_input rest
          (evaluated_value_parts ++ [Py.slice_1_m1 part])
      else if String.eqb (Py.lower part) "((input))" then
        match last_input with
        | Some v =>
            define_loop vars last_input rest (evaluated_value_parts ++ [v])
        | None =>
            inl (Diagnostic UnboundInputError
                   "Error: No input has been provided yet via 'show input' for 'define ((input))'.")
        end
      else if wrapped "(" ")" part then
        let var_name_in_paren := Py.slice_1_m1 part in
        let var_name_in_paren :=
          if wrapped "(" ")" var_name_in_paren
          then Py.slice_1_m1 var_name_in_paren else var_name_in_paren in
        match vars !! var_name_in_paren with
        | Some v =>
            define_loop vars last_input rest (evaluated_value_parts ++ [v])
        | None =>
            inl (Diagnostic UndefinedVariableError
                   ("Error: Variable '" +:+ var_name_in_paren +:+
                    "' not defined in define concatenation."))
        end
      else
        inl (Diagnostic InvalidOperandError
               ("Error: Invalid element '" +:+ part +:+
                "' in define value concatenation. Must be a quoted string, ((input)), or (variable)."))
  end.

(** [[p.strip() for p in re.split(r'\s*:\s*', argument)]]. *)
Definition concatenation_parts_of (argument : string) : list string :=
  map Py.strip (Py.re_split_colon argument).

Definition define_command (processed_line : string) (parts : list string)
    (is_runtime_execution : bool) (z : ZCLILanguage) : outcome :=
  match parts with
  | _ :: var_name :: more =>
      match more with
      | [] =>
          say [Diagnostic SyntaxError
                 ("Error: Invalid define syntax. Missing value. Use: " +:+ define_usage)] z
      | _ :: _ =>
          let full_value_argument :=
            Py.strip
              (Py.slice_from
                 (String.length "define" + String.length var_name + 1)
                 processed_line) in
          match define_loop (variables z) (last_input_value z)
                  (concatenation_parts_of full_value_argument) [] with
          | inl diagnostic => say [diagnostic] z
          | inr evaluated_value_parts =>
              let value_to_store := Py.join evaluated_value_parts in
              let z' :=
                set_variables (<[var_name := value_to_store]> (variables z)) z in
              if is_runtime_execution then ret z'
              else
                say [Notice ("Defined variable '" +:+ var_name +:+
                             "' with value '" +:+ value_to_store +:+ "'")] z'
          end
      end
  | _ =>
      say [Diagnostic SyntaxError
             ("Error: Invalid define syntax. Use: " +:+ define_usage)] z
  end.

(** *** The [show] branch *)

Fixpoint show_loop (vars : gmap string string)
    (concatenation_parts : list string) (final_output_content_parts : list string)
  : event + list string :=
  match concatenation_parts with
  | [] => inr final_output_content_parts
  | part :: rest =>
      if Py.is_empty part then
        show_loop vars rest final_output_content_parts
      else if wrapped dq dq part then
        show_loop vars rest (final_output_content_parts ++ [Py.slice_1_m1 part])
      else if wrapped "(" ")" part then
        let var_name_in_paren := Py.slice_1_m1 part in
        let var_name_in_paren :=
          if wrapped "(" ")" var_name_in_paren
          then Py.slice_1_m1 var_name_in_paren else var_name_in_paren in
        match vars !! var_name_in_paren with
        | Some v => show_loop vars rest (final_output_content_parts ++ [v])
        | None =>
            inl (Diagnostic UndefinedVariableError
                   ("Error: Variable '" +:+ var_name_in_paren +:+
                    "' not defined in concatenation."))
        end
      else
        inl (Diagnostic InvalidOperandError
               ("Error: Invalid element '" +:+ part +:+
                "' in show concatenation. Must be a quoted string or (variable)."))
  end.

(** The last statement of the branch:
    [if content_to_print or parts[1].lower() != "input": print(...)]. *)
Definition show_print (color_code target content_to_print : string)
    (z : ZCLILanguage) : outcome :=
  if negb (Py.is_empty content_to_print)
     || negb (String.eqb (Py.lower target) "input")
  then say [Shown color_code content_to_print] z
  else ret z.

Definition show_command (color_code processed_line : string)
    (parts : list string) (z : ZCLILanguage) : outcome :=
  match parts with
  | _ :: target :: more =>
      if String.eqb (Py.lower target) "input" then
        let prompt :=
          match more with
          | [] => Some EmptyString
          | prompt_part :: _ =>
              if wrapped dq dq prompt_part
              then Some (Py.slice_1_m1 prompt_part) else None
          end in
        match prompt with
        | None =>
            say [Diagnostic SyntaxError
                   "Error: Invalid show input syntax. Prompt must be a quoted string."] z
        | Some input_prompt =>
            match _get_user_input input_prompt z with
            | (evs, None) =>
                {| printed := evs; after := z; how := Raised EOFError_text |}
            | (evs, Some (user_input_val, z1)) =>
                preceded evs
                  (show_print color_code target EmptyString
                     (set_last_input_value (Some user_input_val) z1))
            end
        end
      else if String.eqb (Py.lower target) "((input))" then
        match last_input_value z with
        | Some v => show_print color_code target v z
        | None =>
            say [Diagnostic UnboundInputError
                   "Error: No input has been provided yet via 'show input' for 'show ((input))'."] z
        end
      else
        let full_show_argument :=
          Py.strip (Py.slice_from (String.length "show") processed_line) in
        match show_loop (variables z)
                (concatenation_parts_of full_show_argument) [] with
        | inl diagnostic => say [diagnostic] z
        | inr final_output_content_parts =>
            show_print color_code target (Py.join final_output_content_parts) z
        end
  | _ =>
      say [Diagnostic SyntaxError
             ("Error: Invalid show syntax. Use: show " +:+ dq +:+
              "literal string" +:+ dq +:+
              ", show (variablename), show input [" +:+ dq +:+ "prompt" +:+ dq +:+
              "], show ((input)), or use concatenation with ':'")] z
  end.

(** *** [_save_program] *)

(** What [f.write(line + '\n')] for every line leaves in the file. *)
Definition written (lines : list string) : string :=
  Py.join (map (fun line => line +:+ nl) lines).

Definition permission_denied (filename : string) : string :=
  "[Errno 13] Permission denied: '" +:+ filename +:+ "'".

Definition _save_program (filename : string) (z : ZCLILanguage) : outcome :=
  let filename :=
    if negb (Py.endswith ".zcli" (Py.lower filename))
    then filename +:+ ".zcli" else filename in
  if bool_decide (filename ∈ denied z) then
    say [Diagnostic IOFailure
           ("Error saving file '" +:+ filename +:+ "': " +:+
            permission_denied filename)] z
  else
    match mode z with
    | compiler =>
        say [Notice ("Program (compiler buffer) saved to '" +:+ filename +:+ "'.")]
          (set_files (<[filename := written (program_lines z)]> (files z)) z)
    | interpreter =>
        say [Notice ("Session history saved to '" +:+ filename +:+ "'.")]
          (set_files (<[filename := written (session_history z)]> (files z)) z)
    end.

(** *** [_open_program] and [_parse_and_execute_line]

    The two methods call [_run_program_lines], which calls
    [_parse_and_execute_line] back with [is_runtime_execution=True].  The
    section takes [_run_program_lines] as a variable; the knot is tied
    below. *)

Section Dispatcher.

Variable run_program_lines : list string -> ZCLILanguage -> outcome.

Definition open_program (filename : string) (z : ZCLILanguage) : outcome :=
  match files z !! filename with
  | None =>
      say [Diagnostic IOFailure ("Error: File '" +:+ filename +:+ "' not found.")] z
  | Some content =>
      if bool_decide (filename ∈ denied z) then
        say [Diagnostic IOFailure
               ("Error opening file '" +:+ filename +:+ "': " +:+
                permission_denied filename)] z
      else
        let lines :=
          List.filter (fun l => negb (Py.is_empty l))
                 (map Py.strip (Py.file_lines content)) in
        match mode z with
        | compiler =>
            say [Notice ("Program lines from '" +:+ filename +:+
                         "' loaded into compiler buffer.");
                 Notice "Type 'execute' to run them."]
              (set_program_lines (program_lines z ++ lines) z)
        | interpreter =>
            preceded
              [Notice ("Executing program from '" +:+ filename +:+
                       "' in interpreter mode...")]
              (run_program_lines lines z)
        end
  end.

(** The [execute] branch.  The loop of [_run_program_lines] walks
    [self.program_lines] itself, not a copy; no line of a running program
    changes the buffer (lemma [runtime_line_frame]), so the list walked is
    the buffer as it was when the loop started. *)
Definition execute_command (is_runtime_execution : bool) (z : ZCLILanguage)
  : outcome :=
  if negb is_runtime_execution then
    match mode z with
    | compiler =>
        match program_lines z with
        | [] =>
            say [Notice "No program lines to execute. Add commands in compiler mode first."] z
        | _ :: _ =>
            let original_mode := mode z in
            let o := run_program_lines (program_lines z) (set_mode interpreter z) in
            match how o with
            | Returned =>
                {| printed :=
                     [Notice (nl +:+ "--- Executing ZCLI Program ---")] ++ printed o
                     ++ [Notice ("--- Program Execution Complete ---" +:+ nl)];
                   after := set_mode original_mode (after o);
                   how := Returned |}
            | _ =>
                preceded [Notice (nl +:+ "--- Executing ZCLI Program ---")] o
            end
        end
    | interpreter =>
        say [Diagnostic WrongModeError
               "Error: 'execute' command is only available in compiler mode."] z
    end
  else
    say [Warning "Warning: 'execute' command ignored during program execution."] z.

(** The chain [if command == ... elif ...] inside the [try]. *)
Definition command_branches (command color_code processed_line : string)
    (parts : list string) (is_runtime_execution : bool) (z : ZCLILanguage)
  : outcome :=
  if String.eqb command "define" then
    define_command processed_line parts is_runtime_execution z
  else if String.eqb command "show" then
    show_command color_code processed_line parts z
  else if String.eqb command "help" then
    if negb is_runtime_execution then say [HelpText] z else ret z
  else if String.eqb command "save" then
    if negb is_runtime_execution then
      match parts with
      | _ :: filename :: _ => _save_program filename z
      | _ => say [Diagnostic SyntaxError "Error: Invalid save syntax. Use: save filename"] z
      end
    else ret z
  else if String.eqb command "open" then
    if negb is_runtime_execution then
      match parts with
      | _ :: filename :: _ => open_program filename z
      | _ => say [Diagnostic SyntaxError "Error: Invalid open syntax. Use: open filename.zcli"] z
      end
    else ret z
  else if String.eqb command "execute" then
    execute_command is_runtime_execution z
  else if String.eqb command "int" then
    if negb is_runtime_execution then
      say [Notice "Switched to interpreter mode. Commands will be executed immediately."]
        (set_mode interpreter z)
    else say [Warning "Warning: 'int' command ignored during program execution."] z
  else if String.eqb command "comp" then
    if negb is_runtime_execution then
      say [Notice "Switched to compiler mode. Commands will be stored for 'execute'."]
        (set_mode compiler z)
    else say [Warning "Warning: 'comp' command ignored during program execution."] z
  else
    if negb is_runtime_execution then
      say [Diagnostic UnknownCommandError
             ("Error: Unknown command '" +:+ command +:+ "'. Type 'help' for commands.")] z
    else ret z.

(** [except Exception as e] around the branches; [sys.exit] passes
    through it. *)
Definition except_Exception (command : string) (is_runtime_execution : bool)
    (o : outcome) : outcome :=
  match how o with
  | Raised e =>
      let report :=
        Crash ("Runtime Error during command '" +:+ command +:+ "': " +:+ e) in
      if is_runtime_execution then
        {| printed :=
             printed o ++ [report; Notice "Program execution halted due to the above error."];
           after := after o;
           how := SystemExit 1 |}
      else
        {| printed := printed o ++ [report]; after := after o; how := Returned |}
  | _ => o
  end.

(** [not line.strip() or line.strip().startswith('$')]: a line that is
    empty, white space only, or a comment. *)
Definition skipped (line : string) : bool :=
  Py.is_empty (Py.strip line) || Py.startswith "$" (Py.strip line).

(** The colour tag of a line: the events of [_get_ansi_color_code], the
    colour code and [processed_line]. *)
Definition color_tag_parsing (line : string) : list event * string * string :=
  match Py.color_tag_search line with
  | Some (before, color_name_or_hex) =>
      let (evs, color_code) := _get_ansi_color_code color_name_or_hex in
      (evs, color_code, Py.strip before)
  | None => ([], EmptyString, Py.strip line)
  end.

Definition parse_and_execute_line (line : string)
    (is_runtime_execution : bool) (z : ZCLILanguage) : outcome :=
  let z :=
    if negb is_runtime_execution
    then set_session_history (session_history z ++ [line]) z else z in
  if skipped line then ret z
  else
    let '(evs, color_code, processed_line) := color_tag_parsing line in
    let parts := Py.split 2 processed_line in
    match parts with
    | [] => say evs z
    | first :: _ =>
        let command := Py.lower first in
        preceded evs
          (except_Exception command is_runtime_execution
             (command_branches command color_code processed_line parts
                is_runtime_execution z))
    end.

End Dispatcher.

(** A line of a running program: with [is_runtime_execution=True] no
    branch reaches [_run_program_lines] (lemma
    [runtime_line_never_replays]), so any function closes the recursion. *)
Definition runtime_line (line : string) (z : ZCLILanguage) : outcome :=
  parse_and_execute_line (fun _ z => ret z) line true z.

(** [_run_program_lines]: the [for] loop, its [except SystemExit: raise]
    and its [except Exception]. *)
Fixpoint _run_program_lines (lines : list string) (z : ZCLILanguage) : outcome :=
  match lines with
  | [] => ret z
  | line :: rest =>
      let o := runtime_line line z in
      match how o with
      | Returned => preceded (printed o) (_run_program_lines rest (after o))
      | SystemExit code => o
      | Raised e =>
          {| printed :=
               printed o ++
               [Crash ("Error executing line '" +:+ line +:+ "': " +:+ e);
                Notice "Program execution halted."];
             after := after o;
             how := SystemExit 1 |}
      end
  end.

Definition _parse_and_execute_line
  : string -> bool -> ZCLILanguage -> outcome :=
  parse_and_execute_line _run_program_lines.

Definition _open_program : string -> ZCLILanguage -> outcome :=
  open_program _run_program_lines.

(** *** [run_repl] *)

(** [run_repl(file_to_execute)]: the body of [if file_to_execute:], the
    branch that runs a file and returns.  The test itself is in
    [run_repl_with] below: the branch is taken for a name that is not
    empty. *)
Definition run_file (file_to_execute : string) (z : ZCLILanguage) : outcome :=
  match files z !! file_to_execute with
  | None =>
      {| printed :=
           [Diagnostic IOFailure ("Error: File '" +:+ file_to_execute +:+ "' not found.")];
         after := z;
         how := SystemExit 1 |}
  | Some _ =>
      let original_mode := mode z in
      let o := _open_program file_to_execute (set_mode interpreter z) in
      match how o with
      | Raised e =>
          {| printed := [Notice ("Executing ZCLI file: " +:+ file_to_execute)] ++ printed o;
             after := set_mode original_mode (after o);
             how := Raised e |}
      | _ =>
          (* except SystemExit: pass *)
          {| printed :=
               [Notice ("Executing ZCLI file: " +:+ file_to_execute)] ++ printed o
               ++ [Notice ("Finished executing " +:+ file_to_execute +:+ ".")];
             after := set_mode original_mode (after o);
             how := Returned |}
      end
  end.

Definition control_commands : list string :=
  ["execute"; "help"; "save"; "open"; "int"; "comp"; "exit"].

(** One turn of the [while True] loop, for the line [input] returned:
    the loop is left ([Leave]) or goes on ([Again]). *)
Inductive turn :=
| Leave (o : outcome)
| Again (o : outcome).

Definition repl_line (user_input : string) (z : ZCLILanguage) : turn :=
  if String.eqb (Py.lower user_input) "exit" then
    Leave (say [Notice "Exiting ZCLI. Goodbye!"] z)
  else
    let o :=
      match mode z with
      | compiler =>
          let temp_line_for_command_check :=
            Py.strip (Py.color_tag_sub user_input) in
          if existsb
               (fun cmd => Py.startswith cmd (Py.lower temp_line_for_command_check))
               control_commands
          then _parse_and_execute_line user_input false z
          else ret (set_program_lines (program_lines z ++ [user_input]) z)
      | interpreter => _parse_and_execute_line user_input false z
      end in
    (* except Exception as e *)
    match how o with
    | Raised e =>
        Again {| printed := printed o ++ [Crash ("An unexpected error occurred: " +:+ e)];
                 after := after o; how := Returned |}
    | _ => Again o
    end.

(** The interpreter as [__init__] leaves it, in a given environment. *)
Definition initial (input : list string) (fs : gmap string string) : ZCLILanguage :=
  {| variables := ∅; program_lines := []; mode := compiler;
     session_history := []; last_input_value := None;
     stdin := input; files := fs; denied := ∅ |}.

(** The command word [_parse_and_execute_line] dispatches on:
    [parts[0].lower()], when the line is not skipped. *)
Definition command_word (line : string) : option string :=
  if skipped line then None
  else
    match Py.split 2 (color_tag_parsing line).2 with
    | [] => None
    | first :: _ => Some (Py.lower first)
    end.

(** *** The interactive loop of [run_repl] *)

(** The prompt of [input(f"ZCLI {prompt_char} ")]. *)
Definition repl_prompt (z : ZCLILanguage) : string :=
  "ZCLI " +:+ match mode z with interpreter => ">>" | compiler => ">" end +:+ " ".

(** The [while True] loop.  [input] writes the prompt and takes the next
    pending line; at the end of the input it raises [EOFError], which the
    loop answers with a farewell and [break].  A [SystemExit] raised in a
    turn leaves [run_repl].  Every turn takes a line of the pending input;
    [fuel] bounds the number of turns, and [None] says that it did not
    suffice (theorem [X10_run_repl_ends]: more fuel than pending lines
    always suffices). *)
Fixpoint repl_loop (fuel : nat) (z : ZCLILanguage) : option outcome :=
  match fuel with
  | 0 => None
  | S fuel =>
      match stdin z with
      | [] =>
          Some (say [Prompt (repl_prompt z);
                     Notice (nl +:+ "Exiting ZCLI. Goodbye!")] z)
      | user_input :: more =>
          match repl_line user_input (set_stdin more z) with
          | Leave o => Some (preceded [Prompt (repl_prompt z)] o)
          | Again o =>
              match how o with
              | Returned =>
                  match repl_loop fuel (after o) with
                  | Some o' =>
                      Some (preceded (Prompt (repl_prompt z) :: printed o) o')
                  | None => None
                  end
              | _ => Some (preceded [Prompt (repl_prompt z)] o)
              end
          end
      end
  end.

(** [run_repl()] without a file. *)
Definition run_repl (fuel : nat) (z : ZCLILanguage) : option outcome :=
  match repl_loop fuel z with
  | Some o => Some (preceded [Notice "Welcome to ZCLI! Type 'help' for commands."] o)
  | None => None
  end.


(* ===================================================================== *)
(** ** Notions used in the statements *)
(* ===================================================================== *)

(** The interpreter a directly typed line is recorded in. *)
Definition recorded (line : string) (is_runtime_execution : bool)
    (z : ZCLILanguage) : ZCLILanguage :=
  if negb is_runtime_execution
  then set_session_history (session_history z ++ [line]) z else z.

(** What the two interpreters agree on when only the variable store, the
    input slot and the pending input may differ. *)
Definition same_session (z z' : ZCLILanguage) : Prop :=
  program_lines z' = program_lines z /\ mode z' = mode z /\
  session_history z' = session_history z /\
  files z' = files z /\ denied z' = denied z.

(** The kinds a [define] or a [show] can fail with. *)
Definition operand_failure (k : error_kind) : Prop :=
  k = SyntaxError \/ k = UndefinedVariableError \/
  k = UnboundInputError \/ k = InvalidOperandError.

Definition is_warning (e : event) : Prop := exists text, e = Warning text.

(** What the [define] branch can do. *)
Inductive define_result (is_runtime_execution : bool) (z : ZCLILanguage)
  : outcome -> Prop :=
| define_failed k text :
    operand_failure k ->
    define_result is_runtime_execution z (say [Diagnostic k text] z)
| define_stored var_name value :
    define_result is_runtime_execution z
      (say (if is_runtime_execution then []
            else [Notice ("Defined variable '" +:+ var_name +:+
                          "' with value '" +:+ value +:+ "'")])
         (set_variables (<[var_name := value]> (variables z)) z)).

(** What the [show] branch can do. *)
Inductive show_result (z : ZCLILanguage) : outcome -> Prop :=
| show_failed k text :
    operand_failure k -> show_result z (say [Diagnostic k text] z)
| show_shown color_code content :
    show_result z (say [Shown color_code content] z)
| show_prompted prompt answer more :
    stdin z = answer :: more ->
    show_result z
      (say [Prompt prompt]
         (set_last_input_value (Some answer) (set_stdin more z)))
| show_end_of_input prompt :
    stdin z = [] ->
    show_result z
      {| printed := [Prompt prompt]; after := z; how := Raised EOFError_text |}.

(** What a line of a running program can do: nothing but warnings, a
    diagnostic, a store, a print, a prompt that is answered, or a prompt at
    the end of the input, which ends the process. *)
Inductive runtime_result (z : ZCLILanguage) : outcome -> Prop :=
| runtime_quiet evs :
    Forall is_warning evs -> runtime_result z (say evs z)
| runtime_failed evs k text :
    Forall is_warning evs -> operand_failure k ->
    runtime_result z (say (evs ++ [Diagnostic k text]) z)
| runtime_stored evs var_name value :
    Forall is_warning evs ->
    runtime_result z
      (say evs (set_variables (<[var_name := value]> (variables z)) z))
| runtime_shown evs color_code content :
    Forall is_warning evs ->
    runtime_result z (say (evs ++ [Shown color_code content]) z)
| runtime_prompted evs prompt answer more :
    Forall is_warning evs -> stdin z = answer :: more ->
    runtime_result z
      (say (evs ++ [Prompt prompt])
         (set_last_input_value (Some answer) (set_stdin more z)))
| runtime_halted evs prompt :
    Forall is_warning evs -> stdin z = [] ->
    runtime_result z
      {| printed :=
           evs ++ [Prompt prompt;
                   Crash ("Runtime Error during command 'show': " +:+ EOFError_text);
                   Notice "Program execution halted due to the above error."];
         after := z;
         how := SystemExit 1 |}.

(** A program whose first line refers to an undefined variable. *)
Definition failing_program : list string :=
  ["show (x)"; "define y " +:+ dq +:+ "1" +:+ dq; "show (y)"].

Definition failing_file : string :=
  "show (x)" +:+ nl +:+ "define y " +:+ dq +:+ "1" +:+ dq +:+ nl +:+ "show (y)" +:+ nl.

(** Splitting at every colon, white space left in place: the pieces
    between the colons. *)
Fixpoint pieces (cur s : string) : list string :=
  match s with
  | EmptyString => [cur]
  | String c s' =>
      if Ascii.eqb c ":" then cur :: pieces EmptyString s'
      else pieces (cur +:+ String c EmptyString) s'
  end.

Definition split_at_colons (s : string) : list string := pieces EmptyString s.

(** The value a [define] stores and the content a [show] prints for an
    argument string, as the loops of the source compute them; [None] when
    the loop returns early. *)
Definition define_value (vars : gmap string string) (last_input : option string)
    (argument : string) : option string :=
  match define_loop vars last_input (concatenation_parts_of argument) [] with
  | inr evaluated_value_parts => Some (Py.join evaluated_value_parts)
  | inl _ => None
  end.

Definition show_value (vars : gmap string string) (argument : string)
  : option string :=
  match show_loop vars (concatenation_parts_of argument) [] with
  | inr final_output_content_parts => Some (Py.join final_output_content_parts)
  | inl _ => None
  end.

(** The operand rules in the words of the specification: a double-quoted
    segment yields what stands between the quotes, a segment in one or two
    layers of parentheses yields the variable of that name. *)
Definition resolve_operand (vars : gmap string string) (segment : string)
  : option string :=
  if wrapped dq dq segment then Some (Py.slice_1_m1 segment)
  else if wrapped "(" ")" segment then
    let name := Py.slice_1_m1 segment in
    vars !! (if wrapped "(" ")" name then Py.slice_1_m1 name else name)
  else None.

(** The rules of [define]: the input placeholder, in any letter case,
    yields the last input and comes before the variable references. *)
Definition resolve_define_operand (vars : gmap string string)
    (last_input : option string) (segment : string) : option string :=
  if wrapped dq dq segment then Some (Py.slice_1_m1 segment)
  else if String.eqb (Py.lower segment) "((input))" then last_input
  else resolve_operand vars segment.

(** Concatenation in the words of the specification: split on the colon
    token with its surrounding white space, drop the empty segments,
    resolve the others, join without a separator. *)
Definition concatenation (resolve : string -> option string) (argument : string)
  : option string :=
  Py.join <$>
    mapM resolve
      (List.filter (fun segment => negb (Py.is_empty segment))
         (concatenation_parts_of argument)).

Definition values_of (r : event + list string) : option (list string) :=
  match r with inr l => Some l | inl _ => None end.

(** The lines that reach the loop of the [define] branch, with the
    variable name and [full_value_argument] as the branch computes them. *)
Definition define_syntax (line : string) : option (string * string) :=
  if skipped line then None
  else
    let processed_line := (color_tag_parsing line).2 in
    match Py.split 2 processed_line with
    | first :: var_name :: _ :: _ =>
        if String.eqb (Py.lower first) "define" then
          Some (var_name,
                Py.strip
                  (Py.slice_from
                     (String.length "define" + String.length var_name + 1)
                     processed_line))
        else None
    | _ => None
    end.

(** The lines that reach the loop of the [show] branch, with the colour
    code and [full_show_argument]. *)
Definition show_syntax (line : string) : option (string * string) :=
  if skipped line then None
  else
    let processed_line := (color_tag_parsing line).2 in
    match Py.split 2 processed_line with
    | first :: target :: _ =>
        if String.eqb (Py.lower first) "show"
           && negb (String.eqb (Py.lower target) "input")
           && negb (String.eqb (Py.lower target) "((input))")
        then
          Some ((color_tag_parsing line).1.2,
                Py.strip (Py.slice_from (String.length "show") processed_line))
        else None
    | _ => None
    end.

Definition full_name_line : string :=
  "define full (first) : " +:+ dq +:+ " " +:+ dq +:+ " : (last)".

(** A session in which a variable is called [input]. *)
Definition input_named_session : ZCLILanguage :=
  set_last_input_value (Some "typed")
    (set_variables {[ "input" := "stored" ]} (set_mode interpreter (initial [] ∅))).

(** A session that knows [first] and [last]. *)
Definition names_session : ZCLILanguage :=
  set_variables {[ "first" := "Jane"; "last" := "Doe" ]} (initial [] ∅).

(** A test on the end of a line that every line with a colour tag passes:
    read backwards, after the trailing white space come two closing
    parentheses, a non-empty run of [[a-zA-Z0-9#]], and a white space
    character. *)
Fixpoint drop_spaces (l : list ascii) : list ascii :=
  match l with
  | [] => []
  | c :: l' => if Py.isspace c then drop_spaces l' else l
  end.

Fixpoint span_color_chars (l : list ascii) : list ascii * list ascii :=
  match l with
  | [] => ([], [])
  | c :: l' =>
      if Py.is_color_char c
      then let (n, r) := span_color_chars l' in (c :: n, r)
      else ([], l)
  end.

Definition may_end_with_tag (s : string) : bool :=
  match drop_spaces (rev (String.list_ascii_of_string s)) with
  | ")"%char :: ")"%char :: l =>
      let (n, r) := span_color_chars l in
      match n, r with
      | _ :: _, c :: _ => Py.isspace c
      | _, _ => false
      end
  | _ => false
  end.

(** A word: not empty, no white space. *)
Definition is_token (s : string) : bool :=
  negb (Py.is_empty s) && Py.all_chars (fun c => negb (Py.isspace c)) s.

(** An argument as it stands in a stripped line: not empty, no white
    space at either end. *)
Definition is_stripped (s : string) : bool :=
  negb (Py.is_empty s) && String.eqb (Py.strip s) s.

Definition unbound_define : event :=
  Diagnostic UnboundInputError
    "Error: No input has been provided yet via 'show input' for 'define ((input))'.".

Definition unbound_show : event :=
  Diagnostic UnboundInputError
    "Error: No input has been provided yet via 'show input' for 'show ((input))'.".



(** The example of the specification: [define y "1"] is buffered, then
    [execute] runs it. *)
Definition buffered_session : ZCLILanguage :=
  set_program_lines ["define y " +:+ dq +:+ "1" +:+ dq] (initial [] ∅).

(** The same outcome in another file system. *)
Definition in_files (fs : gmap string string) (o : outcome) : outcome :=
  {| printed := printed o; after := set_files fs (after o); how := how o |}.

Definition meta_commands : list string :=
  ["save"; "open"; "execute"; "int"; "comp"; "help"].

(** The warning of the three meta-commands that print one. *)
Definition ignored_warning (command : string) : list event :=
  if String.eqb command "execute" || String.eqb command "int"
     || String.eqb command "comp"
  then [Warning ("Warning: '" +:+ command +:+
                 "' command ignored during program execution.")]
  else [].

(** The path [_save_program] writes to: the suffix is looked for in the
    lower-cased name. *)
Definition zcli_path (filename : string) : string :=
  if negb (Py.endswith ".zcli" (Py.lower filename))
  then filename +:+ ".zcli" else filename.

(** What [_save_program] persists. *)
Definition saved_lines (z : ZCLILanguage) : list string :=
  match mode z with
  | compiler => program_lines z
  | interpreter => session_history z
  end.

Definition saved_notice (filename : string) (z : ZCLILanguage) : event :=
  match mode z with
  | compiler => Notice ("Program (compiler buffer) saved to '" +:+ filename +:+ "'.")
  | interpreter => Notice ("Session history saved to '" +:+ filename +:+ "'.")
  end.

(** A character that does not end a line of a text file. *)
Definition no_line_break (c : ascii) : bool :=
  negb (Ascii.eqb c "010") && negb (Ascii.eqb c "013").

(** A buffer of two lines, saved as [out]. *)
Definition two_line_session : ZCLILanguage :=
  set_program_lines ["define y " +:+ dq +:+ "1" +:+ dq; "show (y)"] (initial [] ∅).

(** The same outcome with another content of the input slot. *)
Definition in_slot (slot : option string) (o : outcome) : outcome :=
  {| printed := printed o; after := set_last_input_value slot (after o);
     how := how o |}.

Definition quoted_x_then_input : string :=
  "show " +:+ dq +:+ "x" +:+ dq +:+ " : ((input))".

Definition input_undefined : event :=
  Diagnostic UndefinedVariableError
    "Error: Variable 'input' not defined in concatenation.".

(** A session whose slot is set while no variable is called [input]. *)
Definition slot_only_session : ZCLILanguage :=
  set_last_input_value (Some "typed") (set_mode interpreter (initial [] ∅)).

(** The lines [_open_program] takes from the content of a file:
    [[line.strip() for line in f if line.strip()]]. *)
Definition loaded_lines (content : string) : list string :=
  List.filter (fun l => negb (Py.is_empty l)) (map Py.strip (Py.file_lines content)).

Definition file_not_found (filename : string) : event :=
  Diagnostic IOFailure ("Error: File '" +:+ filename +:+ "' not found.").

Definition file_not_opened (filename : string) : event :=
  Diagnostic IOFailure
    ("Error opening file '" +:+ filename +:+ "': " +:+ permission_denied filename).

(** A session with a buffer of three typed lines, two of them with
    white space around them or empty. *)
Definition untidy_session : ZCLILanguage :=
  set_program_lines ["  show (y)  "; ""; "define y " +:+ dq +:+ "1" +:+ dq] (initial [] ∅).

(** What a session never loses: the buffer and the history only grow at
    their end, variables and files are never removed, the paths that
    cannot be opened stay the same, and pending input is only consumed
    from the front. *)
Definition grows (z z' : ZCLILanguage) : Prop :=
  program_lines z `prefix_of` program_lines z'
  /\ session_history z `prefix_of` session_history z'
  /\ dom (variables z) ⊆ dom (variables z')
  /\ dom (files z) ⊆ dom (files z')
  /\ denied z' = denied z
  /\ stdin z' `suffix_of` stdin z.

(** The outcome of a turn of the loop. *)
Definition turn_outcome (t : turn) : outcome :=
  match t with Leave o => o | Again o => o end.

(** The names of [self.ANSI_COLORS]. *)
Definition palette_names : list string :=
  ["red"; "orange"; "yellow"; "green"; "blue"; "indigo"; "violet"; "purple";
   "cyan"; "white"; "black"].

Definition hex_warning (color_name_or_hex : string) : event :=
  Warning ("Warning: Hex color '" +:+ color_name_or_hex +:+
           "' is not fully supported in this basic terminal environment. Displaying with default color.").

(** A colour directive as the pattern reads it: the keyword, one white
    space character and more white space, the name, two closing
    parentheses, white space. *)
Definition directive (c : ascii) (w2 name w3 : string) : string :=
  "((color" +:+ String c w2 +:+ name +:+ "))" +:+ w3.

Definition well_formed_directive (c : ascii) (w2 name w3 : string) : bool :=
  Py.isspace c && Py.all_chars Py.isspace w2
  && negb (Py.is_empty name) && Py.all_chars Py.is_color_char name
  && Py.all_chars Py.isspace w3.

(** The events of an outcome with every [Shown] event in the colour
    [color_code]. *)
Definition paint_event (color_code : string) (e : event) : event :=
  match e with
  | Shown _ content => Shown color_code content
  | _ => e
  end.

Definition paint (color_code : string) (o : outcome) : outcome :=
  {| printed := map (paint_event color_code) (printed o);
     after := after o;
     how := how o |}.

(** The last thing printed by a program that was halted, and the two
    farewells of the loop. *)
Definition halted : event := Notice "Program execution halted due to the above error.".
Definition goodbye : event := Notice "Exiting ZCLI. Goodbye!".
Definition goodbye_at_end_of_input : event := Notice (nl +:+ "Exiting ZCLI. Goodbye!").

(** How [run_repl] can end: [exit] was typed, the input ended, or a
    running program asked for input when none was left. *)
Inductive repl_end (o : outcome) : Prop :=
| end_exit_typed evs :
    how o = Returned -> printed o = evs ++ [goodbye] -> repl_end o
| end_of_input evs :
    how o = Returned -> stdin (after o) = [] ->
    printed o = evs ++ [goodbye_at_end_of_input] -> repl_end o
| end_halted evs :
    how o = SystemExit 1 -> stdin (after o) = [] ->
    printed o = evs ++ [halted] -> repl_end o.

(** A session that types two lines and then [exit]. *)
Definition typing_session : ZCLILanguage :=
  initial ["int"; "show input"; "Ann"; "exit"; "never read"] ∅.

(** No colon among the characters. *)
Definition colon_free (s : string) : bool :=
  Py.all_chars (fun c => negb (Ascii.eqb c ":")) s.

(** [define <name> "<text>"] and [show (<name>)]. *)
Definition define_literal_line (name text : string) : string :=
  "define " +:+ name +:+ " " +:+ dq +:+ text +:+ dq.

Definition show_variable_line (name : string) : string :=
  "show (" +:+ name +:+ ")".

Definition is_notice (e : event) : Prop := exists text, e = Notice text.

(** [define], two blanks, a name that ends in [c], one blank and a quoted
    text; and what the [define] branch takes for the value argument of
    that line. *)
Definition define_two_blanks_line (body : string) (c : ascii) (text : string) : string :=
  "define  " +:+ body +:+ String c (" " +:+ dq +:+ text +:+ dq).

Definition misplaced_argument (c : ascii) (text : string) : string :=
  String c (" " +:+ dq +:+ text +:+ dq).

Definition invalid_define_element (part : string) : event :=
  Diagnostic InvalidOperandError
    ("Error: Invalid element '" +:+ part +:+
     "' in define value concatenation. Must be a quoted string, ((input)), or (variable).").

(** The name a segment in parentheses refers to: one layer is removed,
    and a second one if what is left is still wrapped. *)
Definition referenced_name (segment : string) : string :=
  let name := Py.slice_1_m1 segment in
  if wrapped "(" ")" name then Py.slice_1_m1 name else name.

(** The diagnostic for a segment that does not resolve, in a [define] and
    in a [show]. *)
Definition define_diagnostic (segment : string) : event :=
  if String.eqb (Py.lower segment) "((input))" then unbound_define
  else if wrapped "(" ")" segment then
    Diagnostic UndefinedVariableError
      ("Error: Variable '" +:+ referenced_name segment +:+
       "' not defined in define concatenation.")
  else invalid_define_element segment.

Definition show_diagnostic (segment : string) : event :=
  if wrapped "(" ")" segment then
    Diagnostic UndefinedVariableError
      ("Error: Variable '" +:+ referenced_name segment +:+
       "' not defined in concatenation.")
  else
    Diagnostic InvalidOperandError
      ("Error: Invalid element '" +:+ segment +:+
       "' in show concatenation. Must be a quoted string or (variable).").

(** The segments of an argument that are not empty. *)
Definition nonempty_segments (argument : string) : list string :=
  List.filter (fun segment => negb (Py.is_empty segment))
    (concatenation_parts_of argument).

(** Two chains whose second segment names a variable [middle]. *)
Definition define_chain_line : string := "define full (first) : (middle) : (last)".
Definition show_chain_line : string := "show (first) : (middle) : (last)".

(* ===================================================================== *)
(** ** Facts about the string primitives *)
(* ===================================================================== *)

Module PyFacts.
Import Py.

Lemma append_empty_r (s : string) : s +:+ EmptyString = s.
Proof. induction s as [|c s IH]; simpl; [done | by rewrite IH]. Qed.

Lemma append_assoc (a b c : string) : (a +:+ b) +:+ c = a +:+ b +:+ c.
Proof. induction a as [|x a IH]; simpl; [done | by rewrite IH]. Qed.

Lemma length_append (a b : string) :
  String.length (a +:+ b) = String.length a + String.length b.
Proof. induction a as [|x a IH]; simpl; [done | by rewrite IH]. Qed.

Lemma lower_append (a b : string) : lower (a +:+ b) = lower a +:+ lower b.
Proof. induction a as [|c a IH]; simpl; [done | by rewrite IH]. Qed.

Lemma slice_from_append (a b : string) (n : nat) :
  slice_from (String.length a + n) (a +:+ b) = slice_from n b.
Proof. induction a as [|x a IH]; simpl; [done | apply IH]. Qed.

Lemma lstrip_decompose (s : string) :
  exists w, s = w +:+ lstrip s /\ all_chars isspace w = true.
Proof.
  induction s as [|c s (w & Hs & Hw)]; [by exists EmptyString |].
  simpl. destruct (isspace c) eqn:Ec.
  - exists (String c w). simpl. rewrite Ec, Hw. by rewrite <- Hs.
  - by exists EmptyString.
Qed.

Lemma lstrip_length (s : string) : String.length (lstrip s) <= String.length s.
Proof.
  induction s as [|c s IH]; simpl; [lia |].
  destruct (isspace c); simpl; lia.
Qed.

Lemma colon_at_shorter (s rest : string) :
  colon_at s = Some rest -> String.length rest < String.length s.
Proof.
  unfold colon_at. intros H.
  pose proof (lstrip_length s) as Hs.
  destruct (lstrip s) as [|c r] eqn:E; [discriminate |].
  destruct (Ascii.eqb_spec c ":") as [-> | Hc].
  - injection H as <-. pose proof (lstrip_length r). simpl in Hs. lia.
  - exfalso. revert H. clear -Hc.
    destruct c as [[] [] [] [] [] [] [] []]; try discriminate. by destruct Hc.
Qed.

(** The fuel of [re_split_colon] is never used up: any fuel above the
    length of the text gives the same pieces. *)
Lemma re_split_go_fuel (f1 f2 : nat) (cur s : string) :
  String.length s < f1 -> String.length s < f2 ->
  re_split_go f1 cur s = re_split_go f2 cur s.
Proof.
  revert f2 cur s. induction f1 as [|f1 IH]; intros f2 cur s H1 H2; [lia |].
  destruct f2 as [|f2]; [lia |]. simpl.
  destruct (colon_at s) as [rest|] eqn:E.
  - apply colon_at_shorter in E. f_equal. apply IH; lia.
  - destruct s as [|c s]; [done |]. simpl in *. apply IH; lia.
Qed.

End PyFacts.

Example split_example :
  Py.split 2 "define full (first) : x : (last)" = ["define"; "full"; "(first) : x : (last)"].
Proof. reflexivity. Qed.

Example re_split_example :
  Py.re_split_colon "(first) :  x:y ::  (last)" = ["(first)"; "x"; "y"; ""; "(last)"].
Proof. reflexivity. Qed.

Example color_tag_example :
  Py.color_tag_search "show (x)  ((color  red)) " = Some ("show (x)", "red").
Proof. reflexivity. Qed.

Example file_lines_example :
  Py.file_lines (String "a" (String "013" (String "010" (String "b" (String "013" (String "c" (String "010" EmptyString)))))))
  = ["a"; "b"; "c"; ""].
Proof. reflexivity. Qed.

(* ===================================================================== *)
(** ** Facts about the dispatcher *)
(* ===================================================================== *)

Lemma same_session_refl z : same_session z z.
Proof. by repeat split. Qed.

(** With [is_runtime_execution=True] no branch calls [_run_program_lines]. *)
Lemma runtime_line_never_replays (r1 r2 : list string -> ZCLILanguage -> outcome)
    (line : string) (z : ZCLILanguage) :
  parse_and_execute_line r1 line true z = parse_and_execute_line r2 line true z.
Proof. reflexivity. Qed.

Lemma _parse_and_execute_line_runtime (line : string) (z : ZCLILanguage) :
  _parse_and_execute_line line true z = runtime_line line z.
Proof. reflexivity. Qed.

(** A line with a command word reaches the branches. *)
Lemma parse_and_execute_line_dispatch run line rt z command :
  command_word line = Some command ->
  parse_and_execute_line run line rt z =
  preceded (color_tag_parsing line).1.1
    (except_Exception command rt
       (command_branches run command (color_tag_parsing line).1.2
          (color_tag_parsing line).2
          (Py.split 2 (color_tag_parsing line).2) rt (recorded line rt z))).
Proof.
  unfold command_word, parse_and_execute_line, recorded.
  destruct (skipped line); [intros H; discriminate H |].
  destruct (color_tag_parsing line) as [[evs color_code] processed_line].
  cbn [fst snd].
  destruct (Py.split 2 processed_line) as [|first more]; [intros H; discriminate H |].
  by intros [= <-].
Qed.

Lemma parse_and_execute_line_skipped run line rt z :
  skipped line = true ->
  parse_and_execute_line run line rt z = ret (recorded line rt z).
Proof. unfold parse_and_execute_line, recorded. by intros ->. Qed.

Lemma parse_and_execute_line_no_command run line rt z :
  skipped line = false -> command_word line = None ->
  parse_and_execute_line run line rt z =
  say (color_tag_parsing line).1.1 (recorded line rt z).
Proof.
  unfold command_word, parse_and_execute_line, recorded. intros ->.
  destruct (color_tag_parsing line) as [[evs color_code] processed_line].
  cbn [fst snd].
  by destruct (Py.split 2 processed_line).
Qed.

Lemma define_loop_error vars last_input parts acc e :
  define_loop vars last_input parts acc = inl e ->
  exists k text, e = Diagnostic k text /\ operand_failure k.
Proof.
  unfold operand_failure.
  revert acc. induction parts as [|part rest IH]; intros acc; simpl; [done |].
  repeat case_match; eauto; intros [= <-]; eauto 10.
Qed.

Lemma show_loop_error vars parts acc e :
  show_loop vars parts acc = inl e ->
  exists k text, e = Diagnostic k text /\ operand_failure k.
Proof.
  unfold operand_failure.
  revert acc. induction parts as [|part rest IH]; intros acc; simpl; [done |].
  repeat case_match; eauto; intros [= <-]; eauto 10.
Qed.

Lemma define_command_spec processed_line parts rt z :
  define_result rt z (define_command processed_line parts rt z).
Proof.
  unfold define_command.
  destruct parts as [|p0 [|var_name [|p2 more]]];
    try (apply define_failed; unfold operand_failure; by left).
  destruct (define_loop _ _ _ _) as [e | evaluated] eqn:E.
  - apply define_loop_error in E as (k & text & -> & Hk). by apply define_failed.
  - destruct rt.
    + exact (define_stored true z var_name (Py.join evaluated)).
    + exact (define_stored false z var_name (Py.join evaluated)).
Qed.

Lemma show_command_spec color_code processed_line parts z :
  show_result z (show_command color_code processed_line parts z).
Proof.
  unfold show_command.
  destruct parts as [|p0 [|target more]];
    try (apply show_failed; unfold operand_failure; by left).
  destruct (String.eqb (Py.lower target) "input") eqn:Etarget.
  - assert (Hprint : forall z', show_print color_code target EmptyString z' = ret z').
    { intros z'. unfold show_print. by rewrite Etarget. }
    destruct more as [|prompt_part more].
    + unfold _get_user_input. destruct (stdin z) as [|answer rest] eqn:Ein.
      * by apply show_end_of_input.
      * rewrite Hprint. by apply show_prompted.
    + destruct (wrapped dq dq prompt_part).
      * unfold _get_user_input. destruct (stdin z) as [|answer rest] eqn:Ein.
        -- by apply show_end_of_input.
        -- rewrite Hprint. by apply show_prompted.
      * apply show_failed. unfold operand_failure. by left.
  - assert (Hprint : forall content z',
      show_print color_code target content z' = say [Shown color_code content] z').
    { intros content z'. unfold show_print. rewrite Etarget.
      by rewrite orb_true_r. }
    destruct (String.eqb (Py.lower target) "((input))").
    + destruct (last_input_value z).
      * rewrite Hprint. apply show_shown.
      * apply show_failed. unfold operand_failure. auto.
    + destruct (show_loop _ _ _) as [e | content_parts] eqn:E.
      * apply show_loop_error in E as (k & text & -> & Hk). by apply show_failed.
      * rewrite Hprint. apply show_shown.
Qed.

Lemma color_tag_parsing_warnings line :
  Forall is_warning (color_tag_parsing line).1.1.
Proof.
  unfold color_tag_parsing, _get_ansi_color_code.
  destruct (Py.color_tag_search line) as [[before name]|]; [| by constructor].
  destruct (ANSI_COLORS !! Py.lower name); [by constructor |].
  destruct (Py.is_hex_color (Py.lower name)); cbn [fst snd]; [| by constructor].
  constructor; [by eexists | by constructor].
Qed.

Lemma preceded_say evs evs' z : preceded evs (say evs' z) = say (evs ++ evs') z.
Proof. reflexivity. Qed.

Lemma runtime_line_spec line z : runtime_result z (runtime_line line z).
Proof.
  unfold runtime_line.
  destruct (skipped line) eqn:Eskip.
  { rewrite parse_and_execute_line_skipped by done. by apply (runtime_quiet z []). }
  pose proof (color_tag_parsing_warnings line) as Hw.
  destruct (command_word line) as [command|] eqn:Eword.
  2: { rewrite parse_and_execute_line_no_command by done. by apply runtime_quiet. }
  rewrite (parse_and_execute_line_dispatch _ _ _ _ _ Eword).
  set (evs := (color_tag_parsing line).1.1) in *.
  unfold command_branches, recorded. cbn [negb].
  destruct (String.eqb_spec command "define") as [-> | _].
  { destruct (define_command_spec (color_tag_parsing line).2
                (Py.split 2 (color_tag_parsing line).2) true z).
    - by apply runtime_failed.
    - cbn [except_Exception how say]. rewrite preceded_say, app_nil_r.
      by apply runtime_stored. }
  destruct (String.eqb_spec command "show") as [-> | _].
  { destruct (show_command_spec (color_tag_parsing line).1.2
                (color_tag_parsing line).2
                (Py.split 2 (color_tag_parsing line).2) z).
    - by apply runtime_failed.
    - by apply runtime_shown.
    - by apply runtime_prompted.
    - by apply runtime_halted. }
  unfold execute_command. cbn [negb]. change (ret z) with (say [] z).
  assert (Hquiet : forall evs',
    Forall is_warning evs' ->
    runtime_result z (preceded evs (except_Exception command true (say evs' z)))).
  { intros evs' Hw'. apply (runtime_quiet z (evs ++ evs')), Forall_app. done. }
  assert (Hone : forall text, Forall is_warning [Warning text]).
  { intros text. constructor; [by eexists | by constructor]. }
  repeat (destruct (String.eqb command _); [by apply Hquiet |]).
  by apply Hquiet.
Qed.

(* ===================================================================== *)
(** ** Replay and errors (C1) *)
(* ===================================================================== *)

(** C1, as stated, fails: replayed by [execute], the program above prints
    the diagnostic of its first line and goes on; the later lines define
    and show [y], the call returns, and nothing exits.  The same holds for
    the file runner and for [open] in interpreter mode. *)
Lemma C1_replay_continues_after_diagnostic :
  printed (_parse_and_execute_line "execute" false
             (set_program_lines failing_program (initial [] ∅)))
  = [Notice (nl +:+ "--- Executing ZCLI Program ---");
     Diagnostic UndefinedVariableError "Error: Variable 'x' not defined in concatenation.";
     Shown "" "1";
     Notice ("--- Program Execution Complete ---" +:+ nl)]
  /\ how (_parse_and_execute_line "execute" false
            (set_program_lines failing_program (initial [] ∅))) = Returned
  /\ variables (after (_parse_and_execute_line "execute" false
            (set_program_lines failing_program (initial [] ∅)))) !! "y" = Some "1"
  /\ printed (run_file "p.zcli" (initial [] {[ "p.zcli" := failing_file ]}))
     = [Notice "Executing ZCLI file: p.zcli";
        Notice "Executing program from 'p.zcli' in interpreter mode...";
        Diagnostic UndefinedVariableError "Error: Variable 'x' not defined in concatenation.";
        Shown "" "1";
        Notice "Finished executing p.zcli."]
  /\ exit_status (run_file "p.zcli" (initial [] {[ "p.zcli" := failing_file ]})) = 0%Z.
Proof. repeat split; vm_compute; reflexivity. Qed.

(** C1 (amended).  When a line of a running program prints a diagnostic,
    the diagnostic is a syntax error, an undefined variable, an unbound
    input or an invalid operand; the line returns and leaves the
    interpreter as it was, and the replay goes on with the lines that
    follow.  The process is not ended by it. *)
Theorem C1_replay_diagnostic_is_not_fatal
    (line : string) (rest : list string) (z : ZCLILanguage)
    (k : error_kind) (text : string) :
  Diagnostic k text ∈ printed (_parse_and_execute_line line true z) ->
  operand_failure k
  /\ how (_parse_and_execute_line line true z) = Returned
  /\ after (_parse_and_execute_line line true z) = z
  /\ _run_program_lines (line :: rest) z
     = preceded (printed (_parse_and_execute_line line true z))
         (_run_program_lines rest z).
Proof.
  rewrite _parse_and_execute_line_runtime. cbn [_run_program_lines].
  assert (Hnot : forall evs, Forall is_warning evs -> ~ Diagnostic k text ∈ evs).
  { intros evs Hw Hin. rewrite Forall_forall in Hw.
    destruct (Hw _ Hin) as [? [=]]. }
  destruct (runtime_line_spec line z) as
    [evs Hw | evs k' text' Hw Hk | evs name value Hw | evs c s Hw
    | evs prompt answer more Hw Hin | evs prompt Hw Hin];
    cbn [printed after how say]; intros Hd.
  - by destruct (Hnot evs).
  - apply elem_of_app in Hd as [Hd | Hd]; [by destruct (Hnot evs) |].
    apply list_elem_of_singleton in Hd as [= -> ->]. done.
  - by destruct (Hnot evs).
  - apply elem_of_app in Hd as [Hd | Hd]; [by destruct (Hnot evs) |].
    by apply list_elem_of_singleton in Hd.
  - apply elem_of_app in Hd as [Hd | Hd]; [by destruct (Hnot evs) |].
    by apply list_elem_of_singleton in Hd.
  - apply elem_of_app in Hd as [Hd | Hd]; [by destruct (Hnot evs) |].
    repeat (apply elem_of_cons in Hd as [Hd | Hd]; [done |]).
    by apply elem_of_nil in Hd.
Qed.

Lemma C1_replay_diagnostic_is_not_fatal_witness :
  operand_failure UndefinedVariableError
  /\ how (_parse_and_execute_line "show (x)" true (initial [] ∅)) = Returned
  /\ after (_parse_and_execute_line "show (x)" true (initial [] ∅)) = initial [] ∅
  /\ _run_program_lines ("show (x)" :: ["show (y)"]) (initial [] ∅)
     = preceded (printed (_parse_and_execute_line "show (x)" true (initial [] ∅)))
         (_run_program_lines ["show (y)"] (initial [] ∅)).
Proof.
  apply (C1_replay_diagnostic_is_not_fatal "show (x)" ["show (y)"] (initial [] ∅)
           UndefinedVariableError
           "Error: Variable 'x' not defined in concatenation.").
  vm_compute. apply list_elem_of_here.
Defined.

(** *** The colon token

    Splitting on the pattern and stripping the parts is splitting at every
    colon and stripping the pieces. *)
Module ColonFacts.
Import Py PyFacts.

Lemma lstrip_spaces (w : string) : all_chars isspace w = true -> lstrip w = EmptyString.
Proof.
  induction w as [|c w IH]; [done |]. cbn [all_chars lstrip].
  intros [-> Hw]%andb_true_iff. by apply IH.
Qed.

Lemma lstrip_append_spaces (w s : string) :
  all_chars isspace w = true -> lstrip (w +:+ s) = lstrip s.
Proof.
  induction w as [|c w IH]; [done |]. cbn [all_chars String.append lstrip].
  intros [-> Hw]%andb_true_iff. by apply IH.
Qed.

Lemma rstrip_spaces (w : string) : all_chars isspace w = true -> rstrip w = EmptyString.
Proof.
  induction w as [|c w IH]; [done |]. cbn [all_chars rstrip].
  intros [-> Hw]%andb_true_iff. by rewrite IH.
Qed.

Lemma rstrip_append_spaces (s w : string) :
  all_chars isspace w = true -> rstrip (s +:+ w) = rstrip s.
Proof.
  intros Hw. induction s as [|c s IH]; [by apply rstrip_spaces |].
  cbn [String.append rstrip]. by rewrite IH.
Qed.

Lemma lstrip_append (a b : string) :
  lstrip (a +:+ b) = if is_empty (lstrip a) then lstrip b else lstrip a +:+ b.
Proof.
  induction a as [|c a IH]; [done |]. cbn [String.append lstrip].
  by destruct (isspace c).
Qed.

Lemma strip_append_spaces (s w : string) :
  all_chars isspace w = true -> strip (s +:+ w) = strip s.
Proof.
  intros Hw. unfold strip. rewrite lstrip_append.
  destruct (lstrip s) eqn:E; cbn [is_empty].
  - by rewrite lstrip_spaces.
  - by rewrite rstrip_append_spaces.
Qed.

Lemma strip_spaces_append (w s : string) :
  all_chars isspace w = true -> strip (w +:+ s) = strip s.
Proof. intros Hw. unfold strip. by rewrite lstrip_append_spaces. Qed.

Lemma pieces_cur (cur s : string) :
  pieces cur s
  = match pieces EmptyString s with
    | p :: ps => (cur +:+ p) :: ps
    | [] => []
    end.
Proof.
  revert cur. induction s as [|c s IH]; intros cur; cbn [pieces].
  - by rewrite append_empty_r.
  - destruct (Ascii.eqb c ":"); [by rewrite append_empty_r |].
    change (EmptyString +:+ String c EmptyString) with (String c EmptyString).
    rewrite (IH (cur +:+ String c EmptyString)), (IH (String c EmptyString)).
    destruct (pieces EmptyString s); [done |]. by rewrite append_assoc.
Qed.

Lemma pieces_spaces_colon (cur w r : string) :
  all_chars isspace w = true ->
  pieces cur (w +:+ String ":" r) = (cur +:+ w) :: pieces EmptyString r.
Proof.
  revert cur. induction w as [|c w IH]; intros cur.
  - intros _. cbn [String.append pieces]. by rewrite append_empty_r.
  - cbn [all_chars String.append pieces]. intros [Hc Hw]%andb_true_iff.
    destruct (Ascii.eqb_spec c ":") as [-> | _]; [discriminate Hc |].
    rewrite IH by done. by rewrite append_assoc.
Qed.

Lemma pieces_leading_spaces (s : string) :
  map strip (pieces EmptyString (lstrip s)) = map strip (pieces EmptyString s).
Proof.
  destruct (lstrip_decompose s) as (w & Hs & Hw).
  rewrite Hs at 2. clear Hs. revert Hw. generalize (lstrip s). intros t Hw.
  assert (Hgo : forall cur, all_chars isspace cur = true ->
            map strip (pieces cur t) = map strip (pieces EmptyString t)).
  { intros cur Hcur. rewrite (pieces_cur cur).
    destruct (pieces EmptyString t); [done |]. cbn [map].
    by rewrite strip_spaces_append. }
  symmetry. clear s. revert Hw. induction w as [|c w IH]; [done |].
  cbn [all_chars String.append pieces]. intros [Hc Hw]%andb_true_iff.
  destruct (Ascii.eqb_spec c ":") as [-> | _]; [discriminate Hc |].
  rewrite (pieces_cur (String c EmptyString)).
  rewrite <- (IH Hw). destruct (pieces EmptyString (w +:+ t)); [done |].
  cbn [map]. f_equal. change (String c EmptyString +:+ s) with (String c s).
  unfold strip. cbn [lstrip]. by rewrite Hc.
Qed.

Lemma colon_at_shape (s rest : string) :
  colon_at s = Some rest ->
  exists w r, s = w +:+ String ":" r /\ all_chars isspace w = true
              /\ rest = lstrip r.
Proof.
  unfold colon_at. intros H.
  destruct (lstrip_decompose s) as (w & Hs & Hw).
  destruct (lstrip s) as [|c r]; [discriminate H |].
  destruct (Ascii.eqb_spec c ":") as [-> | Hc].
  - injection H as <-. by exists w, r.
  - exfalso. revert H. clear -Hc.
    destruct c as [[] [] [] [] [] [] [] []]; try discriminate. by destruct Hc.
Qed.

Lemma colon_at_head (c : ascii) (s : string) :
  colon_at (String c s) = None -> Ascii.eqb c ":" = false.
Proof.
  destruct (Ascii.eqb_spec c ":") as [-> | _]; [| done].
  intros H. discriminate H.
Qed.

Lemma re_split_go_pieces (fuel : nat) (cur s : string) :
  String.length s < fuel ->
  map strip (re_split_go fuel cur s) = map strip (pieces cur s).
Proof.
  revert cur s. induction fuel as [|fuel IH]; intros cur s Hlen; [lia |].
  cbn [re_split_go]. destruct (colon_at s) as [rest|] eqn:E.
  - pose proof (colon_at_shorter _ _ E) as Hshort.
    apply colon_at_shape in E as (w & r & -> & Hw & ->).
    rewrite pieces_spaces_colon by done. cbn [map].
    rewrite strip_append_spaces by done. f_equal.
    rewrite IH by lia. apply pieces_leading_spaces.
  - destruct s as [|c s]; [done |].
    apply colon_at_head in E. cbn [pieces]. rewrite E.
    apply IH. simpl in Hlen. lia.
Qed.

(** [[p.strip() for p in re.split(r'\s*:\s*', s)]] are the stripped pieces
    between the colons of [s]. *)
Lemma concatenation_parts_of_pieces (s : string) :
  concatenation_parts_of s = map strip (split_at_colons s).
Proof.
  unfold concatenation_parts_of, re_split_colon, split_at_colons.
  apply re_split_go_pieces. lia.
Qed.

End ColonFacts.

(* ===================================================================== *)
(** ** Concatenation chains (C2) *)
(* ===================================================================== *)

Lemma show_loop_cons vars part rest acc :
  Py.is_empty part = false ->
  values_of (show_loop vars (part :: rest) acc)
  = resolve_operand vars part ≫= λ v, values_of (show_loop vars rest (acc ++ [v])).
Proof.
  intros Hpart. cbn [show_loop]. rewrite Hpart. unfold resolve_operand.
  destruct (wrapped dq dq part); [done |].
  destruct (wrapped "(" ")" part); [| done].
  by destruct (vars !! _).
Qed.

Lemma define_loop_cons vars last_input part rest acc :
  Py.is_empty part = false ->
  values_of (define_loop vars last_input (part :: rest) acc)
  = resolve_define_operand vars last_input part
    ≫= λ v, values_of (define_loop vars last_input rest (acc ++ [v])).
Proof.
  intros Hpart. cbn [define_loop]. rewrite Hpart.
  unfold resolve_define_operand, resolve_operand.
  destruct (wrapped dq dq part); [done |].
  destruct (String.eqb (Py.lower part) "((input))"); [by destruct last_input |].
  destruct (wrapped "(" ")" part); [| done].
  by destruct (vars !! _).
Qed.

Lemma show_loop_mapM vars parts acc :
  values_of (show_loop vars parts acc)
  = (acc ++.) <$>
      mapM (resolve_operand vars)
        (List.filter (fun segment => negb (Py.is_empty segment)) parts).
Proof.
  revert acc. induction parts as [|part rest IH]; intros acc.
  - simpl. by rewrite app_nil_r.
  - cbn [List.filter]. destruct (Py.is_empty part) eqn:Hpart; cbn [negb].
    + cbn [show_loop]. rewrite Hpart. apply IH.
    + rewrite show_loop_cons by done. cbn [mapM].
      destruct (resolve_operand vars part) as [v|]; [| done]. simpl.
      rewrite IH. destruct (mapM _ _); simpl; [| done].
      by rewrite <- app_assoc.
Qed.

Lemma define_loop_mapM vars last_input parts acc :
  values_of (define_loop vars last_input parts acc)
  = (acc ++.) <$>
      mapM (resolve_define_operand vars last_input)
        (List.filter (fun segment => negb (Py.is_empty segment)) parts).
Proof.
  revert acc. induction parts as [|part rest IH]; intros acc.
  - simpl. by rewrite app_nil_r.
  - cbn [List.filter]. destruct (Py.is_empty part) eqn:Hpart; cbn [negb].
    + cbn [define_loop]. rewrite Hpart. apply IH.
    + rewrite define_loop_cons by done. cbn [mapM].
      destruct (resolve_define_operand vars last_input part) as [v|]; [| done].
      simpl. rewrite IH. destruct (mapM _ _); simpl; [| done].
      by rewrite <- app_assoc.
Qed.

Lemma show_value_concatenation vars argument :
  show_value vars argument = concatenation (resolve_operand vars) argument.
Proof.
  unfold show_value, concatenation.
  pose proof (show_loop_mapM vars (concatenation_parts_of argument) []) as H.
  destruct (mapM _ _); destruct (show_loop _ _ _); simpl in *; congruence.
Qed.

Lemma define_value_concatenation vars last_input argument :
  define_value vars last_input argument
  = concatenation (resolve_define_operand vars last_input) argument.
Proof.
  unfold define_value, concatenation.
  pose proof (define_loop_mapM vars last_input (concatenation_parts_of argument) []) as H.
  destruct (mapM _ _); destruct (define_loop _ _ _ _); simpl in *; congruence.
Qed.

Lemma endswith_append (p a : string) : Py.endswith p (a +:+ p) = true.
Proof.
  induction a as [|c a IH]; simpl.
  - destruct p; simpl; [done |]. by rewrite Ascii.eqb_refl, String.eqb_refl.
  - rewrite IH. apply orb_true_r.
Qed.

Lemma drop_last_append_char (s : string) (c : ascii) :
  Py.drop_last (s +:+ String c EmptyString) = s.
Proof.
  induction s as [|x s IH]; [done |].
  cbn [String.append Py.drop_last]. rewrite IH. by destruct s.
Qed.

Lemma wrapped_between (open close : ascii) (s : string) :
  wrapped (String open EmptyString) (String close EmptyString)
    (String open (s +:+ String close EmptyString)) = true.
Proof.
  unfold wrapped. cbn [Py.startswith]. rewrite Ascii.eqb_refl. cbn [andb].
  change (String open (s +:+ String close EmptyString))
    with (String open s +:+ String close EmptyString).
  apply endswith_append.
Qed.

Lemma resolve_operand_quoted vars (s : string) :
  resolve_operand vars (dq +:+ s +:+ dq) = Some s.
Proof.
  unfold resolve_operand, dq. cbn [String.append].
  rewrite wrapped_between. cbn [Py.slice_1_m1]. by rewrite drop_last_append_char.
Qed.

Lemma resolve_operand_one_layer vars (name : string) :
  wrapped "(" ")" name = false ->
  resolve_operand vars ("(" +:+ name +:+ ")") = vars !! name.
Proof.
  intros Hname. unfold resolve_operand. cbn [String.append].
  rewrite wrapped_between. cbn [Py.slice_1_m1].
  rewrite drop_last_append_char, Hname. done.
Qed.

Lemma resolve_operand_two_layers vars (name : string) :
  wrapped "(" ")" name = false ->
  resolve_operand vars ("((" +:+ name +:+ "))") = vars !! name.
Proof.
  intros Hname. unfold resolve_operand. cbn [String.append].
  change (name +:+ "))") with (name +:+ ")" +:+ ")").
  rewrite <- PyFacts.append_assoc.
  change (String "(" (String "(" ((name +:+ ")") +:+ ")")))
    with (String "(" (String "(" (name +:+ ")") +:+ ")")).
  rewrite wrapped_between. cbn [Py.slice_1_m1].
  rewrite drop_last_append_char, wrapped_between. cbn [Py.slice_1_m1].
  by rewrite drop_last_append_char.
Qed.

Lemma define_syntax_command_word line var_name argument :
  define_syntax line = Some (var_name, argument) ->
  command_word line = Some "define".
Proof.
  unfold define_syntax, command_word.
  destruct (skipped line); [intros H; discriminate H |].
  destruct (Py.split 2 _) as [|first [|x [|y more]]]; try (intros H; discriminate H).
  destruct (String.eqb_spec (Py.lower first) "define") as [-> | _]; [done |].
  intros H; discriminate H.
Qed.

Lemma define_line run line rt z var_name argument :
  define_syntax line = Some (var_name, argument) ->
  parse_and_execute_line run line rt z =
  preceded (color_tag_parsing line).1.1
    match define_loop (variables z) (last_input_value z)
            (concatenation_parts_of argument) [] with
    | inl diagnostic => say [diagnostic] (recorded line rt z)
    | inr evaluated_value_parts =>
        say (if rt then []
             else [Notice ("Defined variable '" +:+ var_name +:+ "' with value '" +:+
                           Py.join evaluated_value_parts +:+ "'")])
          (set_variables
             (<[var_name := Py.join evaluated_value_parts]> (variables z))
             (recorded line rt z))
    end.
Proof.
  intros Hsyntax.
  rewrite (parse_and_execute_line_dispatch run line rt z "define")
    by (by eapply define_syntax_command_word).
  revert Hsyntax. unfold define_syntax.
  destruct (skipped line); [intros H; discriminate H |].
  destruct (Py.split 2 _) as [|first [|x [|y more]]]; try (intros H; discriminate H).
  destruct (String.eqb (Py.lower first) "define"); [| intros H; discriminate H].
  intros [= <- <-]. f_equal.
  unfold command_branches, define_command. cbn [String.eqb Ascii.eqb Bool.eqb].
  assert (Hv : variables (recorded line rt z) = variables z) by by destruct rt.
  assert (Hl : last_input_value (recorded line rt z) = last_input_value z)
    by by destruct rt.
  rewrite Hv, Hl.
  destruct (define_loop _ _ _ _); [done |]. by destruct rt.
Qed.

Lemma show_syntax_command_word line color_code argument :
  show_syntax line = Some (color_code, argument) ->
  command_word line = Some "show".
Proof.
  unfold show_syntax, command_word.
  destruct (skipped line); [intros H; discriminate H |].
  destruct (Py.split 2 _) as [|first [|x more]]; try (intros H; discriminate H).
  destruct (String.eqb_spec (Py.lower first) "show") as [-> | _]; [done |].
  intros H; discriminate H.
Qed.

Lemma show_line run line rt z color_code argument :
  show_syntax line = Some (color_code, argument) ->
  parse_and_execute_line run line rt z =
  preceded (color_tag_parsing line).1.1
    match show_loop (variables z) (concatenation_parts_of argument) [] with
    | inl diagnostic => say [diagnostic] (recorded line rt z)
    | inr final_output_content_parts =>
        say [Shown color_code (Py.join final_output_content_parts)]
          (recorded line rt z)
    end.
Proof.
  intros Hsyntax.
  rewrite (parse_and_execute_line_dispatch run line rt z "show")
    by (by eapply show_syntax_command_word).
  revert Hsyntax. unfold show_syntax.
  destruct (skipped line); [intros H; discriminate H |].
  destruct (Py.split 2 _) as [|first [|target more]]; try (intros H; discriminate H).
  destruct (String.eqb (Py.lower first) "show"); [| intros H; discriminate H].
  destruct (String.eqb (Py.lower target) "input") eqn:E1; [intros H; discriminate H |].
  destruct (String.eqb (Py.lower target) "((input))") eqn:E2; [intros H; discriminate H |].
  intros [= <- <-]. f_equal.
  unfold command_branches, show_command. cbn [String.eqb Ascii.eqb Bool.eqb].
  rewrite E1, E2.
  assert (Hv : variables (recorded line rt z) = variables z) by by destruct rt.
  rewrite Hv.
  destruct (show_loop _ _ _); [done |].
  unfold show_print. rewrite E1. by rewrite orb_true_r.
Qed.

Lemma resolve_define_operand_placeholder vars last_input segment :
  Py.lower segment = "((input))" ->
  resolve_define_operand vars last_input segment = last_input.
Proof.
  intros Hseg. unfold resolve_define_operand. rewrite Hseg.
  destruct segment as [|c segment]; [discriminate Hseg |].
  unfold wrapped. cbn [Py.startswith dq].
  destruct (Ascii.eqb_spec "034" c) as [<- | _]; [discriminate Hseg | done].
Qed.

Lemma resolve_define_operand_other vars last_input segment :
  String.eqb (Py.lower segment) "((input))" = false ->
  resolve_define_operand vars last_input segment = resolve_operand vars segment.
Proof.
  intros Hseg. unfold resolve_define_operand, resolve_operand. rewrite Hseg.
  by destruct (wrapped dq dq segment).
Qed.

(** C2, as stated, fails on the segment [((input))]: the claim resolves it
    to the variable [input], but [define] stores the last input, and a
    [show] whose first token it is prints the last input. *)
Lemma C2_input_placeholder_is_not_a_variable :
  concatenation (resolve_operand (variables input_named_session)) "((input))"
  = Some "stored"
  /\ define_value (variables input_named_session)
       (last_input_value input_named_session) "((input))" = Some "typed"
  /\ variables (after (_parse_and_execute_line "define x ((input))" false
                         input_named_session)) !! "x" = Some "typed"
  /\ printed (_parse_and_execute_line "show ((input))" false input_named_session)
     = [Shown "" "typed"]
  /\ define_value (variables input_named_session)
       (last_input_value input_named_session) "((input))"
     <> concatenation (resolve_operand (variables input_named_session)) "((input))".
Proof. repeat split; try (vm_compute; reflexivity). vm_compute. discriminate. Qed.

(** C2 (amended).  The segments of an argument string are the stripped
    pieces between its colons.  The content of a [show] chain is the
    concatenation of the specification: split on the colon token, drop the
    empty segments, resolve each one, join.  A quoted segment yields what is between the
    quotes; a name in one or two layers of parentheses, not itself
    parenthesised, yields the variable of that name.  The value of a
    [define] is the same concatenation, except that a segment equal to
    [((input))] in any letter case yields the last input.  The value is
    what the line stores, respectively prints; [define full (first) : " " :
    (last)] with [first = Jane] and [last = Doe] stores [Jane Doe]. *)
Theorem C2_concatenation :
  (forall argument,
     concatenation_parts_of argument = map Py.strip (split_at_colons argument))
  /\ (forall vars argument,
     show_value vars argument = concatenation (resolve_operand vars) argument)
  /\ (forall vars last_input argument,
        define_value vars last_input argument
        = concatenation (resolve_define_operand vars last_input) argument)
  /\ (forall vars s, resolve_operand vars (dq +:+ s +:+ dq) = Some s)
  /\ (forall vars name,
        wrapped "(" ")" name = false ->
        resolve_operand vars ("(" +:+ name +:+ ")") = vars !! name
        /\ resolve_operand vars ("((" +:+ name +:+ "))") = vars !! name)
  /\ (forall vars last_input segment,
        (Py.lower segment = "((input))" ->
         resolve_define_operand vars last_input segment = last_input)
        /\ (String.eqb (Py.lower segment) "((input))" = false ->
            resolve_define_operand vars last_input segment
            = resolve_operand vars segment))
  /\ (forall line rt z var_name argument value,
        define_syntax line = Some (var_name, argument) ->
        concatenation
          (resolve_define_operand (variables z) (last_input_value z)) argument
        = Some value ->
        variables (after (_parse_and_execute_line line rt z))
        = <[var_name := value]> (variables z))
  /\ (forall line rt z color_code argument content,
        show_syntax line = Some (color_code, argument) ->
        concatenation (resolve_operand (variables z)) argument = Some content ->
        printed (_parse_and_execute_line line rt z)
        = (color_tag_parsing line).1.1 ++ [Shown color_code content])
  /\ (forall rt z,
        variables z !! "first" = Some "Jane" ->
        variables z !! "last" = Some "Doe" ->
        variables (after (_parse_and_execute_line full_name_line rt z))
        = <["full" := "Jane Doe"]> (variables z)).
Proof.
  assert (Hdefine : forall line rt z var_name argument value,
    define_syntax line = Some (var_name, argument) ->
    concatenation
      (resolve_define_operand (variables z) (last_input_value z)) argument
    = Some value ->
    variables (after (_parse_and_execute_line line rt z))
    = <[var_name := value]> (variables z)).
  { intros line rt z var_name argument value Hsyntax Hvalue.
    unfold _parse_and_execute_line. rewrite (define_line _ _ _ _ _ _ Hsyntax).
    rewrite <- define_value_concatenation in Hvalue. unfold define_value in Hvalue.
    destruct (define_loop _ _ _ _); [discriminate Hvalue |].
    injection Hvalue as <-. done. }
  split; [exact ColonFacts.concatenation_parts_of_pieces |].
  split; [exact show_value_concatenation |].
  split; [exact define_value_concatenation |].
  split; [exact resolve_operand_quoted |].
  split.
  { intros vars name Hname.
    by rewrite resolve_operand_one_layer, resolve_operand_two_layers. }
  split.
  { intros vars last_input segment. split.
    - apply resolve_define_operand_placeholder.
    - apply resolve_define_operand_other. }
  split; [exact Hdefine |].
  split.
  { intros line rt z color_code argument content Hsyntax Hvalue.
    unfold _parse_and_execute_line. rewrite (show_line _ _ _ _ _ _ Hsyntax).
    rewrite <- show_value_concatenation in Hvalue. unfold show_value in Hvalue.
    destruct (show_loop _ _ _); [discriminate Hvalue |].
    injection Hvalue as <-. done. }
  intros rt z Hfirst Hlast.
  apply (Hdefine full_name_line rt z "full"
           ("(first) : " +:+ dq +:+ " " +:+ dq +:+ " : (last)")).
  - vm_compute. reflexivity.
  - unfold concatenation.
    assert (Hparts :
      concatenation_parts_of ("(first) : " +:+ dq +:+ " " +:+ dq +:+ " : (last)")
      = ["(first)"; dq +:+ " " +:+ dq; "(last)"]) by (vm_compute; reflexivity).
    rewrite Hparts. cbn [List.filter Py.is_empty negb dq String.append mapM].
    rewrite (resolve_define_operand_other _ _ "(first)") by (vm_compute; reflexivity).
    rewrite (resolve_define_operand_other _ _ "(last)") by (vm_compute; reflexivity).
    rewrite (resolve_operand_one_layer _ "first") by (vm_compute; reflexivity).
    rewrite (resolve_operand_one_layer _ "last") by (vm_compute; reflexivity).
    rewrite Hfirst, Hlast. vm_compute. reflexivity.
Qed.

Lemma C2_concatenation_witness :
  variables (after (_parse_and_execute_line full_name_line true names_session))
  = <["full" := "Jane Doe"]> (variables names_session).
Proof.
  destruct C2_concatenation as (_ & _ & _ & _ & _ & _ & _ & _ & Hexample).
  apply (Hexample true names_session); vm_compute; reflexivity.
Defined.

(* ===================================================================== *)
(** ** Failing chains (C3) *)
(* ===================================================================== *)

Lemma define_loop_app vars last_input before rest acc :
  define_loop vars last_input (before ++ rest) acc
  = match define_loop vars last_input before acc with
    | inl diagnostic => inl diagnostic
    | inr values => define_loop vars last_input rest values
    end.
Proof.
  revert acc. induction before as [|part before IH]; intros acc; [done |].
  cbn [app define_loop].
  destruct (Py.is_empty part); [apply IH |].
  destruct (wrapped dq dq part); [apply IH |].
  destruct (String.eqb (Py.lower part) "((input))");
    [destruct last_input; [apply IH | done] |].
  destruct (wrapped "(" ")" part); [| done].
  destruct (vars !! _); [apply IH | done].
Qed.

Lemma show_loop_app vars before rest acc :
  show_loop vars (before ++ rest) acc
  = match show_loop vars before acc with
    | inl diagnostic => inl diagnostic
    | inr values => show_loop vars rest values
    end.
Proof.
  revert acc. induction before as [|part before IH]; intros acc; [done |].
  cbn [app show_loop].
  destruct (Py.is_empty part); [apply IH |].
  destruct (wrapped dq dq part); [apply IH |].
  destruct (wrapped "(" ")" part); [| done].
  destruct (vars !! _); [apply IH | done].
Qed.

Lemma define_loop_first_failure vars last_input before segment rest acc values d :
  define_loop vars last_input before acc = inr values ->
  define_loop vars last_input [segment] values = inl d ->
  define_loop vars last_input (before ++ segment :: rest) acc = inl d.
Proof.
  intros Hbefore Hsegment. rewrite define_loop_app, Hbefore.
  revert Hsegment. cbn [define_loop]. repeat case_match; done.
Qed.

Lemma show_loop_first_failure vars before segment rest acc values d :
  show_loop vars before acc = inr values ->
  show_loop vars [segment] values = inl d ->
  show_loop vars (before ++ segment :: rest) acc = inl d.
Proof.
  intros Hbefore Hsegment. rewrite show_loop_app, Hbefore.
  revert Hsegment. cbn [show_loop]. repeat case_match; done.
Qed.

Lemma warnings_no_diagnostic evs k text :
  Forall is_warning evs -> ~ Diagnostic k text ∈ evs.
Proof.
  intros Hw Hin. rewrite Forall_forall in Hw. destruct (Hw _ Hin) as [? [=]].
Qed.

Lemma warnings_no_shown evs color_code content :
  Forall is_warning evs -> ~ Shown color_code content ∈ evs.
Proof.
  intros Hw Hin. rewrite Forall_forall in Hw. destruct (Hw _ Hin) as [? [=]].
Qed.

(** A [define] line that prints a diagnostic prints nothing else but
    colour warnings and changes nothing (but the history of typed lines). *)
Lemma define_line_failure run line rt z k text :
  command_word line = Some "define" ->
  Diagnostic k text ∈ printed (parse_and_execute_line run line rt z) ->
  parse_and_execute_line run line rt z
  = say ((color_tag_parsing line).1.1 ++ [Diagnostic k text]) (recorded line rt z).
Proof.
  intros Hword. rewrite (parse_and_execute_line_dispatch _ _ _ _ _ Hword).
  pose proof (color_tag_parsing_warnings line) as Hw.
  unfold command_branches. cbn [String.eqb Ascii.eqb Bool.eqb].
  destruct (define_command_spec (color_tag_parsing line).2
              (Py.split 2 (color_tag_parsing line).2) rt (recorded line rt z))
    as [k' text' Hk | var_name value];
    cbn [except_Exception how say preceded printed after]; intros Hin.
  - apply elem_of_app in Hin as [Hin | Hin]; [by apply warnings_no_diagnostic in Hin |].
    by apply list_elem_of_singleton in Hin as [= -> ->].
  - apply elem_of_app in Hin as [Hin | Hin]; [by apply warnings_no_diagnostic in Hin |].
    destruct rt; [by apply elem_of_nil in Hin |].
    by apply list_elem_of_singleton in Hin.
Qed.

(** The same for a [show] line. *)
Lemma show_line_failure run line rt z k text :
  command_word line = Some "show" ->
  Diagnostic k text ∈ printed (parse_and_execute_line run line rt z) ->
  parse_and_execute_line run line rt z
  = say ((color_tag_parsing line).1.1 ++ [Diagnostic k text]) (recorded line rt z).
Proof.
  intros Hword. rewrite (parse_and_execute_line_dispatch _ _ _ _ _ Hword).
  pose proof (color_tag_parsing_warnings line) as Hw.
  unfold command_branches. cbn [String.eqb Ascii.eqb Bool.eqb].
  destruct (show_command_spec (color_tag_parsing line).1.2 (color_tag_parsing line).2
              (Py.split 2 (color_tag_parsing line).2) (recorded line rt z))
    as [k' text' Hk | color_code content | prompt answer more _ | prompt _];
    cbn [except_Exception how say preceded printed after]; intros Hin.
  - apply elem_of_app in Hin as [Hin | Hin]; [by apply warnings_no_diagnostic in Hin |].
    by apply list_elem_of_singleton in Hin as [= -> ->].
  - apply elem_of_app in Hin as [Hin | Hin]; [by apply warnings_no_diagnostic in Hin |].
    by apply list_elem_of_singleton in Hin.
  - apply elem_of_app in Hin as [Hin | Hin]; [by apply warnings_no_diagnostic in Hin |].
    by apply list_elem_of_singleton in Hin.
  - exfalso. destruct rt; cbn [printed] in Hin;
      apply elem_of_app in Hin as [Hin | Hin];
      try (by apply warnings_no_diagnostic in Hin);
      repeat (apply elem_of_cons in Hin as [Hin | Hin]; [done |]);
      by apply elem_of_nil in Hin.
Qed.

Lemma values_of_inr (r : event + list string) (l : list string) :
  values_of r = Some l -> r = inr l.
Proof. destruct r; simpl; congruence. Qed.

Lemma define_loop_resolves vars last_input before acc values :
  mapM (resolve_define_operand vars last_input) before = Some values ->
  define_loop vars last_input before acc = inr (acc ++ values).
Proof.
  revert acc values. induction before as [|part before IH]; intros acc values.
  - simpl. intros [= <-]. by rewrite app_nil_r.
  - intros Hall. cbn [mapM] in Hall.
    destruct (resolve_define_operand vars last_input part) as [v|] eqn:Ev; [| discriminate Hall].
    destruct (mapM _ before) as [vs|] eqn:Evs; [| discriminate Hall].
    simpl in Hall. injection Hall as <-. apply values_of_inr.
    assert (Hne : Py.is_empty part = false).
    { destruct part; [vm_compute in Ev; discriminate Ev | done]. }
    rewrite define_loop_cons, Ev by done. simpl.
    rewrite (IH (acc ++ [v]) vs eq_refl). simpl. by rewrite <- app_assoc.
Qed.

Lemma show_loop_resolves vars before acc values :
  mapM (resolve_operand vars) before = Some values ->
  show_loop vars before acc = inr (acc ++ values).
Proof.
  revert acc values. induction before as [|part before IH]; intros acc values.
  - simpl. intros [= <-]. by rewrite app_nil_r.
  - intros Hall. cbn [mapM] in Hall.
    destruct (resolve_operand vars part) as [v|] eqn:Ev; [| discriminate Hall].
    destruct (mapM _ before) as [vs|] eqn:Evs; [| discriminate Hall].
    simpl in Hall. injection Hall as <-. apply values_of_inr.
    assert (Hne : Py.is_empty part = false).
    { destruct part; [vm_compute in Ev; discriminate Ev | done]. }
    rewrite show_loop_cons, Ev by done. simpl.
    rewrite (IH (acc ++ [v]) vs eq_refl). simpl. by rewrite <- app_assoc.
Qed.

Lemma define_segment_fails vars last_input segment rest values :
  Py.is_empty segment = false ->
  resolve_define_operand vars last_input segment = None ->
  define_loop vars last_input (segment :: rest) values
  = inl (define_diagnostic segment).
Proof.
  intros Hne. cbn [define_loop]. rewrite Hne.
  unfold resolve_define_operand, resolve_operand, define_diagnostic,
    referenced_name, unbound_define, invalid_define_element.
  destruct (wrapped dq dq segment); [intros H; discriminate H |].
  destruct (String.eqb (Py.lower segment) "((input))"); [by intros -> |].
  destruct (wrapped "(" ")" segment); [| done].
  cbn zeta. by intros ->.
Qed.

Lemma show_segment_fails vars segment rest values :
  Py.is_empty segment = false ->
  resolve_operand vars segment = None ->
  show_loop vars (segment :: rest) values = inl (show_diagnostic segment).
Proof.
  intros Hne. cbn [show_loop]. rewrite Hne.
  unfold resolve_operand, show_diagnostic, referenced_name.
  destruct (wrapped dq dq segment); [intros H; discriminate H |].
  destruct (wrapped "(" ")" segment); [| done].
  cbn zeta. by intros ->.
Qed.

Lemma define_loop_nonempty vars last_input parts acc :
  define_loop vars last_input
    (List.filter (fun segment => negb (Py.is_empty segment)) parts) acc
  = define_loop vars last_input parts acc.
Proof.
  revert acc. induction parts as [|part parts IH]; intros acc; [done |].
  cbn [List.filter define_loop].
  destruct (Py.is_empty part) eqn:Hpart; cbn [negb]; [apply IH |].
  cbn [define_loop]. rewrite Hpart.
  destruct (wrapped dq dq part); [apply IH |].
  destruct (String.eqb (Py.lower part) "((input))");
    [destruct last_input; [apply IH | done] |].
  destruct (wrapped "(" ")" part); [| done].
  destruct (vars !! _); [apply IH | done].
Qed.

Lemma show_loop_nonempty vars parts acc :
  show_loop vars (List.filter (fun segment => negb (Py.is_empty segment)) parts) acc
  = show_loop vars parts acc.
Proof.
  revert acc. induction parts as [|part parts IH]; intros acc; [done |].
  cbn [List.filter show_loop].
  destruct (Py.is_empty part) eqn:Hpart; cbn [negb]; [apply IH |].
  cbn [show_loop]. rewrite Hpart.
  destruct (wrapped dq dq part); [apply IH |].
  destruct (wrapped "(" ")" part); [| done].
  destruct (vars !! _); [apply IH | done].
Qed.

Lemma nonempty_segment argument before segment rest :
  nonempty_segments argument = before ++ segment :: rest ->
  Py.is_empty segment = false.
Proof.
  intros Hparts.
  assert (Hin : In segment (nonempty_segments argument)).
  { rewrite Hparts. apply in_elt. }
  unfold nonempty_segments in Hin. apply filter_In in Hin as [_ Hin].
  by apply negb_true_iff in Hin.
Qed.

(** A chain fails at its first segment that does not resolve. *)
Lemma define_chain_first_failure vars last_input argument before segment rest values :
  nonempty_segments argument = before ++ segment :: rest ->
  mapM (resolve_define_operand vars last_input) before = Some values ->
  resolve_define_operand vars last_input segment = None ->
  define_loop vars last_input (concatenation_parts_of argument) []
  = inl (define_diagnostic segment).
Proof.
  intros Hparts Hbefore Hsegment. rewrite <- define_loop_nonempty.
  fold (nonempty_segments argument).
  rewrite Hparts, define_loop_app, (define_loop_resolves _ _ _ _ _ Hbefore).
  apply define_segment_fails; [by eapply nonempty_segment | done].
Qed.

Lemma show_chain_first_failure vars argument before segment rest values :
  nonempty_segments argument = before ++ segment :: rest ->
  mapM (resolve_operand vars) before = Some values ->
  resolve_operand vars segment = None ->
  show_loop vars (concatenation_parts_of argument) [] = inl (show_diagnostic segment).
Proof.
  intros Hparts Hbefore Hsegment. rewrite <- show_loop_nonempty.
  fold (nonempty_segments argument).
  rewrite Hparts, show_loop_app, (show_loop_resolves _ _ _ _ Hbefore).
  apply show_segment_fails; [by eapply nonempty_segment | done].
Qed.

Lemma define_line_first_failure
    line rt z var_name argument before segment rest values :
  define_syntax line = Some (var_name, argument) ->
  nonempty_segments argument = before ++ segment :: rest ->
  mapM (resolve_define_operand (variables z) (last_input_value z)) before
  = Some values ->
  resolve_define_operand (variables z) (last_input_value z) segment = None ->
  _parse_and_execute_line line rt z
  = preceded (color_tag_parsing line).1.1
      (say [define_diagnostic segment] (recorded line rt z)).
Proof.
  intros Hsyntax Hparts Hbefore Hsegment. unfold _parse_and_execute_line.
  rewrite (define_line _ _ _ _ _ _ Hsyntax).
  by rewrite (define_chain_first_failure _ _ _ _ _ _ _ Hparts Hbefore Hsegment).
Qed.

Lemma show_line_first_failure
    line rt z color_code argument before segment rest values :
  show_syntax line = Some (color_code, argument) ->
  nonempty_segments argument = before ++ segment :: rest ->
  mapM (resolve_operand (variables z)) before = Some values ->
  resolve_operand (variables z) segment = None ->
  _parse_and_execute_line line rt z
  = preceded (color_tag_parsing line).1.1
      (say [show_diagnostic segment] (recorded line rt z)).
Proof.
  intros Hsyntax Hparts Hbefore Hsegment. unfold _parse_and_execute_line.
  rewrite (show_line _ _ _ _ _ _ Hsyntax).
  by rewrite (show_chain_first_failure _ _ _ _ _ _ Hparts Hbefore Hsegment).
Qed.

(** C3.  A chain fails with the diagnostic of its first segment that does
    not resolve, whatever follows it.  A [define] line that prints a
    diagnostic leaves the variable store (and everything but the history of
    typed lines) as it was; a [show] line that prints a diagnostic shows
    nothing.  A chain without a value makes the line print a diagnostic.
    For a [define] or [show] line whose chain has a segment that does not
    resolve after segments that do, the line prints the diagnostic of that
    segment and nothing else but the warnings of the colour, stores
    nothing and shows nothing.  [show (x)] with [x] undefined reports the
    undefined variable and leaves the store unchanged; so does
    [define full (first) : (middle) : (last)] with [middle] undefined. *)
Theorem C3_failing_chain_has_no_partial_effect :
  (forall vars last_input before segment rest acc values d,
     define_loop vars last_input before acc = inr values ->
     define_loop vars last_input [segment] values = inl d ->
     define_loop vars last_input (before ++ segment :: rest) acc = inl d)
  /\ (forall vars before segment rest acc values d,
        show_loop vars before acc = inr values ->
        show_loop vars [segment] values = inl d ->
        show_loop vars (before ++ segment :: rest) acc = inl d)
  /\ (forall line rt z k text,
        command_word line = Some "define" ->
        Diagnostic k text ∈ printed (_parse_and_execute_line line rt z) ->
        variables (after (_parse_and_execute_line line rt z)) = variables z
        /\ after (_parse_and_execute_line line rt z) = recorded line rt z)
  /\ (forall line rt z k text,
        command_word line = Some "show" ->
        Diagnostic k text ∈ printed (_parse_and_execute_line line rt z) ->
        (forall color_code content,
           ~ Shown color_code content ∈ printed (_parse_and_execute_line line rt z))
        /\ after (_parse_and_execute_line line rt z) = recorded line rt z)
  /\ (forall line rt z var_name argument,
        define_syntax line = Some (var_name, argument) ->
        define_value (variables z) (last_input_value z) argument = None ->
        exists k text,
          printed (_parse_and_execute_line line rt z)
          = (color_tag_parsing line).1.1 ++ [Diagnostic k text])
  /\ (forall line rt z color_code argument,
        show_syntax line = Some (color_code, argument) ->
        show_value (variables z) argument = None ->
        exists k text,
          printed (_parse_and_execute_line line rt z)
          = (color_tag_parsing line).1.1 ++ [Diagnostic k text])
  /\ (forall line rt z var_name argument before segment rest values,
        define_syntax line = Some (var_name, argument) ->
        nonempty_segments argument = before ++ segment :: rest ->
        mapM (resolve_define_operand (variables z) (last_input_value z)) before
        = Some values ->
        resolve_define_operand (variables z) (last_input_value z) segment = None ->
        _parse_and_execute_line line rt z
        = preceded (color_tag_parsing line).1.1
            (say [define_diagnostic segment] (recorded line rt z))
        /\ variables (after (_parse_and_execute_line line rt z)) = variables z)
  /\ (forall line rt z color_code argument before segment rest values,
        show_syntax line = Some (color_code, argument) ->
        nonempty_segments argument = before ++ segment :: rest ->
        mapM (resolve_operand (variables z)) before = Some values ->
        resolve_operand (variables z) segment = None ->
        _parse_and_execute_line line rt z
        = preceded (color_tag_parsing line).1.1
            (say [show_diagnostic segment] (recorded line rt z))
        /\ (forall color content,
              ~ Shown color content ∈ printed (_parse_and_execute_line line rt z)))
  /\ (forall rt z,
        variables z !! "x" = None ->
        printed (_parse_and_execute_line "show (x)" rt z)
        = [Diagnostic UndefinedVariableError
             "Error: Variable 'x' not defined in concatenation."]
        /\ variables (after (_parse_and_execute_line "show (x)" rt z))
           = variables z)
  /\ (forall rt z value,
        variables z !! "first" = Some value ->
        variables z !! "middle" = None ->
        _parse_and_execute_line define_chain_line rt z
        = say [Diagnostic UndefinedVariableError
                 "Error: Variable 'middle' not defined in define concatenation."]
            (recorded define_chain_line rt z)).
Proof.
  split; [exact define_loop_first_failure |].
  split; [exact show_loop_first_failure |].
  split.
  { intros line rt z k text Hword Hin. unfold _parse_and_execute_line in *.
    rewrite (define_line_failure _ _ _ _ _ _ Hword Hin). by destruct rt. }
  split.
  { intros line rt z k text Hword Hin. unfold _parse_and_execute_line in *.
    rewrite (show_line_failure _ _ _ _ _ _ Hword Hin). split; [| done].
    intros color_code content. cbn [printed say]. intros Hs.
    apply elem_of_app in Hs as [Hs | Hs].
    - by apply (warnings_no_shown _ _ _ (color_tag_parsing_warnings line)) in Hs.
    - by apply list_elem_of_singleton in Hs. }
  split.
  { intros line rt z var_name argument Hsyntax Hvalue.
    unfold _parse_and_execute_line. rewrite (define_line _ _ _ _ _ _ Hsyntax).
    unfold define_value in Hvalue.
    destruct (define_loop _ _ _ _) as [d|] eqn:E; [| discriminate Hvalue].
    apply define_loop_error in E as (k & text & -> & _). by exists k, text. }
  split.
  { intros line rt z color_code argument Hsyntax Hvalue.
    unfold _parse_and_execute_line. rewrite (show_line _ _ _ _ _ _ Hsyntax).
    unfold show_value in Hvalue.
    destruct (show_loop _ _ _) as [d|] eqn:E; [| discriminate Hvalue].
    apply show_loop_error in E as (k & text & -> & _). by exists k, text. }
  split.
  { intros line rt z var_name argument before segment rest values
      Hsyntax Hparts Hbefore Hsegment.
    rewrite (define_line_first_failure _ rt _ _ _ _ _ _ _
               Hsyntax Hparts Hbefore Hsegment).
    split; [done | by destruct rt]. }
  split.
  { intros line rt z color_code argument before segment rest values
      Hsyntax Hparts Hbefore Hsegment.
    rewrite (show_line_first_failure _ rt _ _ _ _ _ _ _
               Hsyntax Hparts Hbefore Hsegment).
    split; [done |]. intros color content. cbn [printed preceded say]. intros Hs.
    apply elem_of_app in Hs as [Hs | Hs].
    - by apply (warnings_no_shown _ _ _ (color_tag_parsing_warnings line)) in Hs.
    - apply list_elem_of_singleton in Hs. revert Hs.
      unfold show_diagnostic. by destruct (wrapped "(" ")" segment). }
  split.
  { intros rt z Hx. unfold _parse_and_execute_line.
    rewrite (show_line _ "show (x)" rt z "" "(x)") by (vm_compute; reflexivity).
    assert (Hparts : concatenation_parts_of "(x)" = ["(x)"]) by (vm_compute; reflexivity).
    assert (Hevs : (color_tag_parsing "show (x)").1.1 = []) by (vm_compute; reflexivity).
    rewrite Hparts, Hevs. cbn [show_loop].
    assert (Htests : Py.is_empty "(x)" = false /\ wrapped dq dq "(x)" = false
                     /\ wrapped "(" ")" "(x)" = true /\ Py.slice_1_m1 "(x)" = "x"
                     /\ wrapped "(" ")" "x" = false)
      by (vm_compute; done).
    destruct Htests as (-> & -> & -> & -> & ->). rewrite Hx.
    split; [done | by destruct rt]. }
  intros rt z value Hfirst Hmiddle.
  rewrite (define_line_first_failure define_chain_line rt z "full"
             "(first) : (middle) : (last)" ["(first)"] "(middle)" ["(last)"] [value]).
  - assert (Hevs : (color_tag_parsing define_chain_line).1.1 = [])
      by (vm_compute; reflexivity).
    by rewrite Hevs.
  - vm_compute. reflexivity.
  - vm_compute. reflexivity.
  - assert (Hone : resolve_define_operand (variables z) (last_input_value z) "(first)"
                   = variables z !! "first") by reflexivity.
    cbn [mapM]. by rewrite Hone, Hfirst.
  - assert (Hone : resolve_define_operand (variables z) (last_input_value z) "(middle)"
                   = variables z !! "middle") by reflexivity.
    by rewrite Hone.
Qed.

Lemma C3_failing_chain_has_no_partial_effect_witness :
  (_parse_and_execute_line define_chain_line false names_session
   = preceded (color_tag_parsing define_chain_line).1.1
       (say [define_diagnostic "(middle)"]
          (recorded define_chain_line false names_session))
   /\ variables (after (_parse_and_execute_line define_chain_line false names_session))
      = variables names_session)
  /\ (_parse_and_execute_line show_chain_line false names_session
      = preceded (color_tag_parsing show_chain_line).1.1
          (say [show_diagnostic "(middle)"]
             (recorded show_chain_line false names_session))
      /\ (forall color content,
            ~ Shown color content
              ∈ printed (_parse_and_execute_line show_chain_line false names_session))).
Proof.
  destruct C3_failing_chain_has_no_partial_effect
    as (_ & _ & _ & _ & _ & _ & Hdefine & Hshow & _).
  split.
  - apply (Hdefine define_chain_line false names_session "full"
             "(first) : (middle) : (last)" ["(first)"] "(middle)" ["(last)"] ["Jane"]);
      vm_compute; reflexivity.
  - apply (Hshow show_chain_line false names_session EmptyString
             "(first) : (middle) : (last)" ["(first)"] "(middle)" ["(last)"] ["Jane"]);
      vm_compute; reflexivity.
Defined.

(* ===================================================================== *)
(** ** Lines without a colour tag *)
(* ===================================================================== *)

Module TagFacts.
Import Py PyFacts.

Lemma chars_append (a b : string) :
  String.list_ascii_of_string (a +:+ b)
  = String.list_ascii_of_string a ++ String.list_ascii_of_string b.
Proof. induction a as [|c a IH]; simpl; [done | by rewrite IH]. Qed.

Lemma all_chars_forallb (p : ascii -> bool) (s : string) :
  all_chars p s = forallb p (String.list_ascii_of_string s).
Proof. induction s as [|c s IH]; simpl; [done | by rewrite IH]. Qed.

Lemma forallb_rev {A} (p : A -> bool) (l : list A) :
  forallb p (rev l) = forallb p l.
Proof.
  induction l as [|x l IH]; simpl; [done |].
  rewrite forallb_app, IH. simpl. rewrite andb_true_r. apply andb_comm.
Qed.

Lemma startswith_decompose (p s : string) :
  startswith p s = true -> s = p +:+ slice_from (String.length p) s.
Proof.
  revert s. induction p as [|a p IH]; intros s; [done |].
  destruct s as [|b s]; simpl; [intros H; discriminate H |].
  destruct (Ascii.eqb_spec a b) as [-> | _]; [| intros H; discriminate H].
  intros H. by rewrite <- (IH s H).
Qed.

Lemma span_color_decompose (s n r : string) :
  span_color s = (n, r) -> s = n +:+ r /\ all_chars is_color_char n = true.
Proof.
  revert n r. induction s as [|c s IH]; intros n r; simpl.
  - by intros [= <- <-].
  - destruct (is_color_char c) eqn:Ec.
    + destruct (span_color s) as [n' r'] eqn:E. intros [= <- <-].
      destruct (IH n' r' eq_refl) as [-> Hn]. simpl. by rewrite Ec, Hn.
    + by intros [= <- <-].
Qed.

Lemma lstrip_empty_all_space (s : string) :
  is_empty (lstrip s) = true -> all_chars isspace s = true.
Proof.
  induction s as [|c s IH]; simpl; [done |].
  destruct (isspace c); [done | intros H; discriminate H].
Qed.

(** A line the pattern matches is white space, the keyword, white space,
    the name, two parentheses and white space. *)
Lemma color_tag_at_shape (t name : string) :
  color_tag_at t = Some name ->
  exists w1 c w2 w3,
    t = w1 +:+ "((color" +:+ String c w2 +:+ name +:+ "))" +:+ w3
    /\ all_chars isspace w1 = true
    /\ isspace c = true /\ all_chars isspace w2 = true
    /\ all_chars is_color_char name = true /\ name <> EmptyString
    /\ all_chars isspace w3 = true.
Proof.
  unfold color_tag_at. intros H.
  destruct (lstrip_decompose t) as (w1 & Ht & Hw1).
  destruct (startswith "((color" (lstrip t)) eqn:Ekey; [| discriminate H].
  apply startswith_decompose in Ekey. cbn [String.length] in Ekey.
  destruct (slice_from 7 (lstrip t)) as [|c s2] eqn:E2; [discriminate H |].
  destruct (isspace c) eqn:Ec; [| discriminate H].
  cbn [lstrip] in H. rewrite Ec in H.
  destruct (lstrip_decompose s2) as (w2 & Hs2 & Hw2).
  destruct (span_color (lstrip s2)) as [n s4] eqn:Espan.
  apply span_color_decompose in Espan as [Hn1 Hn2].
  destruct (is_empty n) eqn:En; [discriminate H |].
  destruct (startswith "))" s4) eqn:Eclose; [| discriminate H].
  apply startswith_decompose in Eclose. cbn [String.length] in Eclose.
  destruct (is_empty (lstrip (slice_from 2 s4))) eqn:Eend; [| discriminate H].
  apply lstrip_empty_all_space in Eend.
  injection H as <-.
  exists w1, c, w2, (slice_from 2 s4). repeat split; try done.
  - etrans; [exact Ht |]. f_equal.
    etrans; [exact Ekey |]. f_equal. cbn [String.append]. f_equal.
    etrans; [exact Hs2 |]. f_equal.
    etrans; [exact Hn1 |]. f_equal. exact Eclose.
  - by destruct n.
Qed.

(** Every line with a colour tag passes the test on its end. *)
Lemma isspace_not_color_char (c : ascii) :
  isspace c = true -> is_color_char c = false.
Proof. destruct c as [[] [] [] [] [] [] [] []]; vm_compute; congruence. Qed.

Lemma drop_spaces_app (l1 l2 : list ascii) :
  forallb isspace l1 = true -> drop_spaces (l1 ++ l2) = drop_spaces l2.
Proof.
  induction l1 as [|c l1 IH]; simpl; [done |].
  intros [-> H]%andb_true_iff. by apply IH.
Qed.

Lemma span_color_chars_app (l1 : list ascii) (c : ascii) (l2 : list ascii) :
  forallb is_color_char l1 = true -> is_color_char c = false ->
  span_color_chars (l1 ++ c :: l2) = (l1, c :: l2).
Proof.
  intros H1 Hc. induction l1 as [|x l1 IH]; simpl.
  - by rewrite Hc.
  - simpl in H1. apply andb_true_iff in H1 as [-> H1]. by rewrite IH.
Qed.

Lemma color_tag_at_end (t name : string) :
  color_tag_at t = Some name -> may_end_with_tag t = true.
Proof.
  intros (w1 & c & w2 & w3 & -> & _ & Hc & Hw2 & Hn & Hne & Hw3)%color_tag_at_shape.
  unfold may_end_with_tag.
  rewrite !chars_append. cbn [String.list_ascii_of_string].
  repeat first [rewrite rev_app_distr | rewrite <- app_assoc | progress cbn [rev app]].
  rewrite drop_spaces_app by by rewrite forallb_rev, <- all_chars_forallb.
  cbn [drop_spaces]. change (isspace ")") with false. cbn iota.
  assert (Hname : rev (String.list_ascii_of_string name) <> []).
  { destruct name as [|x name]; [done |]. simpl. by destruct (rev _). }
  assert (Hcolor : forallb is_color_char (rev (String.list_ascii_of_string name)) = true)
    by by rewrite forallb_rev, <- all_chars_forallb.
  destruct (rev (String.list_ascii_of_string w2)) as [|d l2] eqn:E2.
  - cbn [app].
    rewrite span_color_chars_app by (done || by apply isspace_not_color_char).
    by destruct (rev (String.list_ascii_of_string name)).
  - assert (Hd : isspace d = true).
    { rewrite all_chars_forallb, <- forallb_rev, E2 in Hw2. simpl in Hw2.
      by apply andb_true_iff in Hw2 as [-> _]. }
    cbn [app].
    rewrite span_color_chars_app by (done || by apply isspace_not_color_char).
    by destruct (rev (String.list_ascii_of_string name)).
Qed.

Lemma color_tag_search_none (line : string) :
  (forall a b, line = a +:+ b -> color_tag_at b = None) ->
  color_tag_search line = None.
Proof.
  induction line as [|c line IH]; intros H; cbn [color_tag_search].
  - by rewrite (H EmptyString EmptyString).
  - rewrite (H EmptyString (String c line)) by done.
    rewrite IH; [done |]. intros a b ->. by apply (H (String c a) b).
Qed.

(** A line whose every tail fails the test has no colour tag. *)
Lemma no_tag_at (t : string) :
  may_end_with_tag t = false -> color_tag_at t = None.
Proof.
  intros H. destruct (color_tag_at t) eqn:E; [| done].
  apply color_tag_at_end in E. congruence.
Qed.

End TagFacts.

(* ===================================================================== *)
(** ** Lines written in the usual form *)
(* ===================================================================== *)

Module LineFacts.
Import Py PyFacts TagFacts.

Lemma lstrip_token (name rest : string) :
  is_token name = true -> lstrip (name +:+ rest) = name +:+ rest.
Proof.
  unfold is_token. destruct name as [|c name]; [done |]. simpl.
  destruct (isspace c); [intros H; discriminate H | done].
Qed.

Lemma break_space_token (name : string) (c : ascii) (rest : string) :
  is_token name = true -> isspace c = true ->
  break_space (name +:+ String c rest) = (name, String c rest).
Proof.
  unfold is_token. intros [_ Hname]%andb_true_iff Hc.
  induction name as [|x name IH]; simpl.
  - by rewrite Hc.
  - simpl in Hname. apply andb_true_iff in Hname as [Hx Hname].
    destruct (isspace x); [discriminate Hx |]. by rewrite IH.
Qed.

Lemma rstrip_append (a b : string) :
  is_empty (rstrip b) = false -> rstrip (a +:+ b) = a +:+ rstrip b.
Proof.
  intros Hb. induction a as [|c a IH]; [done |].
  cbn [String.append rstrip]. rewrite IH.
  destruct (a +:+ rstrip b) eqn:E; [| done].
  destruct a; [| discriminate E]. simpl in E. by rewrite E in Hb.
Qed.

Lemma is_stripped_spec (s : string) :
  is_stripped s = true ->
  exists c s', s = String c s' /\ isspace c = false
    /\ lstrip s = s /\ rstrip s = s.
Proof.
  unfold is_stripped, strip. intros [Hne Heq]%andb_true_iff.
  apply String.eqb_eq in Heq.
  destruct s as [|c s']; [discriminate Hne |].
  exists c, s'. split; [done |].
  destruct (isspace c) eqn:Ec.
  - exfalso. cbn [lstrip] in Heq. rewrite Ec in Heq.
    assert (Hlen : String.length (rstrip (lstrip s')) <= String.length s').
    { clear. pose proof (lstrip_length s').
      assert (forall t, String.length (rstrip t) <= String.length t) as Hr.
      { induction t as [|x t IH]; simpl; [lia |].
        destruct (is_empty (rstrip t) && isspace x); simpl; lia. }
      pose proof (Hr (lstrip s')). lia. }
    rewrite Heq in Hlen. simpl in Hlen. lia.
  - cbn [lstrip] in Heq |- *. rewrite Ec in Heq |- *. done.
Qed.

Lemma color_tag_search_append (x suffix : string) :
  color_tag_search suffix = None ->
  (forall x', may_end_with_tag (x' +:+ suffix) = false) ->
  color_tag_search (x +:+ suffix) = None.
Proof.
  intros Hsuffix Hend. induction x as [|c x IH]; [done |].
  cbn [String.append color_tag_search].
  rewrite (no_tag_at (String c (x +:+ suffix))) by apply (Hend (String c x)).
  by rewrite IH.
Qed.

(** A [define] line in the usual form: the keyword, one blank, the name,
    one blank, the value argument. *)
Lemma define_syntax_usual (name argument : string) :
  is_token name = true -> is_stripped argument = true ->
  color_tag_search (" " +:+ argument) = None ->
  (forall x, may_end_with_tag (x +:+ " " +:+ argument) = false) ->
  define_syntax ("define " +:+ name +:+ " " +:+ argument) = Some (name, argument)
  /\ color_tag_parsing ("define " +:+ name +:+ " " +:+ argument)
     = ([], EmptyString, "define " +:+ name +:+ " " +:+ argument).
Proof.
  intros Hname Harg Hsearch Hend.
  destruct (is_stripped_spec _ Harg) as (c & arg' & Earg & Hc & Hl & Hr).
  assert (Hstrip : strip ("define " +:+ name +:+ " " +:+ argument)
                   = "define " +:+ name +:+ " " +:+ argument).
  { unfold strip. change (lstrip ("define " +:+ ?s)) with ("define " +:+ s).
    rewrite rstrip_append; [f_equal |].
    - rewrite rstrip_append; [f_equal |].
      + cbn [String.append rstrip]. rewrite Hr, Earg. done.
      + cbn [String.append rstrip]. rewrite Hr, Earg. done.
    - rewrite rstrip_append.
      + destruct name; [done | done].
      + cbn [String.append rstrip]. rewrite Hr, Earg. done. }
  assert (Hparse : color_tag_parsing ("define " +:+ name +:+ " " +:+ argument)
                   = ([], EmptyString, "define " +:+ name +:+ " " +:+ argument)).
  { unfold color_tag_parsing.
    change ("define " +:+ name +:+ " " +:+ argument)
      with ("define " +:+ (name +:+ " " +:+ argument)) at 1.
    rewrite <- append_assoc.
    rewrite color_tag_search_append; [by rewrite append_assoc, Hstrip | done |].
    intros x. apply Hend. }
  split; [| done].
  unfold define_syntax, skipped. rewrite Hparse, Hstrip. cbn [snd].
  change (is_empty ("define " +:+ ?s)) with false.
  change (startswith "$" ("define " +:+ ?s)) with false. cbn [orb].
  cbn [split]. change (lstrip ("define " +:+ ?s)) with ("define " +:+ s).
  change (is_empty ("define " +:+ ?s)) with false. cbn iota.
  change (break_space ("define " +:+ ?s)) with ("define", " " +:+ s).
  cbn iota. change (lstrip (" " +:+ ?s)) with (lstrip s).
  rewrite lstrip_token by done.
  assert (Hne : is_empty (name +:+ " " +:+ argument) = false).
  { unfold is_token in Hname. by destruct name. }
  rewrite Hne. change (name +:+ " " +:+ argument) with (name +:+ String " " argument).
  rewrite break_space_token by done.
  change (lstrip (String " " argument)) with (lstrip argument).
  rewrite Hl, Earg. cbn [is_empty]. cbn [lower String.eqb]. rewrite <- Earg.
  change (String.eqb (lower "define") "define") with true. cbn iota.
  do 2 f_equal.
  replace (String.length "define" + String.length name + 1)
    with (String.length ("define " +:+ name) + 0)
    by (rewrite length_append; simpl; lia).
  change ("define " +:+ name +:+ String " " argument)
    with ("define " +:+ (name +:+ String " " argument)).
  rewrite <- append_assoc, slice_from_append. cbn [slice_from].
  unfold strip. change (lstrip (String " " argument)) with (lstrip argument).
  by rewrite Hl, Hr.
Qed.

End LineFacts.

(* ===================================================================== *)
(** ** The input placeholder (C4) *)
(* ===================================================================== *)

Ltac compute_closed t := let v := eval vm_compute in t in change t with v.

Lemma show_print_shown color_code target content z :
  String.eqb (Py.lower target) "input" = false ->
  show_print color_code target content z = say [Shown color_code content] z.
Proof. intros H. unfold show_print. rewrite H. by rewrite orb_true_r. Qed.

Lemma show_placeholder_line run rt z :
  parse_and_execute_line run "show ((input))" rt z
  = match last_input_value z with
    | Some v => say [Shown "" v] (recorded "show ((input))" rt z)
    | None =>
        say [Diagnostic UnboundInputError
               "Error: No input has been provided yet via 'show input' for 'show ((input))'."]
          (recorded "show ((input))" rt z)
    end.
Proof.
  rewrite (parse_and_execute_line_dispatch _ _ _ _ "show") by (vm_compute; reflexivity).
  compute_closed (color_tag_parsing "show ((input))"). cbn [fst snd].
  compute_closed (Py.split 2 "show ((input))").
  unfold command_branches. compute_closed (String.eqb "show" "define").
  compute_closed (String.eqb "show" "show"). cbn iota.
  unfold show_command. compute_closed (Py.lower "((input))").
  compute_closed (String.eqb "((input))" "input").
  compute_closed (String.eqb "((input))" "((input))"). cbn iota.
  assert (Hl : last_input_value (recorded "show ((input))" rt z) = last_input_value z)
    by by destruct rt.
  rewrite Hl. destruct (last_input_value z); [| done].
  by rewrite show_print_shown.
Qed.

Lemma show_input_line run rt z :
  parse_and_execute_line run "show input" rt z
  = match stdin z with
    | answer :: more =>
        say [Prompt ""]
          (set_last_input_value (Some answer)
             (set_stdin more (recorded "show input" rt z)))
    | [] =>
        except_Exception "show" rt
          {| printed := [Prompt ""]; after := recorded "show input" rt z;
             how := Raised EOFError_text |}
    end.
Proof.
  rewrite (parse_and_execute_line_dispatch _ _ _ _ "show") by (vm_compute; reflexivity).
  compute_closed (color_tag_parsing "show input"). cbn [fst snd].
  compute_closed (Py.split 2 "show input").
  unfold command_branches. compute_closed (String.eqb "show" "define").
  compute_closed (String.eqb "show" "show"). cbn iota.
  unfold show_command. compute_closed (Py.lower "input").
  compute_closed (String.eqb "input" "input"). cbn iota.
  unfold _get_user_input.
  assert (Hin : stdin (recorded "show input" rt z) = stdin z) by by destruct rt.
  rewrite Hin. destruct (stdin z); destruct rt; reflexivity.
Qed.

Lemma define_placeholder_line run name rt z :
  is_token name = true ->
  parse_and_execute_line run ("define " +:+ name +:+ " ((input))") rt z
  = match last_input_value z with
    | Some v =>
        say (if rt then []
             else [Notice ("Defined variable '" +:+ name +:+ "' with value '" +:+
                           v +:+ "'")])
          (set_variables (<[name := v]> (variables z))
             (recorded ("define " +:+ name +:+ " ((input))") rt z))
    | None => say [unbound_define] (recorded ("define " +:+ name +:+ " ((input))") rt z)
    end.
Proof.
  intros Hname.
  destruct (LineFacts.define_syntax_usual name "((input))" Hname) as [Hsyntax Hparse].
  { vm_compute. reflexivity. }
  { vm_compute. reflexivity. }
  { intros x. unfold may_end_with_tag.
    rewrite TagFacts.chars_append, rev_app_distr. reflexivity. }
  change (" " +:+ "((input))") with " ((input))" in *.
  rewrite (define_line _ _ _ _ _ _ Hsyntax), Hparse. cbn [fst snd].
  compute_closed (concatenation_parts_of "((input))"). cbn [define_loop].
  compute_closed (Py.is_empty "((input))").
  compute_closed (wrapped dq dq "((input))").
  compute_closed (String.eqb (Py.lower "((input))") "((input))"). cbn iota.
  destruct (last_input_value z) as [v|]; [| done].
  cbn [app Py.join foldr]. rewrite PyFacts.append_empty_r. done.
Qed.

Lemma lstrip_fixed (c : ascii) (s : string) :
  Py.lstrip (String c s) = String c s -> Py.isspace c = false.
Proof.
  cbn [Py.lstrip]. destruct (Py.isspace c); [| done].
  intros H. pose proof (PyFacts.lstrip_length s) as Hlen.
  rewrite H in Hlen. simpl in Hlen. lia.
Qed.

Lemma wrapped_quoted (s : string) : wrapped dq dq (dq +:+ s +:+ dq) = true.
Proof. unfold dq. cbn [String.append]. apply wrapped_between. Qed.

Lemma slice_quoted (s : string) : Py.slice_1_m1 (dq +:+ s +:+ dq) = s.
Proof. unfold dq. cbn [String.append Py.slice_1_m1]. apply drop_last_append_char. Qed.

Lemma quoted_line_parsing (before : string) :
  Py.lstrip before = before -> Py.is_empty before = false ->
  Py.strip (before +:+ dq) = before +:+ dq
  /\ color_tag_parsing (before +:+ dq) = ([], EmptyString, before +:+ dq).
Proof.
  intros Hl Hne.
  assert (Hstrip : Py.strip (before +:+ dq) = before +:+ dq).
  { unfold Py.strip.
    assert (Hl' : Py.lstrip (before +:+ dq) = before +:+ dq).
    { destruct before as [|c before]; [discriminate Hne |].
      apply lstrip_fixed in Hl. cbn [String.append Py.lstrip]. by rewrite Hl. }
    rewrite Hl'. by rewrite LineFacts.rstrip_append. }
  split; [done |]. unfold color_tag_parsing.
  rewrite LineFacts.color_tag_search_append.
  - by rewrite Hstrip.
  - vm_compute. reflexivity.
  - intros x. unfold may_end_with_tag.
    rewrite TagFacts.chars_append, rev_app_distr. reflexivity.
Qed.

Lemma show_input_prompt_line run prompt rt z :
  parse_and_execute_line run ("show input " +:+ dq +:+ prompt +:+ dq) rt z
  = match stdin z with
    | answer :: more =>
        say [Prompt prompt]
          (set_last_input_value (Some answer)
             (set_stdin more
                (recorded ("show input " +:+ dq +:+ prompt +:+ dq) rt z)))
    | [] =>
        except_Exception "show" rt
          {| printed := [Prompt prompt];
             after := recorded ("show input " +:+ dq +:+ prompt +:+ dq) rt z;
             how := Raised EOFError_text |}
    end.
Proof.
  assert (Hline : Py.strip ("show input " +:+ dq +:+ prompt +:+ dq)
                  = "show input " +:+ dq +:+ prompt +:+ dq
                  /\ color_tag_parsing ("show input " +:+ dq +:+ prompt +:+ dq)
                     = ([], EmptyString, "show input " +:+ dq +:+ prompt +:+ dq)).
  { change ("show input " +:+ dq +:+ prompt +:+ dq)
      with ("show input " +:+ (dq +:+ (prompt +:+ dq))).
    rewrite <- !PyFacts.append_assoc. by apply quoted_line_parsing. }
  destruct Hline as [Hstrip Hparse].
  assert (Hsplit : Py.split 2 ("show input " +:+ dq +:+ prompt +:+ dq)
                   = ["show"; "input"; dq +:+ prompt +:+ dq]) by reflexivity.
  assert (Hskip : skipped ("show input " +:+ dq +:+ prompt +:+ dq) = false).
  { unfold skipped. rewrite Hstrip. reflexivity. }
  rewrite (parse_and_execute_line_dispatch _ _ _ _ "show").
  2: { unfold command_word. rewrite Hskip, Hparse. cbn [snd]. by rewrite Hsplit. }
  rewrite Hparse. cbn [fst snd]. rewrite Hsplit.
  unfold command_branches. compute_closed (String.eqb "show" "define").
  compute_closed (String.eqb "show" "show"). cbn iota.
  unfold show_command. compute_closed (Py.lower "input").
  compute_closed (String.eqb "input" "input"). cbn iota.
  rewrite wrapped_quoted, slice_quoted.
  unfold _get_user_input.
  assert (Hin : forall l, stdin (recorded l rt z) = stdin z) by by destruct rt.
  rewrite Hin. destruct (stdin z); destruct rt; reflexivity.
Qed.

Lemma recorded_frame line rt z :
  variables (recorded line rt z) = variables z
  /\ last_input_value (recorded line rt z) = last_input_value z
  /\ program_lines (recorded line rt z) = program_lines z
  /\ mode (recorded line rt z) = mode z
  /\ stdin (recorded line rt z) = stdin z
  /\ files (recorded line rt z) = files z
  /\ recorded line true z = z.
Proof. by destruct rt. Qed.

(** C4.  While no input has been captured, [define <name> ((input))] and
    [show ((input))] print the unbound-input diagnostic and do nothing
    else: nothing is stored, nothing is shown, and the interpreter is as
    before but for the record of the typed line.  After [show input], with
    or without a quoted prompt, has read the line [s], [show ((input))]
    shows exactly [s], never the prompt, and the slot still holds [s]. *)
Theorem C4_input_placeholder :
  (forall name rt z,
     is_token name = true -> last_input_value z = None ->
     _parse_and_execute_line ("define " +:+ name +:+ " ((input))") rt z
     = say [unbound_define] (recorded ("define " +:+ name +:+ " ((input))") rt z))
  /\ (forall rt z,
        last_input_value z = None ->
        _parse_and_execute_line "show ((input))" rt z
        = say [unbound_show] (recorded "show ((input))" rt z))
  /\ (forall line rt z,
        variables (recorded line rt z) = variables z
        /\ last_input_value (recorded line rt z) = last_input_value z
        /\ program_lines (recorded line rt z) = program_lines z
        /\ mode (recorded line rt z) = mode z
        /\ stdin (recorded line rt z) = stdin z
        /\ files (recorded line rt z) = files z
        /\ recorded line true z = z)
  /\ (forall rt z s,
        last_input_value z = Some s ->
        _parse_and_execute_line "show ((input))" rt z
        = say [Shown "" s] (recorded "show ((input))" rt z))
  /\ (forall rt z s more,
        stdin z = s :: more ->
        printed (_parse_and_execute_line "show input" rt z) = [Prompt ""]
        /\ last_input_value (after (_parse_and_execute_line "show input" rt z))
           = Some s
        /\ forall rt',
             printed (_parse_and_execute_line "show ((input))" rt'
                        (after (_parse_and_execute_line "show input" rt z)))
             = [Shown "" s]
             /\ last_input_value
                  (after (_parse_and_execute_line "show ((input))" rt'
                            (after (_parse_and_execute_line "show input" rt z))))
                = Some s)
  /\ (forall prompt rt z s more,
        stdin z = s :: more ->
        printed (_parse_and_execute_line
                   ("show input " +:+ dq +:+ prompt +:+ dq) rt z) = [Prompt prompt]
        /\ forall rt',
             printed (_parse_and_execute_line "show ((input))" rt'
                        (after (_parse_and_execute_line
                                  ("show input " +:+ dq +:+ prompt +:+ dq) rt z)))
             = [Shown "" s]
             /\ last_input_value
                  (after (_parse_and_execute_line "show ((input))" rt'
                            (after (_parse_and_execute_line
                                      ("show input " +:+ dq +:+ prompt +:+ dq) rt z))))
                = Some s).
Proof.
  unfold _parse_and_execute_line.
  split.
  { intros name rt z Hname Hlast.
    by rewrite define_placeholder_line, Hlast. }
  split.
  { intros rt z Hlast. by rewrite show_placeholder_line, Hlast. }
  split; [exact recorded_frame |].
  split.
  { intros rt z s Hlast. by rewrite show_placeholder_line, Hlast. }
  split.
  { intros rt z s more Hin. rewrite show_input_line, Hin.
    split; [done |]. split; [done |].
    intros rt'. rewrite show_placeholder_line. cbn [after say last_input_value set_last_input_value].
    split; [done | by destruct rt']. }
  intros prompt rt z s more Hin. rewrite show_input_prompt_line, Hin.
  split; [done |].
  intros rt'. rewrite show_placeholder_line. cbn [after say last_input_value set_last_input_value].
  split; [done | by destruct rt'].
Qed.

Lemma C4_input_placeholder_witness :
  _parse_and_execute_line ("define " +:+ "name" +:+ " ((input))") false (initial [] ∅)
  = say [unbound_define]
      (recorded ("define " +:+ "name" +:+ " ((input))") false (initial [] ∅)).
Proof.
  destruct C4_input_placeholder as (Hdefine & _).
  apply (Hdefine "name" false (initial [] ∅)); vm_compute; reflexivity.
Defined.

(* ===================================================================== *)
(** ** Replay on [execute] (C5) *)
(* ===================================================================== *)

Lemma same_session_trans z1 z2 z3 :
  same_session z1 z2 -> same_session z2 z3 -> same_session z1 z3.
Proof. unfold same_session. intros (?&?&?&?&?) (?&?&?&?&?). repeat split; congruence. Qed.

(** A line of a running program leaves the buffer, the mode, the history
    and the files alone, and returns or exits with status 1. *)
Lemma runtime_line_frame line z :
  same_session z (after (runtime_line line z))
  /\ (how (runtime_line line z) = Returned
      \/ how (runtime_line line z) = SystemExit 1).
Proof.
  destruct (runtime_line_spec line z); cbn [after how say];
    split; auto; by repeat split.
Qed.

Lemma _run_program_lines_frame lines z :
  same_session z (after (_run_program_lines lines z))
  /\ (how (_run_program_lines lines z) = Returned
      \/ how (_run_program_lines lines z) = SystemExit 1).
Proof.
  revert z. induction lines as [|line rest IH]; intros z.
  - split; [apply same_session_refl | by left].
  - cbn [_run_program_lines].
    destruct (runtime_line_frame line z) as [Hframe [Hhow | Hhow]]; rewrite Hhow.
    + cbn [preceded after how]. destruct (IH (after (runtime_line line z))) as [H1 H2].
      split; [by eapply same_session_trans | done].
    + split; [done | by right].
Qed.





Example buffered_line_becomes_visible :
  variables (after (_parse_and_execute_line "execute" false buffered_session)) !! "y"
  = Some "1"
  /\ printed (_parse_and_execute_line "show (y)" false
                (set_mode interpreter
                   (after (_parse_and_execute_line "execute" false buffered_session))))
     = [Shown "" "1"].
Proof. split; vm_compute; reflexivity. Qed.

(* ===================================================================== *)
(** ** Routing in compiler mode (C6) *)
(* ===================================================================== *)

Module RoutingFacts.
Import Py PyFacts.

Lemma processed_line_sub (line : string) :
  (color_tag_parsing line).2 = strip (color_tag_sub line).
Proof.
  unfold color_tag_parsing, color_tag_sub.
  destruct (color_tag_search line) as [[before name]|]; [| done].
  by destruct (_get_ansi_color_code name).
Qed.

Lemma lstrip_strip (s : string) : lstrip (strip s) = strip s.
Proof.
  unfold strip. induction s as [|c s IH]; [done |]. cbn [lstrip].
  destruct (isspace c) eqn:Ec; [done |].
  cbn [rstrip]. rewrite Ec, andb_false_r. cbn [lstrip]. by rewrite Ec.
Qed.

Lemma break_space_append (s w r : string) :
  break_space s = (w, r) -> s = w +:+ r.
Proof.
  revert w r. induction s as [|c s IH]; intros w r; cbn [break_space].
  - by intros [= <- <-].
  - destruct (isspace c); [by intros [= <- <-] |].
    destruct (break_space s) as [w' r']. intros [= <- <-].
    cbn [String.append]. by rewrite <- (IH w' r' eq_refl).
Qed.

Lemma startswith_append (a b : string) : startswith a (a +:+ b) = true.
Proof.
  induction a as [|c a IH]; [done |]. cbn [String.append startswith].
  by rewrite Ascii.eqb_refl, IH.
Qed.

(** The command word is a prefix of the line [run_repl] looks at. *)
Lemma command_word_prefix (line command : string) :
  command_word line = Some command ->
  startswith command (lower (strip (color_tag_sub line))) = true.
Proof.
  unfold command_word. destruct (skipped line); [intros H; discriminate H |].
  rewrite processed_line_sub. cbn [split]. rewrite lstrip_strip.
  destruct (is_empty (strip (color_tag_sub line))); [intros H; discriminate H |].
  destruct (break_space (strip (color_tag_sub line))) as [w r] eqn:E.
  apply break_space_append in E. intros [= <-].
  rewrite E at 1. rewrite lower_append. apply startswith_append.
Qed.

Lemma exit_letters (c : ascii) :
  (lower_char c = "e"%char -> c = "e"%char \/ c = "E"%char)
  /\ (lower_char c = "x"%char -> c = "x"%char \/ c = "X"%char)
  /\ (lower_char c = "i"%char -> c = "i"%char \/ c = "I"%char)
  /\ (lower_char c = "t"%char -> c = "t"%char \/ c = "T"%char).
Proof.
  destruct c as [[] [] [] [] [] [] [] []]; vm_compute;
    repeat split; intros H; first [discriminate H | by left | by right].
Qed.

(** A line that lowers to [exit] has the command word [exit]. *)
Lemma exit_command_word (line : string) :
  lower line = "exit" -> command_word line = Some "exit".
Proof.
  destruct line as [|c1 [|c2 [|c3 [|c4 [|c5 line]]]]]; try (intros H; discriminate H).
  cbn [lower]. intros [= H1 H2 H3 H4].
  apply exit_letters in H1, H2, H3, H4.
  destruct H1 as [-> | ->], H2 as [-> | ->], H3 as [-> | ->], H4 as [-> | ->];
    vm_compute; reflexivity.
Qed.

(** [except Exception] lets no exception out of a line. *)
Lemma line_never_raises line rt z e :
  how (_parse_and_execute_line line rt z) <> Raised e.
Proof.
  unfold _parse_and_execute_line, parse_and_execute_line.
  destruct (skipped line); [done |].
  destruct (color_tag_parsing line) as [[evs color_code] processed_line].
  destruct (split 2 processed_line) as [|first more]; [done |].
  unfold except_Exception. cbn [preceded how].
  destruct (how (command_branches _ _ _ _ _ _ _)) eqn:E; rewrite ?E; try done.
  by destruct rt.
Qed.

(** In compiler mode a line whose command word is a control command is
    executed at once, with or without a colour tag. *)
Lemma control_command_runs_at_once (line command : string) (z : ZCLILanguage) :
  mode z = compiler ->
  command_word line = Some command ->
  command ∈ meta_commands ->
  repl_line line z = Again (_parse_and_execute_line line false z).
Proof.
  intros Hmode Hword Hin. unfold repl_line.
  destruct (String.eqb_spec (lower line) "exit") as [Hexit | _].
  { apply exit_command_word in Hexit. rewrite Hexit in Hword.
    injection Hword as <-. exfalso. unfold meta_commands in Hin.
    repeat (apply elem_of_cons in Hin as [Hin | Hin]; [discriminate Hin |]).
    by apply elem_of_nil in Hin. }
  rewrite Hmode.
  assert (Hcontrol :
    existsb (fun cmd => startswith cmd (lower (strip (color_tag_sub line))))
      control_commands = true).
  { apply existsb_exists. exists command. split.
    - unfold meta_commands in Hin. unfold control_commands.
      repeat (apply elem_of_cons in Hin as [-> | Hin]; [cbn; tauto |]).
      by apply elem_of_nil in Hin.
    - by apply command_word_prefix. }
  rewrite Hcontrol.
  destruct (how (_parse_and_execute_line line false z)) eqn:E; try done.
  by apply line_never_raises in E.
Qed.

End RoutingFacts.

(** C6 fails on the code for a line whose command word only begins with a
    control word.  The command word of [integer x] is [integer], which is
    no control command; typed in compiler mode the line is not appended to
    the buffer but executed at once, because [run_repl] tests whether the
    whole line starts with [int]. *)
Theorem C6_prefixed_word_is_executed_not_buffered :
  command_word "integer x" = Some "integer"
  /\ existsb (String.eqb "integer") control_commands = false
  /\ mode (initial [] ∅) = compiler
  /\ repl_line "integer x" (initial [] ∅)
     = Again (say [Diagnostic UnknownCommandError
                     "Error: Unknown command 'integer'. Type 'help' for commands."]
                (set_session_history ["integer x"] (initial [] ∅)))
  /\ program_lines (set_session_history ["integer x"] (initial [] ∅)) = [].
Proof. repeat split; vm_compute; reflexivity. Qed.

(* ===================================================================== *)
(** ** Meta-commands in a running program (C7) *)
(* ===================================================================== *)

Lemma define_command_in_files fs processed_line parts rt z :
  define_command processed_line parts rt (set_files fs z)
  = in_files fs (define_command processed_line parts rt z).
Proof.
  unfold define_command. cbn [variables last_input_value set_files].
  destruct parts as [|p0 [|var_name [|p2 more]]]; try reflexivity.
  destruct (define_loop _ _ _ _); [reflexivity |]. by destruct rt.
Qed.

Lemma show_command_in_files fs color_code processed_line parts z :
  show_command color_code processed_line parts (set_files fs z)
  = in_files fs (show_command color_code processed_line parts z).
Proof.
  unfold show_command, _get_user_input, show_print.
  cbn [variables last_input_value stdin set_files].
  destruct parts as [|p0 [|target more]]; try reflexivity.
  destruct (String.eqb (Py.lower target) "input").
  - destruct more as [|prompt_part more].
    + by destruct (stdin z).
    + destruct (wrapped dq dq prompt_part); [| reflexivity]. by destruct (stdin z).
  - cbn [negb].
    destruct (String.eqb (Py.lower target) "((input))").
    + destruct (last_input_value z); rewrite ?orb_true_r; reflexivity.
    + destruct (show_loop _ _ _); rewrite ?orb_true_r; reflexivity.
Qed.

(** A line of a running program neither reads nor writes a file: run in
    another file system, it does the same and leaves that file system as
    it is. *)
Lemma runtime_line_in_files fs line z :
  runtime_line line (set_files fs z) = in_files fs (runtime_line line z).
Proof.
  unfold runtime_line.
  destruct (skipped line) eqn:Eskip.
  { by rewrite !parse_and_execute_line_skipped. }
  destruct (command_word line) as [command|] eqn:Eword.
  2: { by rewrite !parse_and_execute_line_no_command. }
  rewrite !(parse_and_execute_line_dispatch _ _ _ _ _ Eword).
  unfold command_branches, recorded, execute_command. cbn [negb].
  destruct (String.eqb command "define").
  { rewrite define_command_in_files.
    by destruct (define_command_spec (color_tag_parsing line).2
                   (Py.split 2 (color_tag_parsing line).2) true z). }
  destruct (String.eqb command "show").
  { rewrite show_command_in_files.
    by destruct (show_command_spec (color_tag_parsing line).1.2
                   (color_tag_parsing line).2
                   (Py.split 2 (color_tag_parsing line).2) z). }
  repeat (destruct (String.eqb command _); [reflexivity |]).
  reflexivity.
Qed.

Lemma meta_command_runtime_line line z command :
  command_word line = Some command ->
  command ∈ meta_commands ->
  runtime_line line z
  = say ((color_tag_parsing line).1.1 ++ ignored_warning command) z.
Proof.
  intros Hword Hin. unfold runtime_line.
  rewrite (parse_and_execute_line_dispatch _ _ _ _ _ Hword).
  unfold meta_commands in Hin.
  repeat (apply elem_of_cons in Hin as [-> | Hin];
          [ unfold say, preceded; cbn; by rewrite ?app_nil_r |]).
  by apply elem_of_nil in Hin.
Qed.

(** C7, as stated, fails for [save], [open] and [help]: in a running
    program they are ignored without a word, no warning is printed. *)
Lemma C7_save_open_help_print_no_warning :
  command_word "save test" = Some "save"
  /\ printed (_parse_and_execute_line "save test" true (initial [] ∅)) = []
  /\ command_word "open test.zcli" = Some "open"
  /\ printed (_parse_and_execute_line "open test.zcli" true (initial [] ∅)) = []
  /\ command_word "help" = Some "help"
  /\ printed (_parse_and_execute_line "help" true (initial [] ∅)) = [].
Proof. repeat split; vm_compute; reflexivity. Qed.

(** C7 (amended).  In a running program a line whose command word is
    [save], [open], [execute], [int], [comp] or [help] returns, changes
    nothing and prints nothing but the warning of a hex colour tag and,
    for [execute], [int] and [comp] only, the warning that the command is
    ignored.  No line of a running program changes the buffer, the mode,
    the history or the files; none reads a file (in another file system it
    does the same); none reaches [_run_program_lines]. *)
Theorem C7_meta_commands_suppressed_in_replay :
  (forall line z command,
     command_word line = Some command ->
     command ∈ meta_commands ->
     _parse_and_execute_line line true z
     = say ((color_tag_parsing line).1.1 ++ ignored_warning command) z)
  /\ (ignored_warning "execute"
      = [Warning "Warning: 'execute' command ignored during program execution."]
      /\ ignored_warning "int"
         = [Warning "Warning: 'int' command ignored during program execution."]
      /\ ignored_warning "comp"
         = [Warning "Warning: 'comp' command ignored during program execution."]
      /\ ignored_warning "save" = [] /\ ignored_warning "open" = []
      /\ ignored_warning "help" = [])
  /\ (forall line z,
        program_lines (after (_parse_and_execute_line line true z)) = program_lines z
        /\ mode (after (_parse_and_execute_line line true z)) = mode z
        /\ session_history (after (_parse_and_execute_line line true z))
           = session_history z
        /\ files (after (_parse_and_execute_line line true z)) = files z)
  /\ (forall fs line z,
        _parse_and_execute_line line true (set_files fs z)
        = in_files fs (_parse_and_execute_line line true z))
  /\ (forall run run' line z,
        parse_and_execute_line run line true z
        = parse_and_execute_line run' line true z).
Proof.
  split.
  { intros line z command Hword Hin. rewrite _parse_and_execute_line_runtime.
    by apply meta_command_runtime_line. }
  split; [by vm_compute |].
  split.
  { intros line z. rewrite _parse_and_execute_line_runtime.
    destruct (runtime_line_frame line z) as [(? & ? & ? & ? & ?) _]. done. }
  split.
  { intros fs line z. rewrite !_parse_and_execute_line_runtime.
    apply runtime_line_in_files. }
  intros run run' line z. apply runtime_line_never_replays.
Qed.

Lemma C7_meta_commands_suppressed_in_replay_witness :
  _parse_and_execute_line "save test" true (initial [] ∅)
  = say ((color_tag_parsing "save test").1.1 ++ ignored_warning "save") (initial [] ∅).
Proof.
  destruct C7_meta_commands_suppressed_in_replay as (Hmeta & _).
  apply (Hmeta "save test" (initial [] ∅) "save").
  - vm_compute. reflexivity.
  - unfold meta_commands. apply list_elem_of_here.
Defined.

(* ===================================================================== *)
(** ** Empty lines and comments (C8) *)
(* ===================================================================== *)

Module SkipFacts.
Import Py PyFacts.

Lemma lstrip_head (s : string) :
  lstrip s = EmptyString
  \/ exists c r, lstrip s = String c r /\ isspace c = false.
Proof.
  induction s as [|c s IH]; [by left |]. cbn [lstrip].
  destruct (isspace c) eqn:Ec; [done |]. right. by exists c, s.
Qed.

Lemma rstrip_head (c : ascii) (r : string) :
  isspace c = false -> rstrip (String c r) = String c (rstrip r).
Proof. intros Hc. cbn [rstrip]. rewrite Hc. by rewrite andb_false_r. Qed.

(** The two ways a line is skipped. *)
Lemma skipped_cases (line : string) :
  skipped line = true ->
  lstrip line = EmptyString \/ exists r, lstrip line = String "$" r.
Proof.
  unfold skipped, strip.
  destruct (lstrip_head line) as [-> | (c & r & -> & Hc)]; [by left |].
  rewrite rstrip_head by done. cbn [is_empty startswith orb].
  destruct (Ascii.eqb_spec "$" c) as [<- | _]; [| intros H; discriminate H].
  right. by exists r.
Qed.

Lemma blank_no_tag (line : string) :
  lstrip line = EmptyString -> color_tag_search line = None.
Proof.
  induction line as [|c line IH]; [done |].
  intros Hblank. cbn [color_tag_search].
  assert (Hat : color_tag_at (String c line) = None).
  { unfold color_tag_at. by rewrite Hblank. }
  rewrite Hat. cbn [lstrip] in Hblank.
  destruct (isspace c); [| discriminate Hblank]. by rewrite IH.
Qed.

Lemma comment_keeps_marker (line r : string) :
  lstrip line = String "$" r ->
  exists r', lstrip (color_tag_sub line) = String "$" r'.
Proof.
  unfold color_tag_sub. revert r. induction line as [|c line IH]; intros r Hl.
  - discriminate Hl.
  - cbn [color_tag_search].
    assert (Hat : color_tag_at (String c line) = None).
    { unfold color_tag_at. by rewrite Hl. }
    rewrite Hat. cbn [lstrip] in Hl.
    destruct (isspace c) eqn:Ec.
    + destruct (IH r Hl) as [r' Hr'].
      destruct (color_tag_search line) as [[before name]|].
      * exists r'. cbn [lstrip]. by rewrite Ec.
      * exists r. cbn [lstrip]. by rewrite Ec.
    + injection Hl as -> ->.
      destruct (color_tag_search r) as [[before name]|]; eexists; reflexivity.
Qed.

Lemma isspace_lower_char (c : ascii) : isspace (lower_char c) = isspace c.
Proof. destruct c as [[] [] [] [] [] [] [] []]; vm_compute; congruence. Qed.

(** A line that lowers to [exit] is not skipped. *)
Lemma exit_not_skipped (line : string) :
  lower line = "exit" -> skipped line = false.
Proof.
  destruct line as [|c1 [|c2 [|c3 [|c4 [|c5 line]]]]]; try (intros H; discriminate H).
  cbn [lower]. intros [= H1 H2 H3 H4].
  assert (Hs : forall c l, lower_char c = l -> isspace l = false -> isspace c = false).
  { intros c l <- Hl. by rewrite <- isspace_lower_char. }
  assert (isspace c1 = false) as E1 by (by eapply Hs).
  assert (isspace c2 = false) as E2 by (by eapply Hs).
  assert (isspace c3 = false) as E3 by (by eapply Hs).
  assert (isspace c4 = false) as E4 by (by eapply Hs).
  unfold skipped, strip. cbn [lstrip]. rewrite E1.
  rewrite !rstrip_head by done. cbn [is_empty startswith orb].
  destruct (Ascii.eqb_spec "$" c1) as [<- | _]; [discriminate H1 | done].
Qed.

(** No control word is a prefix of a skipped line, colour tag removed. *)
Lemma skipped_not_control (line : string) :
  skipped line = true ->
  existsb (fun cmd => startswith cmd (lower (strip (color_tag_sub line))))
    control_commands = false.
Proof.
  intros [Hblank | [r Hcomment]]%skipped_cases.
  - unfold color_tag_sub. rewrite blank_no_tag by done.
    unfold strip. rewrite Hblank. reflexivity.
  - destruct (comment_keeps_marker _ _ Hcomment) as [r' Hr'].
    unfold strip. rewrite Hr', rstrip_head by done. reflexivity.
Qed.

End SkipFacts.

(** C8, as stated, fails in both modes: a comment typed in compiler mode
    is appended to the buffer, and typed in interpreter mode it is appended
    to the session history. *)
Lemma C8_comment_is_buffered_or_recorded :
  skipped "$ note" = true
  /\ repl_line "$ note" (initial [] ∅)
     = Again (ret (set_program_lines ["$ note"] (initial [] ∅)))
  /\ repl_line "$ note" (set_mode interpreter (initial [] ∅))
     = Again (ret (set_session_history ["$ note"] (set_mode interpreter (initial [] ∅))))
  /\ program_lines (set_program_lines ["$ note"] (initial [] ∅))
     <> program_lines (initial [] ∅)
  /\ session_history (set_session_history ["$ note"] (set_mode interpreter (initial [] ∅)))
     <> session_history (set_mode interpreter (initial [] ∅)).
Proof. repeat split; try (vm_compute; reflexivity); discriminate. Qed.

(** C8 (amended).  A line that is empty, white space only, or whose
    trimmed form starts with [$] prints nothing and leaves the variable
    store, the input slot and the mode unchanged in both modes.  Typed in
    compiler mode it is appended to the buffer and nothing else changes;
    typed in interpreter mode it is appended to the session history and
    nothing else changes; as a line of a running program it changes
    nothing. *)
Theorem C8_skipped_line (line : string) (z : ZCLILanguage) :
  skipped line = true ->
  (mode z = compiler ->
   repl_line line z = Again (ret (set_program_lines (program_lines z ++ [line]) z)))
  /\ (mode z = interpreter ->
      repl_line line z
      = Again (ret (set_session_history (session_history z ++ [line]) z)))
  /\ _parse_and_execute_line line true z = ret z.
Proof.
  intros Hskip.
  assert (Hexit : String.eqb (Py.lower line) "exit" = false).
  { destruct (String.eqb_spec (Py.lower line) "exit") as [He | _]; [| done].
    apply SkipFacts.exit_not_skipped in He. congruence. }
  unfold repl_line. rewrite Hexit.
  split; [| split].
  - intros ->. by rewrite SkipFacts.skipped_not_control.
  - intros ->. unfold _parse_and_execute_line.
    by rewrite parse_and_execute_line_skipped.
  - unfold _parse_and_execute_line. by rewrite parse_and_execute_line_skipped.
Qed.

Lemma C8_skipped_line_witness :
  (mode (initial [] ∅) = compiler ->
   repl_line "   " (initial [] ∅)
   = Again (ret (set_program_lines (program_lines (initial [] ∅) ++ ["   "])
                   (initial [] ∅))))
  /\ (mode (initial [] ∅) = interpreter ->
      repl_line "   " (initial [] ∅)
      = Again (ret (set_session_history (session_history (initial [] ∅) ++ ["   "])
                      (initial [] ∅))))
  /\ _parse_and_execute_line "   " true (initial [] ∅) = ret (initial [] ∅).
Proof. apply (C8_skipped_line "   " (initial [] ∅)). vm_compute. reflexivity. Defined.

(* ===================================================================== *)
(** ** Saving (C9) *)
(* ===================================================================== *)

Module SaveFacts.
Import Py PyFacts.

Lemma zcli_path_suffixed (base : string) :
  zcli_path (base +:+ ".zcli") = base +:+ ".zcli".
Proof.
  unfold zcli_path. rewrite lower_append.
  change (lower ".zcli") with ".zcli". by rewrite endswith_append.
Qed.

Lemma zcli_path_idempotent (filename : string) :
  zcli_path (zcli_path filename) = zcli_path filename.
Proof.
  unfold zcli_path at 2 3.
  destruct (endswith ".zcli" (lower filename)) eqn:E; cbn [negb].
  - unfold zcli_path. by rewrite E.
  - apply zcli_path_suffixed.
Qed.

Lemma _save_program_spec (filename : string) (z : ZCLILanguage) :
  zcli_path filename ∉ denied z ->
  _save_program filename z
  = say [saved_notice (zcli_path filename) z]
      (set_files (<[zcli_path filename := written (saved_lines z)]> (files z)) z).
Proof.
  intros Hfree. unfold _save_program, saved_notice, saved_lines.
  fold (zcli_path filename). rewrite bool_decide_eq_false_2 by done.
  by destruct (mode z).
Qed.

Lemma file_lines_go_line (cur l rest : string) :
  all_chars no_line_break l = true ->
  file_lines_go cur (l +:+ nl +:+ rest) = (cur +:+ l) :: file_lines_go EmptyString rest.
Proof.
  revert cur. induction l as [|c l IH]; intros cur Hl.
  - by rewrite append_empty_r.
  - cbn [all_chars] in Hl. apply andb_true_iff in Hl as [Hc Hl].
    specialize (IH (cur +:+ String c EmptyString) Hl).
    rewrite append_assoc in IH. cbn [String.append] in IH |- *.
    rewrite <- IH. clear IH Hl.
    destruct c as [[] [] [] [] [] [] [] []];
      first [discriminate Hc | reflexivity].
Qed.

(** Read back, a saved file yields the stored lines, one per line of the
    file, and an empty last line. *)
Lemma file_lines_written (lines : list string) :
  Forall (fun l => all_chars no_line_break l = true) lines ->
  file_lines (written lines) = lines ++ [EmptyString].
Proof.
  unfold file_lines, written. induction 1 as [|l lines Hl _ IH]; [done |].
  cbn [map join foldr app]. fold (join (map (fun line => line +:+ nl) lines)).
  rewrite append_assoc, file_lines_go_line by done.
  by rewrite IH.
Qed.

End SaveFacts.

Lemma save_line line z first filename more :
  command_word line = Some "save" ->
  Py.split 2 (color_tag_parsing line).2 = first :: filename :: more ->
  _parse_and_execute_line line false z
  = preceded (color_tag_parsing line).1.1
      (_save_program filename (recorded line false z)).
Proof.
  intros Hword Hsplit. unfold _parse_and_execute_line.
  rewrite (parse_and_execute_line_dispatch _ _ _ _ _ Hword), Hsplit. f_equal.
  unfold command_branches.
  compute_closed (String.eqb "save" "define").
  compute_closed (String.eqb "save" "show").
  compute_closed (String.eqb "save" "help").
  compute_closed (String.eqb "save" "save"). cbn [negb]. cbn iota.
  unfold _save_program, except_Exception.
  destruct (bool_decide _); [done |]. by destruct (mode _).
Qed.

(** C9.  [_save_program] writes to the name given when its lower-cased form
    ends in [.zcli], and to the name with [.zcli] appended otherwise; a
    name that already carries the suffix is not suffixed again.  Unless
    opening the file fails, the file then holds the buffer in compiler mode
    and the session history otherwise, each stored line followed by a line
    feed, so that reading the file back yields the stored lines one by
    one; nothing else changes.  [save <filename>] typed by the user calls
    it with that name. *)
Theorem C9_save_program :
  (forall filename z,
     zcli_path filename ∉ denied z ->
     _save_program filename z
     = say [saved_notice (zcli_path filename) z]
         (set_files (<[zcli_path filename := written (saved_lines z)]> (files z)) z))
  /\ (forall filename,
        Py.endswith ".zcli" (Py.lower filename) = false ->
        zcli_path filename = filename +:+ ".zcli")
  /\ (forall filename,
        Py.endswith ".zcli" (Py.lower filename) = true ->
        zcli_path filename = filename)
  /\ (forall base, zcli_path (base +:+ ".zcli") = base +:+ ".zcli")
  /\ (forall filename, zcli_path (zcli_path filename) = zcli_path filename)
  /\ (forall z,
        (mode z = compiler -> saved_lines z = program_lines z)
        /\ (mode z = interpreter -> saved_lines z = session_history z))
  /\ (forall lines,
        written lines = Py.join (map (fun line => line +:+ nl) lines)
        /\ (Forall (fun l => Py.all_chars no_line_break l = true) lines ->
            Py.file_lines (written lines) = lines ++ [EmptyString]))
  /\ (forall line z first filename more,
        command_word line = Some "save" ->
        Py.split 2 (color_tag_parsing line).2 = first :: filename :: more ->
        _parse_and_execute_line line false z
        = preceded (color_tag_parsing line).1.1
            (_save_program filename (recorded line false z)))
  /\ zcli_path "out" = "out.zcli" /\ zcli_path "out.zcli" = "out.zcli".
Proof.
  split; [exact SaveFacts._save_program_spec |].
  split; [by unfold zcli_path; intros filename -> |].
  split; [by unfold zcli_path; intros filename -> |].
  split; [exact SaveFacts.zcli_path_suffixed |].
  split; [exact SaveFacts.zcli_path_idempotent |].
  split; [by intros z; unfold saved_lines; split; intros -> |].
  split; [intros lines; split; [done | apply SaveFacts.file_lines_written] |].
  split; [exact save_line |].
  split; vm_compute; reflexivity.
Qed.

Lemma C9_save_program_witness :
  _save_program "out" two_line_session
  = say [saved_notice (zcli_path "out") two_line_session]
      (set_files
         (<[zcli_path "out" := written (saved_lines two_line_session)]>
            (files two_line_session))
         two_line_session).
Proof.
  destruct C9_save_program as (Hsave & _).
  apply (Hsave "out" two_line_session). vm_compute. set_solver.
Defined.

Example save_out_twice :
  files (after (_parse_and_execute_line "save out" false two_line_session))
  = {[ "out.zcli" := ("define y " +:+ dq +:+ "1" +:+ dq +:+ nl +:+ "show (y)" +:+ nl) ]}
  /\ files (after (_parse_and_execute_line "save out.zcli" false two_line_session))
     = {[ "out.zcli" := ("define y " +:+ dq +:+ "1" +:+ dq +:+ nl +:+ "show (y)" +:+ nl) ]}.
Proof. split; vm_compute; reflexivity. Qed.

(* ===================================================================== *)
(** ** The token [((input))] inside a [show] chain (C10) *)
(* ===================================================================== *)

Lemma show_loop_input_segment vars rest acc :
  show_loop vars ("((input))" :: rest) acc
  = match vars !! "input" with
    | Some v => show_loop vars rest (acc ++ [v])
    | None => inl input_undefined
    end.
Proof.
  cbn [show_loop].
  compute_closed (Py.is_empty "((input))").
  compute_closed (wrapped dq dq "((input))").
  compute_closed (wrapped "(" ")" "((input))").
  compute_closed (Py.slice_1_m1 "((input))").
  compute_closed (wrapped "(" ")" "(input)").
  compute_closed (Py.slice_1_m1 "(input)"). cbn iota.
  reflexivity.
Qed.

Lemma show_line_in_slot slot line rt z color_code argument :
  show_syntax line = Some (color_code, argument) ->
  _parse_and_execute_line line rt (set_last_input_value slot z)
  = in_slot slot (_parse_and_execute_line line rt z).
Proof.
  intros Hsyntax. unfold _parse_and_execute_line.
  rewrite !(show_line _ _ _ _ _ _ Hsyntax).
  cbn [variables set_last_input_value].
  destruct (show_loop _ _ _); by destruct rt.
Qed.

Lemma show_line_input_segment
    line rt z color_code argument before rest values :
  show_syntax line = Some (color_code, argument) ->
  nonempty_segments argument = before ++ "((input))" :: rest ->
  mapM (resolve_operand (variables z)) before = Some values ->
  _parse_and_execute_line line rt z
  = preceded (color_tag_parsing line).1.1
      match variables z !! "input" with
      | None => say [input_undefined] (recorded line rt z)
      | Some v =>
          match show_loop (variables z) rest (values ++ [v]) with
          | inl diagnostic => say [diagnostic] (recorded line rt z)
          | inr content_parts =>
              say [Shown color_code (Py.join content_parts)] (recorded line rt z)
          end
      end.
Proof.
  intros Hsyntax Hparts Hbefore. unfold _parse_and_execute_line.
  rewrite (show_line _ _ _ _ _ _ Hsyntax). rewrite <- show_loop_nonempty.
  fold (nonempty_segments argument).
  rewrite Hparts, show_loop_app, (show_loop_resolves _ _ _ _ Hbefore).
  rewrite show_loop_input_segment. cbn [app].
  by destruct (variables z !! "input").
Qed.

(** C10.  In the chain of a [show], the segment [((input))] loses both
    layers of parentheses and is looked up as the variable [input]: when
    the segments before it resolve, the chain fails with the
    undefined-variable diagnostic if no such variable exists, and continues
    with the variable's value otherwise.  The input slot plays no part in
    a chain: with any other content of the slot the line does the same.
    For a [show] line whose chain has the segment [((input))] after
    segments that resolve: without a variable [input] the line prints that
    diagnostic and shows nothing; with one, and the segments after it
    resolving too, it shows the values joined, the value of the variable
    in the place of the segment.  [show "x" : ((input))] is such a line: it
    fails without a variable [input] and shows [x] followed by the value
    of the variable otherwise, whatever the slot holds.  Only as the first
    argument token is [((input))] the placeholder: [show ((input))] shows
    the slot and is no chain. *)
Theorem C10_input_token_in_show_chain :
  (forall vars before rest acc values,
     show_loop vars before acc = inr values ->
     vars !! "input" = None ->
     show_loop vars (before ++ "((input))" :: rest) acc = inl input_undefined)
  /\ (forall vars before rest acc values v,
        show_loop vars before acc = inr values ->
        vars !! "input" = Some v ->
        show_loop vars (before ++ "((input))" :: rest) acc
        = show_loop vars rest (values ++ [v]))
  /\ (forall slot line rt z color_code argument,
        show_syntax line = Some (color_code, argument) ->
        _parse_and_execute_line line rt (set_last_input_value slot z)
        = in_slot slot (_parse_and_execute_line line rt z))
  /\ show_syntax quoted_x_then_input
     = Some (EmptyString, dq +:+ "x" +:+ dq +:+ " : ((input))")
  /\ concatenation_parts_of (dq +:+ "x" +:+ dq +:+ " : ((input))")
     = [dq +:+ "x" +:+ dq; "((input))"]
  /\ (forall rt z,
        variables z !! "input" = None ->
        _parse_and_execute_line quoted_x_then_input rt z
        = say [input_undefined] (recorded quoted_x_then_input rt z))
  /\ show_syntax "show ((input))" = None
  /\ (forall rt z s,
        last_input_value z = Some s ->
        _parse_and_execute_line "show ((input))" rt z
        = say [Shown "" s] (recorded "show ((input))" rt z))
  /\ (forall line rt z color_code argument before rest values,
        show_syntax line = Some (color_code, argument) ->
        nonempty_segments argument = before ++ "((input))" :: rest ->
        mapM (resolve_operand (variables z)) before = Some values ->
        (variables z !! "input" = None ->
         _parse_and_execute_line line rt z
         = preceded (color_tag_parsing line).1.1
             (say [input_undefined] (recorded line rt z)))
        /\ (forall v more,
              variables z !! "input" = Some v ->
              mapM (resolve_operand (variables z)) rest = Some more ->
              _parse_and_execute_line line rt z
              = preceded (color_tag_parsing line).1.1
                  (say [Shown color_code (Py.join (values ++ v :: more))]
                     (recorded line rt z))))
  /\ (forall rt z v,
        variables z !! "input" = Some v ->
        _parse_and_execute_line quoted_x_then_input rt z
        = say [Shown EmptyString ("x" +:+ v)] (recorded quoted_x_then_input rt z)).
Proof.
  split.
  { intros vars before rest acc values Hbefore Hinput.
    by rewrite show_loop_app, Hbefore, show_loop_input_segment, Hinput. }
  split.
  { intros vars before rest acc values v Hbefore Hinput.
    by rewrite show_loop_app, Hbefore, show_loop_input_segment, Hinput. }
  split; [exact show_line_in_slot |].
  split; [vm_compute; reflexivity |].
  split; [vm_compute; reflexivity |].
  split.
  { intros rt z Hinput. unfold _parse_and_execute_line.
    rewrite (show_line _ quoted_x_then_input rt z EmptyString
               (dq +:+ "x" +:+ dq +:+ " : ((input))")) by (vm_compute; reflexivity).
    compute_closed (color_tag_parsing quoted_x_then_input). cbn [fst snd].
    compute_closed (concatenation_parts_of (dq +:+ "x" +:+ dq +:+ " : ((input))")).
    change [String "034" (String "x" (String "034" EmptyString)); "((input))"]
      with ([dq +:+ "x" +:+ dq] ++ "((input))" :: []).
    rewrite show_loop_app.
    assert (Hquoted : show_loop (variables z) [dq +:+ "x" +:+ dq] [] = inr ["x"])
      by reflexivity.
    by rewrite Hquoted, show_loop_input_segment, Hinput. }
  split; [vm_compute; reflexivity |].
  split.
  { intros rt z s Hslot. unfold _parse_and_execute_line.
    by rewrite show_placeholder_line, Hslot. }
  split.
  { intros line rt z color_code argument before rest values Hsyntax Hparts Hbefore.
    rewrite (show_line_input_segment _ rt _ _ _ _ _ _ Hsyntax Hparts Hbefore).
    split.
    - by intros ->.
    - intros v more -> Hrest.
      rewrite (show_loop_resolves _ _ _ _ Hrest).
      by rewrite <- app_assoc. }
  intros rt z v Hinput.
  rewrite (show_line_input_segment quoted_x_then_input rt z EmptyString
             (dq +:+ "x" +:+ dq +:+ " : ((input))") [dq +:+ "x" +:+ dq] [] ["x"]).
  - assert (Hevs : (color_tag_parsing quoted_x_then_input).1.1 = [])
      by (vm_compute; reflexivity).
    rewrite Hevs, Hinput. cbn [show_loop app Py.join foldr].
    by rewrite PyFacts.append_empty_r.
  - vm_compute. reflexivity.
  - vm_compute. reflexivity.
  - reflexivity.
Qed.

Lemma C10_input_token_in_show_chain_witness :
  _parse_and_execute_line quoted_x_then_input false slot_only_session
  = say [input_undefined] (recorded quoted_x_then_input false slot_only_session)
  /\ _parse_and_execute_line quoted_x_then_input false input_named_session
     = say [Shown EmptyString ("x" +:+ "stored")]
         (recorded quoted_x_then_input false input_named_session).
Proof.
  destruct C10_input_token_in_show_chain
    as (_ & _ & _ & _ & _ & Hfails & _ & _ & _ & Hshows).
  split.
  - apply (Hfails false slot_only_session). vm_compute. reflexivity.
  - apply (Hshows false input_named_session "stored"). vm_compute. reflexivity.
Defined.

(* ===================================================================== *)
(** ** Further properties of the replay loop *)
(* ===================================================================== *)

Lemma preceded_preceded evs evs' o :
  preceded evs (preceded evs' o) = preceded (evs ++ evs') o.
Proof. unfold preceded. cbn [printed after how]. by rewrite app_assoc. Qed.

(** X1.  Replaying a list of lines followed by another is replaying the
    first list and, if that replay returns, then the second from where
    the first ended; if the first replay exits, no line of the second is
    executed. *)
Theorem X1_replay_of_appended_lines (lines more : list string) (z : ZCLILanguage) :
  _run_program_lines (lines ++ more) z
  = match how (_run_program_lines lines z) with
    | Returned =>
        preceded (printed (_run_program_lines lines z))
          (_run_program_lines more (after (_run_program_lines lines z)))
    | _ => _run_program_lines lines z
    end.
Proof.
  revert z. induction lines as [|line lines IH]; intros z.
  - cbn [app _run_program_lines ret how printed after].
    by destruct (_run_program_lines more z).
  - cbn [app _run_program_lines].
    destruct (runtime_line_frame line z) as [_ [Hhow | Hhow]]; rewrite Hhow.
    + rewrite IH. cbn [preceded how printed after].
      destruct (how (_run_program_lines lines (after (runtime_line line z))));
        [by rewrite preceded_preceded | done | done].
    + by rewrite Hhow.
Qed.

Lemma runtime_line_input line z :
  (how (runtime_line line z) = Returned
   /\ (stdin (after (runtime_line line z)) = stdin z
       \/ exists answer, stdin z = answer :: stdin (after (runtime_line line z))))
  \/ (how (runtime_line line z) = SystemExit 1
      /\ stdin z = [] /\ after (runtime_line line z) = z
      /\ exists evs, printed (runtime_line line z)
                     = evs ++ [Notice "Program execution halted due to the above error."]).
Proof.
  destruct (runtime_line_spec line z) as
    [evs Hw | evs k' text' Hw Hk | evs name value Hw | evs c s Hw
    | evs prompt answer more Hw Hin | evs prompt Hw Hin];
    cbn [printed after how say stdin set_variables set_last_input_value set_stdin];
    try (left; split; [done | by left]).
  - left. split; [done |]. right. by exists answer.
  - right. repeat split; try done.
    exists (evs ++ [Prompt prompt;
                    Crash ("Runtime Error during command 'show': " +:+ EOFError_text)]).
    by rewrite <- app_assoc.
Qed.

(** X2.  A replay can only be halted by the end of the input at a [show
    input] prompt: when as many input lines are pending as there are lines
    to replay, the replay returns; and when it exits, the status is 1, no
    input is left, and the last thing printed is the notice that the
    program was halted.  Input is consumed in order, at most one line per
    program line. *)
Theorem X2_replay_halts_only_at_end_of_input (lines : list string) (z : ZCLILanguage) :
  (length lines <= length (stdin z) -> how (_run_program_lines lines z) = Returned)
  /\ (how (_run_program_lines lines z) <> Returned ->
      how (_run_program_lines lines z) = SystemExit 1
      /\ stdin (after (_run_program_lines lines z)) = []
      /\ exists evs, printed (_run_program_lines lines z)
                     = evs ++ [Notice "Program execution halted due to the above error."])
  /\ (exists consumed,
        stdin z = consumed ++ stdin (after (_run_program_lines lines z))
        /\ length consumed <= length lines).
Proof.
  revert z. induction lines as [|line lines IH]; intros z.
  - cbn [_run_program_lines ret how after printed]. repeat split; try done.
    exists []. split; [done | simpl; lia].
  - cbn [_run_program_lines].
    destruct (runtime_line_input line z)
      as [[Hhow Hin] | (Hhow & Hin & Hafter & evs & Hevs)]; rewrite Hhow.
    + destruct (IH (after (runtime_line line z))) as (IH1 & IH2 & consumed & IH3 & IH4).
      cbn [preceded how after printed]. split; [| split].
      * intros Hlen. apply IH1. simpl in Hlen.
        destruct Hin as [-> | [answer Hz]]; [lia |]. rewrite Hz in Hlen. simpl in Hlen. lia.
      * intros Hnot. destruct (IH2 Hnot) as (H1 & H2 & evs' & H3).
        repeat split; try done.
        exists (printed (runtime_line line z) ++ evs'). by rewrite H3, app_assoc.
      * destruct Hin as [Hz | [answer Hz]].
        -- exists consumed. split; [by rewrite <- Hz | simpl; lia].
        -- exists (answer :: consumed). split; [by rewrite Hz, IH3 | simpl; lia].
    + split; [| split].
      * intros Hlen. rewrite Hin in Hlen. simpl in Hlen. lia.
      * intros _. rewrite Hhow, Hafter. repeat split; try done. by exists evs.
      * exists []. rewrite Hafter. split; [done | simpl; lia].
Qed.

Lemma X2_replay_halts_only_at_end_of_input_witness :
  how (_run_program_lines ["show input"; "show ((input))"] (initial ["Bob"; "Eve"] ∅))
  = Returned.
Proof.
  apply (X2_replay_halts_only_at_end_of_input ["show input"; "show ((input))"]
           (initial ["Bob"; "Eve"] ∅)).
  simpl. lia.
Defined.

(* ===================================================================== *)
(** ** Further properties of files *)
(* ===================================================================== *)

Module FileFacts.
Import Py PyFacts.

Lemma rstrip_rstrip (s : string) : rstrip (rstrip s) = rstrip s.
Proof.
  induction s as [|c s IH]; [done |]. cbn [rstrip].
  destruct (is_empty (rstrip s) && isspace c) eqn:E; [done |].
  cbn [rstrip]. by rewrite IH, E.
Qed.

Lemma strip_strip (s : string) : strip (strip s) = strip s.
Proof.
  unfold strip at 1. rewrite RoutingFacts.lstrip_strip.
  unfold strip. apply rstrip_rstrip.
Qed.

Lemma loaded_lines_stripped (content : string) :
  Forall (fun l => is_stripped l = true) (loaded_lines content).
Proof.
  unfold loaded_lines. induction (file_lines content) as [|l ls IH]; [constructor |].
  cbn [map List.filter]. destruct (is_empty (strip l)) eqn:E; cbn [negb]; [done |].
  constructor; [| done]. unfold is_stripped.
  by rewrite E, strip_strip, String.eqb_refl.
Qed.

Lemma filter_nonempty_app (l1 l2 : list string) :
  List.filter (fun l => negb (is_empty l)) (l1 ++ l2)
  = List.filter (fun l => negb (is_empty l)) l1
    ++ List.filter (fun l => negb (is_empty l)) l2.
Proof. apply List.filter_app. Qed.

(** What is read back from a saved file. *)
Lemma loaded_lines_written (lines : list string) :
  Forall (fun l => all_chars no_line_break l = true) lines ->
  loaded_lines (written lines)
  = List.filter (fun l => negb (is_empty l)) (map strip lines).
Proof.
  intros Hlines. unfold loaded_lines.
  rewrite SaveFacts.file_lines_written by done.
  rewrite map_app, filter_nonempty_app. cbn. by rewrite app_nil_r.
Qed.

Lemma loaded_lines_written_stripped (lines : list string) :
  Forall (fun l => all_chars no_line_break l = true) lines ->
  Forall (fun l => is_stripped l = true) lines ->
  loaded_lines (written lines) = lines.
Proof.
  intros Hbreaks Hstripped. rewrite loaded_lines_written by done.
  clear Hbreaks. induction Hstripped as [|l ls Hl _ IH]; [done |].
  unfold is_stripped in Hl. apply andb_true_iff in Hl as [Hne Heq].
  apply String.eqb_eq in Heq. cbn [map List.filter]. rewrite Heq, Hne.
  by rewrite IH.
Qed.

End FileFacts.

Lemma _open_program_cases filename z :
  _open_program filename z
  = match files z !! filename with
    | None => say [file_not_found filename] z
    | Some content =>
        if bool_decide (filename ∈ denied z) then say [file_not_opened filename] z
        else
          match mode z with
          | compiler =>
              say [Notice ("Program lines from '" +:+ filename +:+
                           "' loaded into compiler buffer.");
                   Notice "Type 'execute' to run them."]
                (set_program_lines (program_lines z ++ loaded_lines content) z)
          | interpreter =>
              preceded
                [Notice ("Executing program from '" +:+ filename +:+
                         "' in interpreter mode...")]
                (_run_program_lines (loaded_lines content) z)
          end
    end.
Proof. reflexivity. Qed.

Lemma _open_program_keeps filename z :
  mode (after (_open_program filename z)) = mode z
  /\ session_history (after (_open_program filename z)) = session_history z
  /\ files (after (_open_program filename z)) = files z
  /\ program_lines z `prefix_of` program_lines (after (_open_program filename z)).
Proof.
  rewrite _open_program_cases.
  destruct (files z !! filename) as [content|]; [| by repeat split].
  destruct (bool_decide _); [by repeat split |].
  destruct (mode z) eqn:Hmode.
  - cbn [after say mode session_history files program_lines set_program_lines].
    repeat split; try done. by apply prefix_app_r.
  - cbn [after preceded].
    destruct (_run_program_lines_frame (loaded_lines content) z)
      as [(Hp & Hm & Hh & Hf & _) _].
    rewrite Hp, Hm, Hh, Hf. by repeat split.
Qed.

(** X3.  [_open_program] never changes the mode, the session history or
    the files, and the buffer it leaves starts with the buffer it found.
    A file that is missing or cannot be opened is reported and changes
    nothing.  In compiler mode nothing is executed: the variables, the
    input slot and the pending input stay as they are and the lines of the
    file are appended to the buffer; every line taken from a file is
    non-empty and has no white space at either end. *)
Theorem X3_open_program_frame :
  (forall filename z,
     mode (after (_open_program filename z)) = mode z
     /\ session_history (after (_open_program filename z)) = session_history z
     /\ files (after (_open_program filename z)) = files z
     /\ program_lines z `prefix_of` program_lines (after (_open_program filename z)))
  /\ (forall filename z,
        files z !! filename = None \/ filename ∈ denied z ->
        after (_open_program filename z) = z
        /\ how (_open_program filename z) = Returned
        /\ exists text, printed (_open_program filename z) = [Diagnostic IOFailure text])
  /\ (forall filename z content,
        mode z = compiler ->
        files z !! filename = Some content -> filename ∉ denied z ->
        after (_open_program filename z)
        = set_program_lines (program_lines z ++ loaded_lines content) z)
  /\ (forall content, Forall (fun l => is_stripped l = true) (loaded_lines content)).
Proof.
  split; [exact _open_program_keeps |].
  split.
  { intros filename z Hbad. rewrite _open_program_cases.
    destruct (files z !! filename) as [content|] eqn:E.
    - destruct Hbad as [Hbad | Hbad]; [discriminate Hbad |].
      rewrite bool_decide_eq_true_2 by done. repeat split. by eexists.
    - repeat split. by eexists. }
  split.
  { intros filename z content Hmode Hfile Hfree. rewrite _open_program_cases.
    by rewrite Hfile, bool_decide_eq_false_2, Hmode. }
  exact FileFacts.loaded_lines_stripped.
Qed.

Lemma X3_open_program_frame_witness :
  after (_open_program "missing.zcli" (initial [] ∅)) = initial [] ∅
  /\ how (_open_program "missing.zcli" (initial [] ∅)) = Returned
  /\ exists text,
       printed (_open_program "missing.zcli" (initial [] ∅))
       = [Diagnostic IOFailure text].
Proof.
  destruct X3_open_program_frame as (_ & Hbad & _).
  apply (Hbad "missing.zcli" (initial [] ∅)). left. vm_compute. reflexivity.
Defined.

(** X4.  Saving the buffer and opening the saved file into an empty buffer
    gives back the buffered lines, each stripped of the white space around
    it and the empty ones left out, provided no buffered line holds a line
    break; a buffer of non-empty lines without surrounding white space
    comes back unchanged. *)
Theorem X4_save_then_open (filename : string) (z : ZCLILanguage) :
  mode z = compiler ->
  zcli_path filename ∉ denied z ->
  Forall (fun l => Py.all_chars no_line_break l = true) (program_lines z) ->
  program_lines
    (after (_open_program (zcli_path filename)
              (set_program_lines [] (after (_save_program filename z)))))
  = List.filter (fun l => negb (Py.is_empty l)) (map Py.strip (program_lines z))
  /\ (Forall (fun l => is_stripped l = true) (program_lines z) ->
      program_lines
        (after (_open_program (zcli_path filename)
                  (set_program_lines [] (after (_save_program filename z)))))
      = program_lines z).
Proof.
  intros Hmode Hfree Hbreaks.
  rewrite SaveFacts._save_program_spec by done.
  rewrite _open_program_cases.
  cbn [after say files denied mode program_lines set_files set_program_lines].
  rewrite lookup_insert_eq, bool_decide_eq_false_2, Hmode by done.
  cbn [after say program_lines set_program_lines app].
  unfold saved_lines. rewrite Hmode.
  split; [by apply FileFacts.loaded_lines_written |].
  intros Hstripped. by apply FileFacts.loaded_lines_written_stripped.
Qed.

Lemma X4_save_then_open_witness :
  program_lines
    (after (_open_program (zcli_path "out")
              (set_program_lines [] (after (_save_program "out" untidy_session)))))
  = List.filter (fun l => negb (Py.is_empty l))
      (map Py.strip (program_lines untidy_session))
  /\ (Forall (fun l => is_stripped l = true) (program_lines untidy_session) ->
      program_lines
        (after (_open_program (zcli_path "out")
                  (set_program_lines [] (after (_save_program "out" untidy_session)))))
      = program_lines untidy_session).
Proof.
  apply (X4_save_then_open "out" untidy_session).
  - reflexivity.
  - vm_compute. set_solver.
  - repeat constructor.
Defined.

(* ===================================================================== *)
(** ** Further properties of the session *)
(* ===================================================================== *)

Lemma _open_program_how filename z :
  how (_open_program filename z) = Returned
  \/ how (_open_program filename z) = SystemExit 1.
Proof.
  rewrite _open_program_cases.
  destruct (files z !! filename); [| by left].
  destruct (bool_decide _); [by left |].
  destruct (mode z); [by left |].
  cbn [preceded how]. apply _run_program_lines_frame.
Qed.




Lemma grows_refl z : grows z z.
Proof. unfold grows. by repeat split. Qed.

Lemma grows_trans z1 z2 z3 : grows z1 z2 -> grows z2 z3 -> grows z1 z3.
Proof.
  unfold grows. intros (?&?&?&?&?&?) (?&?&?&?&?&?).
  repeat split; try (by etrans); congruence.
Qed.

Lemma grows_recorded line rt z : grows z (recorded line rt z).
Proof.
  destruct rt; [apply grows_refl |]. unfold grows. cbn.
  repeat split; try done. by apply prefix_app_r.
Qed.

Lemma grows_set_mode m z : grows z (set_mode m z).
Proof. unfold grows. by repeat split. Qed.

Lemma grows_set_variables var_name value z :
  grows z (set_variables (<[var_name := value]> (variables z)) z).
Proof.
  unfold grows. cbn. repeat split; try done. rewrite dom_insert_L. set_solver.
Qed.

Lemma grows_answered answer more z :
  stdin z = answer :: more ->
  grows z (set_last_input_value (Some answer) (set_stdin more z)).
Proof.
  intros Hin. unfold grows. cbn. repeat split; try done.
  rewrite Hin. by apply suffix_cons_r.
Qed.

Lemma grows_runtime_line line z : grows z (after (runtime_line line z)).
Proof.
  destruct (runtime_line_spec line z); cbn [after say];
    first [apply grows_refl | apply grows_set_variables | by apply grows_answered].
Qed.

Lemma grows__run_program_lines lines z :
  grows z (after (_run_program_lines lines z)).
Proof.
  revert z. induction lines as [|line lines IH]; intros z; [apply grows_refl |].
  cbn [_run_program_lines].
  pose proof (grows_runtime_line line z) as Hline.
  destruct (runtime_line_frame line z) as [_ [Hhow | Hhow]]; rewrite Hhow; [| done].
  cbn [preceded after]. by eapply grows_trans.
Qed.

Lemma grows__save_program filename z : grows z (after (_save_program filename z)).
Proof.
  unfold _save_program. destruct (bool_decide _); [apply grows_refl |].
  destruct (mode z); unfold grows; cbn; repeat split; try done;
    rewrite dom_insert_L; set_solver.
Qed.

Lemma grows__open_program filename z : grows z (after (_open_program filename z)).
Proof.
  rewrite _open_program_cases.
  destruct (files z !! filename); [| apply grows_refl].
  destruct (bool_decide _); [apply grows_refl |].
  destruct (mode z).
  - unfold grows. cbn. repeat split; try done. by apply prefix_app_r.
  - apply grows__run_program_lines.
Qed.

Lemma grows_execute_command rt z :
  grows z (after (execute_command _run_program_lines rt z)).
Proof.
  unfold execute_command. destruct rt; cbn [negb]; [apply grows_refl |].
  destruct (mode z) eqn:Hmode; [| apply grows_refl].
  destruct (program_lines z) as [|l ls] eqn:Hlines; [apply grows_refl |].
  pose proof (grows__run_program_lines (l :: ls) (set_mode interpreter z)) as Hrun.
  assert (Hz : grows z (after (_run_program_lines (l :: ls) (set_mode interpreter z))))
    by (eapply grows_trans; [apply grows_set_mode | done]).
  destruct (how (_run_program_lines (l :: ls) (set_mode interpreter z)));
    cbn [after preceded]; [| done | done].
  eapply grows_trans; [exact Hz | apply grows_set_mode].
Qed.

Lemma after_except_Exception command rt o :
  after (except_Exception command rt o) = after o.
Proof. unfold except_Exception. destruct (how o); [done | by destruct rt | done]. Qed.

Lemma grows_command_branches command color_code processed_line parts rt z :
  grows z (after (command_branches _run_program_lines command color_code
                    processed_line parts rt z)).
Proof.
  unfold command_branches.
  destruct (String.eqb command "define").
  { destruct (define_command_spec processed_line parts rt z);
      [apply grows_refl | apply grows_set_variables]. }
  destruct (String.eqb command "show").
  { destruct (show_command_spec color_code processed_line parts z);
      first [apply grows_refl | by apply grows_answered]. }
  destruct (String.eqb command "help"); [destruct rt; apply grows_refl |].
  destruct (String.eqb command "save").
  { destruct rt; cbn [negb]; [apply grows_refl |].
    destruct parts as [|p0 [|filename more]];
      [apply grows_refl | apply grows_refl | apply grows__save_program]. }
  destruct (String.eqb command "open").
  { destruct rt; cbn [negb]; [apply grows_refl |].
    destruct parts as [|p0 [|filename more]];
      [apply grows_refl | apply grows_refl | apply grows__open_program]. }
  destruct (String.eqb command "execute"); [apply grows_execute_command |].
  destruct (String.eqb command "int");
    [destruct rt; [apply grows_refl | apply grows_set_mode] |].
  destruct (String.eqb command "comp");
    [destruct rt; [apply grows_refl | apply grows_set_mode] |].
  destruct rt; apply grows_refl.
Qed.

Lemma grows__parse_and_execute_line line rt z :
  grows z (after (_parse_and_execute_line line rt z)).
Proof.
  unfold _parse_and_execute_line.
  pose proof (grows_recorded line rt z) as Hrec.
  destruct (skipped line) eqn:Eskip.
  { by rewrite parse_and_execute_line_skipped. }
  destruct (command_word line) as [command|] eqn:Eword.
  2: { by rewrite parse_and_execute_line_no_command. }
  rewrite (parse_and_execute_line_dispatch _ _ _ _ _ Eword).
  cbn [preceded after]. rewrite after_except_Exception.
  eapply grows_trans; [exact Hrec | apply grows_command_branches].
Qed.

Lemma _parse_and_execute_line_how line rt z :
  how (_parse_and_execute_line line rt z) = Returned
  \/ how (_parse_and_execute_line line rt z) = SystemExit 1.
Proof.
  unfold _parse_and_execute_line.
  destruct (skipped line) eqn:Eskip.
  { left. by rewrite parse_and_execute_line_skipped. }
  destruct (command_word line) as [command|] eqn:Eword.
  2: { left. by rewrite parse_and_execute_line_no_command. }
  rewrite (parse_and_execute_line_dispatch _ _ _ _ _ Eword).
  cbn [preceded how]. unfold except_Exception, command_branches.
  destruct (String.eqb command "define").
  { destruct (define_command_spec (color_tag_parsing line).2
                (Py.split 2 (color_tag_parsing line).2) rt (recorded line rt z));
      by left. }
  destruct (String.eqb command "show").
  { destruct (show_command_spec (color_tag_parsing line).1.2 (color_tag_parsing line).2
                (Py.split 2 (color_tag_parsing line).2) (recorded line rt z));
      cbn [how say]; try (by left). destruct rt; [by right | by left]. }
  destruct (String.eqb command "help"); [destruct rt; by left |].
  destruct (String.eqb command "save").
  { destruct rt; cbn [negb]; [by left |].
    destruct (Py.split 2 _) as [|p0 [|filename more]]; try (by left).
    unfold _save_program. destruct (bool_decide _); [by left |].
    destruct (mode _); by left. }
  destruct (String.eqb command "open").
  { destruct rt; cbn [negb]; [by left |].
    destruct (Py.split 2 _) as [|p0 [|filename more]]; try (by left).
    change (open_program _run_program_lines filename (recorded line false z))
      with (_open_program filename (recorded line false z)).
    destruct (_open_program_how filename (recorded line false z)) as [H | H];
      rewrite H; [by left | by right]. }
  destruct (String.eqb command "execute").
  { unfold execute_command. destruct rt; cbn [negb]; [by left |].
    destruct (mode _); [| by left].
    destruct (program_lines _) as [|l ls]; [by left |].
    destruct (_run_program_lines_frame (l :: ls)
                (set_mode interpreter (recorded line false z))) as [_ [H | H]];
      rewrite H; cbn [how preceded]; rewrite ?H; [by left | by right]. }
  destruct (String.eqb command "int"); [destruct rt; by left |].
  destruct (String.eqb command "comp"); [destruct rt; by left |].
  destruct rt; by left.
Qed.

(** What a turn of the loop keeps. *)
Lemma repl_line_grows (user_input : string) (z : ZCLILanguage) :
  grows z (after (turn_outcome (repl_line user_input z))).
Proof.
  unfold repl_line.
  destruct (String.eqb (Py.lower user_input) "exit"); [apply grows_refl |].
  pose proof (grows__parse_and_execute_line user_input false z) as Hline.
  assert (Hbuffer : grows z (set_program_lines (program_lines z ++ [user_input]) z)).
  { unfold grows. cbn. repeat split; try done. by apply prefix_app_r. }
  destruct (mode z); [destruct (existsb _ control_commands) |];
    try (by destruct (how (_parse_and_execute_line user_input false z))).
Qed.

(** X6.  Whatever line the user types, in either mode: the buffer and the
    session history are only extended at their end, no variable and no
    file is removed, pending input is only consumed from the front, and
    the turn either returns or ends the process with status 1; no Python
    exception leaves the loop. *)
Theorem X6_turn_keeps_session (user_input : string) (z : ZCLILanguage) :
  grows z (after (turn_outcome (repl_line user_input z)))
  /\ (how (turn_outcome (repl_line user_input z)) = Returned
      \/ how (turn_outcome (repl_line user_input z)) = SystemExit 1).
Proof.
  split; [apply repl_line_grows |].
  unfold repl_line.
  destruct (String.eqb (Py.lower user_input) "exit"); [by left |].
  pose proof (_parse_and_execute_line_how user_input false z) as Hhow.
  destruct (mode z).
  - destruct (existsb _ control_commands).
    + destruct Hhow as [H | H]; rewrite H; cbn [turn_outcome]; rewrite ?H; auto.
    + cbn [how ret turn_outcome]. auto.
  - destruct Hhow as [H | H]; rewrite H; cbn [turn_outcome]; rewrite ?H; auto.
Qed.

(* ===================================================================== *)
(** ** Further properties of the colour directive *)
(* ===================================================================== *)

Module ColorFacts.
Import Py PyFacts.

Lemma lower_char_idempotent (c : ascii) : lower_char (lower_char c) = lower_char c.
Proof. destruct c as [[] [] [] [] [] [] [] []]; vm_compute; reflexivity. Qed.

Lemma lower_idempotent (s : string) : lower (lower s) = lower s.
Proof.
  induction s as [|c s IH]; [done |]. cbn [lower].
  by rewrite lower_char_idempotent, IH.
Qed.

Lemma palette_lookup (k code : string) :
  ANSI_COLORS !! k = Some code ->
  k ∈ palette_names /\ code <> EmptyString /\ is_hex_color k = false.
Proof.
  unfold ANSI_COLORS. intros H. apply elem_of_list_to_map_2 in H.
  repeat (apply elem_of_cons in H as [[= -> ->] | H];
          [ split; [unfold palette_names; set_solver | split; [by vm_compute | done]] |]).
  by apply elem_of_nil in H.
Qed.

Lemma palette_member (k : string) :
  k ∈ palette_names -> exists code, ANSI_COLORS !! k = Some code.
Proof.
  unfold palette_names. intros H.
  repeat (apply elem_of_cons in H as [-> | H]; [eexists; vm_compute; reflexivity |]).
  by apply elem_of_nil in H.
Qed.

Lemma hex_digits_to_end_head (c : ascii) (h : string) :
  hex_digits_to_end (String c h)
  = Ascii.eqb c "#"
    && (all_chars is_lower_hex h
        && (Nat.eqb (String.length h) 3 || Nat.eqb (String.length h) 6)).
Proof. destruct c as [[] [] [] [] [] [] [] []]; reflexivity. Qed.

Lemma hex_digits_to_end_spec (s : string) :
  hex_digits_to_end s = true
  <-> exists h, s = "#" +:+ h /\ all_chars is_lower_hex h = true
                /\ (String.length h = 3 \/ String.length h = 6).
Proof.
  split.
  - destruct s as [|c h]; [intros H; discriminate H |].
    rewrite hex_digits_to_end_head.
    intros [Hc [Hhex Hlen]%andb_true_iff]%andb_true_iff.
    apply Ascii.eqb_eq in Hc as ->. exists h. split; [done |]. split; [done |].
    apply orb_true_iff in Hlen as [Hlen | Hlen]; apply Nat.eqb_eq in Hlen; auto.
  - intros (h & -> & Hhex & Hlen). cbn [String.append].
    rewrite hex_digits_to_end_head, Hhex. cbn [Ascii.eqb Bool.eqb andb].
    destruct Hlen as [-> | ->]; reflexivity.
Qed.

Lemma endswith_char (c : ascii) (s : string) :
  endswith (String c EmptyString) s = true ->
  s = drop_last s +:+ String c EmptyString.
Proof.
  induction s as [|a s IH]; [intros H; discriminate H |].
  change (endswith (String c EmptyString) (String a s))
    with (String.eqb (String a s) (String c EmptyString)
          || endswith (String c EmptyString) s).
  intros [Heq | Hend]%orb_true_iff.
  - apply String.eqb_eq in Heq. by injection Heq as -> ->.
  - specialize (IH Hend). destruct s as [|b s]; [discriminate Hend |].
    cbn [drop_last] in *. cbn [String.append]. by rewrite <- IH.
Qed.

(** The names the hex pattern matches. *)
Lemma is_hex_color_spec (s : string) :
  is_hex_color s = true
  <-> exists h, (s = "#" +:+ h \/ s = "#" +:+ h +:+ nl)
                /\ all_chars is_lower_hex h = true
                /\ (String.length h = 3 \/ String.length h = 6).
Proof.
  unfold is_hex_color. rewrite orb_true_iff, andb_true_iff.
  rewrite !hex_digits_to_end_spec. split.
  - intros [(h & -> & Hhex & Hlen) | [Hend (h & Hs & Hhex & Hlen)]].
    + exists h. auto.
    + exists h. split; [right | done].
      apply endswith_char in Hend. rewrite Hend, Hs. unfold nl.
      by rewrite append_assoc.
  - intros (h & [-> | ->] & Hhex & Hlen).
    + left. by exists h.
    + right. unfold nl. rewrite <- append_assoc. split.
      * apply endswith_append.
      * exists h. by rewrite drop_last_append_char.
Qed.

End ColorFacts.

(** X7.  [_get_ansi_color_code] compares names without regard to letter
    case.  It returns a colour code exactly for the eleven names of the
    palette and the empty code for everything else.  It prints something
    only for a name the hex pattern matches: then the warning names the
    colour as it was written and the code is empty.  The pattern matches
    [#] followed by three or six hex digits, and also such a name with one
    line feed after it. *)
Theorem X7_ansi_color_code (name : string) :
  ((_get_ansi_color_code name).2 <> EmptyString <-> Py.lower name ∈ palette_names)
  /\ (Py.is_hex_color (Py.lower name) = true ->
      _get_ansi_color_code name = ([hex_warning name], EmptyString))
  /\ (Py.is_hex_color (Py.lower name) = false -> (_get_ansi_color_code name).1 = [])
  /\ (_get_ansi_color_code (Py.lower name)).2 = (_get_ansi_color_code name).2
  /\ (Py.is_hex_color (Py.lower name) = true
      <-> exists h,
            (Py.lower name = "#" +:+ h \/ Py.lower name = "#" +:+ h +:+ nl)
            /\ Py.all_chars Py.is_lower_hex h = true
            /\ (String.length h = 3 \/ String.length h = 6)).
Proof.
  assert (Hspec := ColorFacts.is_hex_color_spec (Py.lower name)).
  unfold _get_ansi_color_code. rewrite ColorFacts.lower_idempotent.
  destruct (ANSI_COLORS !! Py.lower name) as [code|] eqn:E.
  - apply ColorFacts.palette_lookup in E as (Hin & Hcode & Hhex).
    cbn [fst snd]. rewrite Hhex in Hspec |- *. repeat split; try done; apply Hspec.
  - assert (Hnot : ~ Py.lower name ∈ palette_names).
    { intros [code Hcode]%ColorFacts.palette_member. congruence. }
    destruct (Py.is_hex_color (Py.lower name)); cbn [fst snd];
      repeat split; try done; try (by intros H; destruct (Hnot H));
      apply Hspec.
Qed.

Lemma X7_ansi_color_code_witness :
  _get_ansi_color_code ("#FF00ff" +:+ nl)
  = ([hex_warning ("#FF00ff" +:+ nl)], EmptyString).
Proof.
  destruct (X7_ansi_color_code ("#FF00ff" +:+ nl)) as (_ & Hhex & _).
  apply Hhex. vm_compute. reflexivity.
Defined.

Module DirectiveFacts.
Import Py PyFacts TagFacts.

Lemma span_unique {A} (P : A -> bool) (l1 l2 : list A) (a b : A) (r1 r2 : list A) :
  forallb P l1 = true -> forallb P l2 = true -> P a = false -> P b = false ->
  l1 ++ a :: r1 = l2 ++ b :: r2 -> l1 = l2 /\ a = b /\ r1 = r2.
Proof.
  revert l2. induction l1 as [|x l1 IH]; intros [|y l2]; cbn [forallb app];
    intros H1 H2 Ha Hb Heq.
  - by injection Heq as -> ->.
  - injection Heq as -> _. apply andb_true_iff in H2 as [H2 _]. congruence.
  - injection Heq as -> _. apply andb_true_iff in H1 as [H1 _]. congruence.
  - injection Heq as -> Heq.
    apply andb_true_iff in H1 as [_ H1]. apply andb_true_iff in H2 as [_ H2].
    destruct (IH l2 H1 H2 Ha Hb Heq) as (-> & -> & ->). done.
Qed.

Lemma chars_inj (a b : string) :
  String.list_ascii_of_string a = String.list_ascii_of_string b -> a = b.
Proof.
  intros H. rewrite <- (String.string_of_list_ascii_of_string a).
  rewrite <- (String.string_of_list_ascii_of_string b). by rewrite H.
Qed.

Lemma color_char_not_space (c : ascii) : is_color_char c = true -> isspace c = false.
Proof.
  intros H. destruct (isspace c) eqn:E; [| done].
  apply isspace_not_color_char in E. congruence.
Qed.

Lemma span_color_name (name rest : string) :
  all_chars is_color_char name = true ->
  span_color (name +:+ String ")" rest) = (name, String ")" rest).
Proof.
  induction name as [|x name IH]; [done |]. cbn [all_chars String.append span_color].
  intros [-> Hname]%andb_true_iff. by rewrite IH.
Qed.

Lemma well_formed_directive_spec c w2 name w3 :
  well_formed_directive c w2 name w3 = true ->
  isspace c = true /\ all_chars isspace w2 = true /\ is_empty name = false
  /\ all_chars is_color_char name = true /\ all_chars isspace w3 = true.
Proof.
  unfold well_formed_directive. rewrite !andb_true_iff, negb_true_iff. tauto.
Qed.

(** After white space only, a well-formed directive is matched. *)
Lemma color_tag_at_directive (x : string) c w2 name w3 :
  all_chars isspace x = true ->
  well_formed_directive c w2 name w3 = true ->
  color_tag_at (x +:+ directive c w2 name w3) = Some name.
Proof.
  intros Hx (Hc & Hw2 & Hne & Hname & Hw3)%well_formed_directive_spec.
  unfold color_tag_at, directive.
  rewrite ColonFacts.lstrip_append_spaces by done.
  change (lstrip ("((color" +:+ ?s)) with ("((color" +:+ s).
  change (startswith "((color" ("((color" +:+ ?s)) with true. cbn iota.
  change (slice_from 7 ("((color" +:+ ?s)) with s.
  cbn [String.append]. rewrite Hc.
  cbn [lstrip]. rewrite Hc, ColonFacts.lstrip_append_spaces by done.
  assert (Hl : lstrip (name +:+ "))" +:+ w3) = name +:+ "))" +:+ w3).
  { destruct name as [|y name]; [discriminate Hne |].
    cbn [all_chars] in Hname. apply andb_true_iff in Hname as [Hy _].
    cbn [String.append lstrip]. by rewrite (color_char_not_space y). }
  change ("))" +:+ w3) with (String ")" (String ")" w3)) in Hl.
  rewrite Hl, span_color_name by done. rewrite Hne. cbn [negb startswith andb].
  rewrite !Ascii.eqb_refl. cbn [andb slice_from].
  by rewrite ColonFacts.lstrip_spaces.
Qed.

(** Before a well-formed directive, the pattern matches only after white
    space, and it finds the name of that directive. *)
Lemma color_tag_at_before_directive (x : string) c w2 name w3 name' :
  well_formed_directive c w2 name w3 = true ->
  color_tag_at (x +:+ directive c w2 name w3) = Some name' ->
  all_chars isspace x = true /\ name' = name.
Proof.
  intros (Hc & Hw2 & Hne & Hname & Hw3)%well_formed_directive_spec Hat.
  apply color_tag_at_shape in Hat
    as (w1 & c' & w2' & w3' & Heq & Hw1 & Hc' & Hw2' & Hname' & Hne' & Hw3').
  apply (f_equal String.list_ascii_of_string) in Heq.
  unfold directive in Heq. rewrite !chars_append in Heq.
  cbn [String.list_ascii_of_string] in Heq.
  apply (f_equal (@rev ascii)) in Heq.
  repeat first [rewrite rev_app_distr in Heq | rewrite <- app_assoc in Heq
               | progress cbn [rev app] in Heq].
  rewrite !all_chars_forallb in *.
  (* the white space at the end *)
  apply (span_unique isspace) in Heq as (E3 & _ & Heq);
    [| by rewrite forallb_rev | by rewrite forallb_rev | done | done].
  injection Heq as Heq.
  (* the name *)
  assert (Hsp : forall w d rest,
    forallb isspace (String.list_ascii_of_string w) = true -> isspace d = true ->
    exists s t, rev (String.list_ascii_of_string w) ++ d :: rest = s :: t ++ rest
                /\ isspace s = true
                /\ forallb isspace (s :: t) = true
                /\ s :: t = rev (String.list_ascii_of_string w) ++ [d]).
  { intros w d rest Hw Hd.
    destruct (rev (String.list_ascii_of_string w)) as [|s t] eqn:E.
    - exists d, []. cbn [app forallb]. by rewrite Hd.
    - rewrite <- forallb_rev, E in Hw. cbn [forallb] in Hw.
      apply andb_true_iff in Hw as [Hs Ht].
      exists s, (t ++ [d]). cbn [app]. rewrite <- app_assoc. cbn [app forallb].
      rewrite Hs, forallb_app, Ht. cbn. by rewrite Hd. }
  destruct (Hsp w2 c ("r" :: "o" :: "l" :: "o" :: "c" :: "(" :: "(" ::
                      rev (String.list_ascii_of_string x))%char Hw2 Hc)
    as (s & t & E & Hs & Hst & _).
  destruct (Hsp w2' c' ("r" :: "o" :: "l" :: "o" :: "c" :: "(" :: "(" ::
                        rev (String.list_ascii_of_string w1))%char Hw2' Hc')
    as (s' & t' & E' & Hs' & Hst' & _).
  rewrite E, E' in Heq.
  apply (span_unique is_color_char) in Heq as (En & <- & Heq);
    [| by rewrite forallb_rev | by rewrite forallb_rev
     | by apply isspace_not_color_char | by apply isspace_not_color_char].
  (* the white space after the keyword *)
  assert (Heq' : (s :: t) ++ "r"%char ::
                   ("o" :: "l" :: "o" :: "c" :: "(" :: "(" ::
                    rev (String.list_ascii_of_string x))%char
                 = (s :: t') ++ "r"%char ::
                   ("o" :: "l" :: "o" :: "c" :: "(" :: "(" ::
                    rev (String.list_ascii_of_string w1))%char).
  { cbn [app]. by rewrite Heq. }
  apply (span_unique isspace) in Heq' as (_ & _ & Heq'); [| done | done | done | done].
  injection Heq' as Heq'.
  split.
  - rewrite <- forallb_rev, Heq', forallb_rev. done.
  - apply chars_inj. apply (f_equal (@rev ascii)) in En.
    by rewrite !rev_involutive in En.
Qed.

Lemma rstrip_empty (s : string) : rstrip s = EmptyString -> all_chars isspace s = true.
Proof.
  induction s as [|c s IH]; [done |]. cbn [rstrip all_chars].
  destruct (rstrip s) eqn:E; cbn [is_empty andb].
  - destruct (isspace c); [by rewrite IH | intros H; discriminate H].
  - intros H; discriminate H.
Qed.

(** The search finds a well-formed directive at the end of a line, and
    what it leaves is the text before it without the white space at its
    end. *)
Lemma color_tag_search_directive (x : string) c w2 name w3 :
  well_formed_directive c w2 name w3 = true ->
  color_tag_search (x +:+ directive c w2 name w3) = Some (rstrip x, name).
Proof.
  intros Hwf. induction x as [|ch x IH].
  - assert (H : color_tag_search (directive c w2 name w3) = Some (EmptyString, name)).
    { pose proof (color_tag_at_directive EmptyString c w2 name w3 eq_refl Hwf) as Hat.
      cbn [String.append] in Hat. unfold directive in *.
      cbn [String.append color_tag_search]. cbn [String.append] in Hat.
      by rewrite Hat. }
    exact H.
  - cbn [String.append color_tag_search].
    change (String ch (x +:+ directive c w2 name w3))
      with (String ch x +:+ directive c w2 name w3).
    destruct (color_tag_at (String ch x +:+ directive c w2 name w3)) as [name'|] eqn:E.
    + apply color_tag_at_before_directive in E as [Hx ->]; [| done].
      by rewrite ColonFacts.rstrip_spaces.
    + rewrite IH. cbn [rstrip].
      destruct (is_empty (rstrip x) && isspace ch) eqn:Eend; [| done].
      exfalso. apply andb_true_iff in Eend as [Hx Hch].
      destruct (rstrip x) eqn:Er; [| discriminate Hx].
      apply rstrip_empty in Er.
      rewrite color_tag_at_directive in E; [discriminate E | | done].
      cbn [all_chars]. by rewrite Hch, Er.
Qed.

Lemma color_tag_search_split (line before name : string) :
  color_tag_search line = Some (before, name) ->
  exists t, line = before +:+ t /\ color_tag_at t = Some name
            /\ rstrip before = before.
Proof.
  revert before. induction line as [|ch line IH]; intros before; cbn [color_tag_search].
  - destruct (color_tag_at EmptyString) eqn:E; [| intros H; discriminate H].
    intros [= <- <-]. by exists EmptyString.
  - destruct (color_tag_at (String ch line)) as [n|] eqn:E.
    + intros [= <- <-]. by exists (String ch line).
    + destruct (color_tag_search line) as [[b n]|] eqn:Es; [| intros H; discriminate H].
      intros [= <- <-]. destruct (IH b eq_refl) as (t & -> & Hat & Hb).
      exists t. repeat split; try done. cbn [rstrip]. rewrite Hb.
      destruct (is_empty b && isspace ch) eqn:Eend; [| done].
      exfalso. apply andb_true_iff in Eend as [Hempty Hch].
      destruct b; [| discriminate Hempty]. cbn [String.append] in E.
      unfold color_tag_at in E, Hat. cbn [lstrip] in E. rewrite Hch in E.
      congruence.
Qed.

End DirectiveFacts.

(** X8.  The search for the colour tag finds a directive at the end of a
    line exactly when the line is some text, white space, [((color] in
    lower case, at least one white space character, a non-empty name of
    letters, digits and [#], [))] and white space; what it leaves is the
    text before, which does not end in white space, and the name is that
    of the directive. *)
Theorem X8_color_tag_search (line before name : string) :
  Py.color_tag_search line = Some (before, name)
  <-> exists w1 c w2 w3,
        line = before +:+ w1 +:+ directive c w2 name w3
        /\ Py.all_chars Py.isspace w1 = true
        /\ well_formed_directive c w2 name w3 = true
        /\ Py.rstrip before = before.
Proof.
  split.
  - intros (t & -> & Hat & Hb)%DirectiveFacts.color_tag_search_split.
    apply TagFacts.color_tag_at_shape in Hat
      as (w1 & c & w2 & w3 & -> & Hw1 & Hc & Hw2 & Hname & Hne & Hw3).
    exists w1, c, w2, w3. repeat split; try done.
    unfold well_formed_directive. rewrite Hc, Hw2, Hname, Hw3.
    by destruct name.
  - intros (w1 & c & w2 & w3 & -> & Hw1 & Hwf & Hb).
    rewrite <- PyFacts.append_assoc.
    rewrite DirectiveFacts.color_tag_search_directive by done.
    by rewrite ColonFacts.rstrip_append_spaces, Hb.
Qed.

Lemma X8_color_tag_search_witness :
  Py.color_tag_search ("show (x)" +:+ "  " +:+ directive " " " " "red" " ")
  = Some ("show (x)", "red").
Proof.
  apply (X8_color_tag_search ("show (x)" +:+ "  " +:+ directive " " " " "red" " ")
           "show (x)" "red").
  exists "  ", " "%char, " ", " ". repeat split; vm_compute; reflexivity.
Defined.

Module PaintFacts.
Import Py PyFacts.

Lemma lstrip_rstrip (s : string) : lstrip (rstrip s) = rstrip (lstrip s).
Proof.
  induction s as [|c s IH]; [done |]. cbn [lstrip rstrip].
  destruct (isspace c) eqn:Ec.
  - rewrite andb_true_r. destruct (rstrip s) eqn:E; cbn [is_empty].
    + by rewrite <- IH.
    + rewrite <- IH. cbn [lstrip]. by rewrite Ec.
  - rewrite andb_false_r. cbn [lstrip rstrip]. by rewrite Ec, andb_false_r.
Qed.

Lemma strip_rstrip (s : string) : strip (rstrip s) = strip s.
Proof. unfold strip. by rewrite lstrip_rstrip, FileFacts.rstrip_rstrip. Qed.

(** A line that ends in a directive is skipped only when it is a comment. *)
Lemma skipped_with_directive (line w1 : string) c w2 name w3 :
  all_chars isspace w1 = true ->
  skipped (line +:+ w1 +:+ directive c w2 name w3)
  = startswith "$" (strip line).
Proof.
  intros Hw1. unfold skipped, strip. rewrite ColonFacts.lstrip_append.
  destruct (SkipFacts.lstrip_head line) as [-> | (h & r & -> & Hh)].
  - cbn [is_empty]. rewrite ColonFacts.lstrip_append_spaces by done.
    unfold directive.
    change (lstrip ("((color" +:+ ?s)) with (String "(" ("(color" +:+ s)).
    by rewrite SkipFacts.rstrip_head.
  - cbn [is_empty String.append]. by rewrite !SkipFacts.rstrip_head.
Qed.

Lemma paint_say color_code evs z :
  paint color_code (say evs z) = say (map (paint_event color_code) evs) z.
Proof. reflexivity. Qed.

Lemma paint_except_Exception color_code command rt o :
  except_Exception command rt (paint color_code o)
  = paint color_code (except_Exception command rt o).
Proof.
  destruct o as [evs z' h]. unfold except_Exception, paint.
  cbn [how printed after].
  destruct h; [done | | done].
  destruct rt; cbn [printed after how]; by rewrite map_app.
Qed.

Lemma show_print_paint color_code target content z :
  show_print color_code target content z
  = paint color_code (show_print EmptyString target content z).
Proof. unfold show_print. by case_match. Qed.

Lemma show_command_paint color_code processed_line parts z :
  show_command color_code processed_line parts z
  = paint color_code (show_command EmptyString processed_line parts z).
Proof.
  unfold show_command.
  destruct parts as [|p0 [|target more]]; [done | done |].
  destruct (String.eqb (lower target) "input").
  - assert (Hin : forall prompt,
      match _get_user_input prompt z with
      | (evs, None) => {| printed := evs; after := z; how := Raised EOFError_text |}
      | (evs, Some (v, z1)) =>
          preceded evs (show_print color_code target EmptyString
                          (set_last_input_value (Some v) z1))
      end
      = paint color_code
          match _get_user_input prompt z with
          | (evs, None) => {| printed := evs; after := z; how := Raised EOFError_text |}
          | (evs, Some (v, z1)) =>
              preceded evs (show_print EmptyString target EmptyString
                              (set_last_input_value (Some v) z1))
          end).
    { intros prompt. unfold _get_user_input.
      destruct (stdin z); [done |]. by rewrite show_print_paint. }
    destruct more as [|prompt_part more]; [apply Hin |].
    destruct (wrapped dq dq prompt_part); [apply Hin | done].
  - destruct (String.eqb (lower target) "((input))").
    + destruct (last_input_value z); [apply show_print_paint | done].
    + destruct (show_loop _ _ _) as [e | content_parts] eqn:E.
      * by apply show_loop_error in E as (k & text & -> & _).
      * apply show_print_paint.
Qed.

Lemma define_command_paint color_code processed_line parts z :
  define_command processed_line parts true z
  = paint color_code (define_command processed_line parts true z).
Proof.
  unfold define_command.
  destruct parts as [|p0 [|var_name [|p2 more]]]; [done | done | done |].
  destruct (define_loop _ _ _ _) as [e | evaluated] eqn:E; [| done].
  by apply define_loop_error in E as (k & text & -> & _).
Qed.

(** In a running program the colour code reaches the [show] branch only. *)
Lemma command_branches_paint run command color_code processed_line parts z :
  command_branches run command color_code processed_line parts true z
  = paint color_code
      (command_branches run command EmptyString processed_line parts true z).
Proof.
  unfold command_branches, execute_command. cbn [negb].
  repeat case_match; try reflexivity.
  - apply define_command_paint.
  - apply show_command_paint.
Qed.

End PaintFacts.

(** X9.  In a running program, a colour directive at the end of a line
    that is not a comment and has no directive of its own changes one
    thing only: the line behaves as without the directive, except that
    what [_get_ansi_color_code] prints for the name comes first and that
    everything [show] prints is in the colour code of the name.  State and
    completion are the same. *)
Theorem X9_directive_only_paints
    (line w1 : string) (c : ascii) (w2 name w3 : string) (z : ZCLILanguage) :
  Py.startswith "$" (Py.strip line) = false ->
  Py.color_tag_search line = None ->
  Py.all_chars Py.isspace w1 = true ->
  well_formed_directive c w2 name w3 = true ->
  _parse_and_execute_line (line +:+ w1 +:+ directive c w2 name w3) true z
  = preceded (_get_ansi_color_code name).1
      (paint (_get_ansi_color_code name).2
         (_parse_and_execute_line line true z)).
Proof.
  intros Hcomment Hnone Hw1 Hwf.
  unfold _parse_and_execute_line, parse_and_execute_line. cbn [negb].
  rewrite PaintFacts.skipped_with_directive, Hcomment by done.
  unfold color_tag_parsing. rewrite Hnone.
  rewrite <- PyFacts.append_assoc.
  rewrite DirectiveFacts.color_tag_search_directive by done.
  rewrite ColonFacts.rstrip_append_spaces, PaintFacts.strip_rstrip by done.
  destruct (_get_ansi_color_code name) as [evs color_code]. cbn [fst snd].
  unfold skipped. rewrite Hcomment, orb_false_r.
  destruct (Py.strip line) as [|h r] eqn:Estrip.
  - cbn [Py.is_empty Py.split Py.lstrip]. unfold preceded, paint, say, ret.
    cbn [printed after how map]. by rewrite app_nil_r.
  - cbn [Py.is_empty].
    destruct (Py.split 2 (String h r)) as [|first more].
    + unfold preceded, paint, say. cbn [printed after how map]. by rewrite app_nil_r.
    + rewrite PaintFacts.command_branches_paint.
      rewrite PaintFacts.paint_except_Exception.
      unfold preceded at 2. cbn [app].
      unfold preceded, paint. cbn [printed after how]. reflexivity.
Qed.

Lemma X9_directive_only_paints_witness :
  _parse_and_execute_line
    ("show (first)" +:+ "  " +:+ directive " " " " "Red" " ") true names_session
  = preceded (_get_ansi_color_code "Red").1
      (paint (_get_ansi_color_code "Red").2
         (_parse_and_execute_line "show (first)" true names_session)).
Proof.
  apply (X9_directive_only_paints "show (first)" "  " " " " " "Red" " " names_session);
    vm_compute; reflexivity.
Defined.

(* ===================================================================== *)
(** ** The interactive loop *)
(* ===================================================================== *)

Lemma _run_program_lines_halted lines z c :
  how (_run_program_lines lines z) = SystemExit c ->
  stdin (after (_run_program_lines lines z)) = []
  /\ exists evs, printed (_run_program_lines lines z) = evs ++ [halted].
Proof.
  revert z. induction lines as [|line lines IH]; intros z; [intros H; discriminate H |].
  cbn [_run_program_lines].
  destruct (runtime_line_input line z)
    as [[Hhow Hin] | (Hhow & Hin & Hafter & evs & Hevs)]; rewrite Hhow.
  - cbn [preceded how after printed]. intros H.
    destruct (IH _ H) as [H1 [evs H2]]. split; [done |].
    exists (printed (runtime_line line z) ++ evs). by rewrite H2, app_assoc.
  - intros _. rewrite Hafter. split; [done | by exists evs].
Qed.

Lemma _open_program_halted filename z c :
  how (_open_program filename z) = SystemExit c ->
  stdin (after (_open_program filename z)) = []
  /\ exists evs, printed (_open_program filename z) = evs ++ [halted].
Proof.
  rewrite _open_program_cases.
  destruct (files z !! filename) as [content|]; [| intros H; discriminate H].
  destruct (bool_decide _); [intros H; discriminate H |].
  destruct (mode z); [intros H; discriminate H |].
  cbn [preceded how after printed]. intros H.
  destruct (_run_program_lines_halted _ _ _ H) as [H1 [evs H2]]. split; [done |].
  rewrite H2. eexists (_ ++ evs). by rewrite <- app_assoc.
Qed.

Lemma command_branches_halted command color_code processed_line parts z c :
  how (command_branches _run_program_lines command color_code processed_line
         parts false z) = SystemExit c ->
  stdin (after (command_branches _run_program_lines command color_code
                  processed_line parts false z)) = []
  /\ exists evs,
       printed (command_branches _run_program_lines command color_code
                  processed_line parts false z) = evs ++ [halted].
Proof.
  unfold command_branches. cbn [negb].
  destruct (String.eqb command "define").
  { destruct (define_command_spec processed_line parts false z);
      intros Hexit; discriminate Hexit. }
  destruct (String.eqb command "show").
  { destruct (show_command_spec color_code processed_line parts z);
      intros Hexit; discriminate Hexit. }
  destruct (String.eqb command "help"); [intros Hexit; discriminate Hexit |].
  destruct (String.eqb command "save").
  { destruct parts as [|p0 [|filename more]]; try (intros Hexit; discriminate Hexit).
    unfold _save_program. destruct (bool_decide _); [intros Hexit; discriminate Hexit |].
    destruct (mode _); intros Hexit; discriminate Hexit. }
  destruct (String.eqb command "open").
  { destruct parts as [|p0 [|filename more]]; try (intros Hexit; discriminate Hexit).
    apply _open_program_halted. }
  destruct (String.eqb command "execute").
  { unfold execute_command. cbn [negb].
    destruct (mode z); [| intros Hexit; discriminate Hexit].
    destruct (program_lines z) as [|l ls]; [intros Hexit; discriminate Hexit |].
    destruct (how (_run_program_lines (l :: ls) (set_mode interpreter z))) eqn:E;
      cbn [how preceded after printed]; rewrite ?E; try (intros Hexit; discriminate Hexit).
    intros _. destruct (_run_program_lines_halted _ _ _ E) as [H1 [evs H2]].
    split; [done |]. rewrite H2. eexists (_ ++ evs). by rewrite <- app_assoc. }
  destruct (String.eqb command "int"); [intros Hexit; discriminate Hexit |].
  destruct (String.eqb command "comp"); intros Hexit; discriminate Hexit.
Qed.

Lemma _parse_and_execute_line_halted line z c :
  how (_parse_and_execute_line line false z) = SystemExit c ->
  stdin (after (_parse_and_execute_line line false z)) = []
  /\ exists evs, printed (_parse_and_execute_line line false z) = evs ++ [halted].
Proof.
  unfold _parse_and_execute_line.
  destruct (skipped line) eqn:Eskip.
  { rewrite parse_and_execute_line_skipped by done. intros H; discriminate H. }
  destruct (command_word line) as [command|] eqn:Eword.
  2: { rewrite parse_and_execute_line_no_command by done. intros H; discriminate H. }
  rewrite (parse_and_execute_line_dispatch _ _ _ _ _ Eword).
  cbn [preceded how after printed]. unfold except_Exception.
  destruct (how (command_branches _ _ _ _ _ _ _)) eqn:E; rewrite ?E;
    cbn [how after printed]; try (intros H; discriminate H).
  intros _. destruct (command_branches_halted _ _ _ _ _ _ E) as [H1 [evs H2]].
  split; [done |]. rewrite H2. eexists (_ ++ evs). by rewrite <- app_assoc.
Qed.

Lemma repl_line_cases (user_input : string) (z : ZCLILanguage) :
  repl_line user_input z = Leave (say [goodbye] z)
  \/ exists o, repl_line user_input z = Again o
       /\ (how o = Returned
           \/ how o = SystemExit 1 /\ stdin (after o) = []
              /\ exists evs, printed o = evs ++ [halted]).
Proof.
  unfold repl_line.
  destruct (String.eqb (Py.lower user_input) "exit"); [by left |]. right.
  pose proof (_parse_and_execute_line_halted user_input z 1) as Hhalted.
  destruct (mode z); [destruct (existsb _ control_commands) |].
  2: { eexists. split; [done |]. by left. }
  all: destruct (_parse_and_execute_line_how user_input false z) as [H | H];
    rewrite H; (eexists; split; [done |]); [by left | right; split; [done |]].
  all: by apply Hhalted.
Qed.

Lemma grows_taken user_input more z :
  stdin z = user_input :: more -> grows z (set_stdin more z).
Proof.
  intros Hin. unfold grows. cbn. rewrite Hin. repeat split; try done.
  by apply suffix_cons_r.
Qed.

Lemma repl_end_preceded evs o : repl_end o -> repl_end (preceded evs o).
Proof.
  intros [evs' H1 H2 | evs' H1 H2 H3 | evs' H1 H2 H3].
  - apply (end_exit_typed _ (evs ++ evs')); [done |].
    cbn [preceded printed]. by rewrite H2, app_assoc.
  - apply (end_of_input _ (evs ++ evs')); [done | done |].
    cbn [preceded printed]. by rewrite H3, app_assoc.
  - apply (end_halted _ (evs ++ evs')); [done | done |].
    cbn [preceded printed]. by rewrite H3, app_assoc.
Qed.

Lemma repl_loop_ends (fuel : nat) (z : ZCLILanguage) :
  length (stdin z) < fuel ->
  exists o, repl_loop fuel z = Some o /\ grows z (after o) /\ repl_end o
            /\ forall fuel', fuel <= fuel' -> repl_loop fuel' z = Some o.
Proof.
  revert z. induction fuel as [|fuel IH]; intros z Hfuel; [lia |].
  cbn [repl_loop].
  destruct (stdin z) as [|user_input more] eqn:Hin.
  - eexists. split; [done |]. split; [apply grows_refl |]. split.
    + by apply (end_of_input _ [Prompt (repl_prompt z)]).
    + intros [|fuel'] Hle; [lia |]. cbn [repl_loop]. by rewrite Hin.
  - pose proof (grows_taken _ _ _ Hin) as Htaken.
    pose proof (repl_line_grows user_input (set_stdin more z)) as Hgrows.
    destruct (repl_line_cases user_input (set_stdin more z))
      as [Hturn | (o & Hturn & Ho)]; rewrite Hturn in Hgrows |- *;
      cbn [turn_outcome] in Hgrows.
    + eexists. split; [done |]. split; [by eapply grows_trans |]. split.
      * by apply (end_exit_typed _ [Prompt (repl_prompt z)]).
      * intros [|fuel'] Hle; [lia |]. cbn [repl_loop]. by rewrite Hin, Hturn.
    + destruct Ho as [Ho | (Ho & Hempty & evs & Hevs)]; rewrite Ho.
      * assert (Hlen : length (stdin (after o)) < fuel).
        { destruct Hgrows as (_ & _ & _ & _ & _ & Hsuffix).
          apply suffix_length in Hsuffix. cbn in Hsuffix. simpl in Hfuel. lia. }
        destruct (IH _ Hlen) as (o' & -> & Hgrows' & Hend & Hmore).
        eexists. split; [done |]. split.
        { cbn [preceded after]. eapply grows_trans; [done |].
          by eapply grows_trans. }
        split; [by apply repl_end_preceded |].
        intros [|fuel'] Hle; [lia |]. cbn [repl_loop].
        rewrite Hin, Hturn, Ho. by rewrite Hmore by lia.
      * eexists. split; [done |]. split; [by eapply grows_trans |]. split.
        -- apply (end_halted _ (Prompt (repl_prompt z) :: evs)); [done | done |].
           cbn [preceded printed]. by rewrite Hevs.
        -- intros [|fuel'] Hle; [lia |]. cbn [repl_loop]. by rewrite Hin, Hturn, Ho.
Qed.

(** X10.  The interactive loop always ends: with more fuel than there are
    pending input lines [run_repl] gives a result, and more fuel gives the
    same result.  It ends in one of three ways: [exit] was typed (farewell,
    returns), the input ended (farewell after a line break, returns, no
    input left), or a running program asked for input when none was left
    (exit status 1, the notice that the program was halted).  The first
    thing printed is the welcome, and the session only grows. *)
Theorem X10_run_repl_ends (fuel : nat) (z : ZCLILanguage) :
  length (stdin z) < fuel ->
  exists o, run_repl fuel z = Some o
            /\ (forall fuel', fuel <= fuel' -> run_repl fuel' z = Some o)
            /\ repl_end o
            /\ grows z (after o)
            /\ exists evs,
                 printed o = Notice "Welcome to ZCLI! Type 'help' for commands." :: evs.
Proof.
  intros Hfuel. unfold run_repl.
  destruct (repl_loop_ends fuel z Hfuel) as (o & Hloop & Hgrows & Hend & Hmore).
  rewrite Hloop. eexists. split; [done |]. split.
  { intros fuel' Hle. by rewrite (Hmore fuel' Hle). }
  split; [by apply repl_end_preceded |]. split; [done |].
  by exists (printed o).
Qed.

Lemma X10_run_repl_ends_witness :
  exists o, run_repl 6 typing_session = Some o
            /\ (forall fuel', 6 <= fuel' -> run_repl fuel' typing_session = Some o)
            /\ repl_end o
            /\ grows typing_session (after o)
            /\ exists evs,
                 printed o = Notice "Welcome to ZCLI! Type 'help' for commands." :: evs.
Proof.
  apply (X10_run_repl_ends 6 typing_session). vm_compute. lia.
Defined.

(* ===================================================================== *)
(** ** A variable defined and shown *)
(* ===================================================================== *)

Module RoundTripFacts.
Import Py PyFacts TagFacts.

Lemma pieces_colon_free (cur s : string) :
  colon_free s = true -> pieces cur s = [cur +:+ s].
Proof.
  unfold colon_free. revert cur. induction s as [|c s IH]; intros cur.
  - intros _. cbn [pieces]. by rewrite append_empty_r.
  - cbn [all_chars pieces]. intros [Hc Hs]%andb_true_iff.
    apply negb_true_iff in Hc. rewrite Hc, IH by done.
    by rewrite append_assoc.
Qed.

Lemma quoted_stripped (s : string) : is_stripped (dq +:+ s +:+ dq) = true.
Proof.
  unfold is_stripped, strip. apply andb_true_iff. split; [done |].
  apply String.eqb_eq.
  change (lstrip (dq +:+ s +:+ dq)) with (dq +:+ s +:+ dq).
  rewrite <- append_assoc. by rewrite LineFacts.rstrip_append.
Qed.

Lemma quoted_may_end (x : string) : may_end_with_tag (x +:+ dq) = false.
Proof. unfold may_end_with_tag. by rewrite chars_append, rev_app_distr. Qed.

Lemma quoted_no_tag (x : string) : color_tag_search (x +:+ dq) = None.
Proof.
  apply LineFacts.color_tag_search_append; [done |]. apply quoted_may_end.
Qed.

Lemma concatenation_parts_of_one (s : string) :
  colon_free s = true -> is_stripped s = true -> concatenation_parts_of s = [s].
Proof.
  intros Hcolon (c & s' & _ & _ & Hl & Hr)%LineFacts.is_stripped_spec.
  rewrite ColonFacts.concatenation_parts_of_pieces. unfold split_at_colons.
  rewrite pieces_colon_free by done. cbn [String.append map]. unfold strip.
  by rewrite Hl, Hr.
Qed.

(** Parentheses in either letter case. *)
Lemma lower_char_open (c : ascii) : Ascii.eqb (lower_char c) "(" = Ascii.eqb c "(".
Proof. destruct c as [[] [] [] [] [] [] [] []]; vm_compute; reflexivity. Qed.

Lemma lower_char_inj_close (c : ascii) (s : string) :
  String.eqb (lower (String c s)) ")" = String.eqb (String c s) ")".
Proof.
  destruct s as [|d s];
    [| cbn [lower String.eqb]; by destruct (Ascii.eqb _ _), (Ascii.eqb _ _)].
  destruct c as [[] [] [] [] [] [] [] []]; vm_compute; reflexivity.
Qed.

Lemma wrapped_lower (s : string) : wrapped "(" ")" (lower s) = wrapped "(" ")" s.
Proof.
  unfold wrapped. f_equal.
  - destruct s as [|c s]; [done |]. cbn [lower startswith].
    rewrite !(Ascii.eqb_sym "("). by rewrite lower_char_open.
  - induction s as [|c s IH]; [done |].
    change (endswith ")" (lower (String c s)))
      with (String.eqb (lower (String c s)) ")" || endswith ")" (lower s)).
    change (endswith ")" (String c s))
      with (String.eqb (String c s) ")" || endswith ")" s).
    by rewrite IH, lower_char_inj_close.
Qed.

Lemma not_the_placeholder (name : string) :
  wrapped "(" ")" name = false ->
  String.eqb (lower ("(" +:+ name +:+ ")")) "((input))" = false.
Proof.
  intros Hname. destruct (String.eqb_spec (lower ("(" +:+ name +:+ ")")) "((input))")
    as [Heq | _]; [| done].
  exfalso. rewrite <- wrapped_lower in Hname.
  cbn [String.append lower] in Heq. injection Heq as Heq.
  rewrite lower_append in Heq.
  apply (f_equal drop_last) in Heq. change (lower ")") with ")" in Heq.
  rewrite drop_last_append_char in Heq. rewrite Heq in Hname. discriminate Hname.
Qed.

(** The end of a line without white space after an opening parenthesis
    is no colour directive. *)
Lemma span_color_chars_no_space (l l2 : list ascii) :
  forallb (fun c => negb (isspace c)) l = true ->
  (l2 = [] \/ exists t, l2 = "("%char :: t) ->
  match (span_color_chars (l ++ l2)).2 with
  | c :: _ => isspace c = false
  | [] => True
  end.
Proof.
  intros Hl Hl2. induction l as [|a l IH].
  - destruct Hl2 as [-> | [t ->]]; done.
  - cbn [forallb] in Hl. apply andb_true_iff in Hl as [Ha Hl].
    apply negb_true_iff in Ha. cbn [app span_color_chars].
    destruct (is_color_char a); [| done].
    specialize (IH Hl). by destruct (span_color_chars (l ++ l2)).
Qed.

Lemma may_end_no_space (x name : string) :
  all_chars (fun c => negb (isspace c)) name = true ->
  (x = EmptyString \/ exists x', x = x' +:+ "(") ->
  may_end_with_tag (x +:+ name) = false.
Proof.
  intros Hname Hx. unfold may_end_with_tag.
  rewrite chars_append, rev_app_distr.
  assert (Hl : forallb (fun c => negb (isspace c))
                 (rev (String.list_ascii_of_string name)) = true).
  { by rewrite forallb_rev, <- all_chars_forallb. }
  assert (Hl2 : rev (String.list_ascii_of_string x) = []
                \/ exists t, rev (String.list_ascii_of_string x) = "("%char :: t).
  { destruct Hx as [-> | [x' ->]]; [by left | right].
    rewrite chars_append, rev_app_distr. by eexists. }
  revert Hl Hl2.
  generalize (rev (String.list_ascii_of_string name)) as l.
  generalize (rev (String.list_ascii_of_string x)) as l2.
  intros l2 l Hl Hl2.
  destruct l as [|a l].
  { destruct Hl2 as [-> | [t ->]]; reflexivity. }
  cbn [forallb] in Hl. apply andb_true_iff in Hl as [Ha Hl].
  apply negb_true_iff in Ha. cbn [app drop_spaces]. rewrite Ha.
  destruct (Ascii.eqb_spec a ")") as [-> | Hne];
    [| destruct a as [[] [] [] [] [] [] [] []]; try reflexivity; by destruct Hne].
  destruct l as [|b l].
  { destruct Hl2 as [-> | [t ->]]; reflexivity. }
  cbn [forallb] in Hl. apply andb_true_iff in Hl as [_ Hl]. cbn [app].
  destruct (Ascii.eqb_spec b ")") as [-> | Hne];
    [| destruct b as [[] [] [] [] [] [] [] []]; try reflexivity; by destruct Hne].
  pose proof (span_color_chars_no_space l l2 Hl Hl2) as Hs.
  destruct (span_color_chars (l ++ l2)) as [n r]. cbn [snd] in Hs.
  destruct n; [done |]. by destruct r.
Qed.

Lemma all_chars_append (p : ascii -> bool) (a b : string) :
  all_chars p (a +:+ b) = all_chars p a && all_chars p b.
Proof.
  induction a as [|c a IH]; [done |]. cbn [String.append all_chars].
  by rewrite IH, andb_assoc.
Qed.

Lemma no_space_no_tag (t : string) :
  all_chars (fun c => negb (isspace c)) t = true -> color_tag_search t = None.
Proof.
  intros Ht. apply color_tag_search_none. intros a b ->.
  rewrite all_chars_append in Ht. apply andb_true_iff in Ht as [_ Hb].
  apply no_tag_at. apply (may_end_no_space EmptyString b Hb). by left.
Qed.

Lemma break_space_word (t : string) :
  all_chars (fun c => negb (isspace c)) t = true ->
  break_space t = (t, EmptyString).
Proof.
  induction t as [|c t IH]; [done |]. cbn [all_chars break_space].
  intros [Hc Ht]%andb_true_iff. apply negb_true_iff in Hc.
  by rewrite Hc, IH.
Qed.

(** A [show] line in the usual form: the keyword, one blank, the name of
    a variable in parentheses. *)
Lemma show_syntax_usual (name : string) :
  is_token name = true -> wrapped "(" ")" name = false ->
  show_syntax (show_variable_line name) = Some (EmptyString, "(" +:+ name +:+ ")")
  /\ color_tag_parsing (show_variable_line name)
     = ([], EmptyString, show_variable_line name).
Proof.
  unfold is_token, show_variable_line. intros [_ Hname]%andb_true_iff Hwrapped.
  assert (Hword : all_chars (fun c => negb (isspace c)) ("(" +:+ name +:+ ")") = true).
  { cbn [String.append all_chars]. rewrite all_chars_append, Hname. done. }
  assert (Hr : forall a, rstrip (a +:+ name +:+ ")") = a +:+ name +:+ ")").
  { intros a. rewrite <- append_assoc. by rewrite LineFacts.rstrip_append. }
  assert (Hstrip : strip ("show (" +:+ name +:+ ")") = "show (" +:+ name +:+ ")").
  { unfold strip. change (lstrip ("show (" +:+ ?s)) with ("show (" +:+ s). apply Hr. }
  assert (Hparse : color_tag_parsing ("show (" +:+ name +:+ ")")
                   = ([], EmptyString, "show (" +:+ name +:+ ")")).
  { unfold color_tag_parsing.
    change ("show (" +:+ name +:+ ")") with ("show " +:+ ("(" +:+ name +:+ ")")) at 1.
    rewrite LineFacts.color_tag_search_append; [by rewrite Hstrip | |].
    - by apply no_space_no_tag.
    - intros x. change ("(" +:+ name +:+ ")") with ("(" +:+ (name +:+ ")")).
      rewrite <- append_assoc. apply may_end_no_space.
      + rewrite all_chars_append, Hname. done.
      + right. by eexists. }
  split; [| done].
  unfold show_syntax, skipped. rewrite Hparse, Hstrip. cbn [fst snd].
  change (is_empty ("show (" +:+ ?s)) with false.
  change (startswith "$" ("show (" +:+ ?s)) with false. cbn [orb].
  cbn [split]. change (lstrip ("show (" +:+ ?s)) with ("show (" +:+ s).
  change (is_empty ("show (" +:+ ?s)) with false. cbn iota.
  change (break_space ("show (" +:+ ?s)) with ("show", " (" +:+ s). cbn iota.
  change (lstrip (" (" +:+ ?s)) with ("(" +:+ s).
  change (is_empty ("(" +:+ ?s)) with false. cbn iota.
  rewrite break_space_word by done. cbn [lstrip is_empty].
  change (String.eqb (lower "show") "show") with true.
  change (String.eqb (lower ("(" +:+ ?s)) "input") with false.
  rewrite not_the_placeholder by done. cbn [andb negb].
  do 2 f_equal. change (slice_from (String.length "show") ("show (" +:+ ?s))
    with (" (" +:+ s).
  unfold strip. change (lstrip (" (" +:+ ?s)) with ("(" +:+ s). apply Hr.
Qed.

End RoundTripFacts.

(** X11.  A variable defined with a quoted text is shown back as that
    text.  For a name without white space that is not itself wrapped in
    parentheses and has no colon, and a text without a colon, the line
    [define <name> "<text>"] returns and stores the text under the name,
    leaving every other variable as it was; [show (<name>)] on the session
    it leaves prints exactly the text, in no colour, and nothing else. *)
Theorem X11_define_then_show
    (name text : string) (rt : bool) (z : ZCLILanguage) :
  is_token name = true ->
  wrapped "(" ")" name = false ->
  colon_free name = true ->
  colon_free text = true ->
  how (_parse_and_execute_line (define_literal_line name text) rt z) = Returned
  /\ variables (after (_parse_and_execute_line (define_literal_line name text) rt z))
     = <[name := text]> (variables z)
  /\ _parse_and_execute_line (show_variable_line name) rt
       (after (_parse_and_execute_line (define_literal_line name text) rt z))
     = say [Shown EmptyString text]
         (recorded (show_variable_line name) rt
            (after (_parse_and_execute_line (define_literal_line name text) rt z))).
Proof.
  intros Hname Hwrapped Hcolon_name Hcolon_text.
  assert (Hdefine :
    _parse_and_execute_line (define_literal_line name text) rt z
    = say (if rt then []
           else [Notice ("Defined variable '" +:+ name +:+ "' with value '" +:+
                         text +:+ "'")])
        (set_variables (<[name := text]> (variables z))
           (recorded (define_literal_line name text) rt z))).
  { unfold define_literal_line.
    destruct (LineFacts.define_syntax_usual name (dq +:+ text +:+ dq) Hname
                (RoundTripFacts.quoted_stripped text)) as [Hsyntax Hparse].
    - change (" " +:+ dq +:+ text +:+ dq) with ((" " +:+ dq) +:+ text +:+ dq).
      rewrite <- PyFacts.append_assoc. apply RoundTripFacts.quoted_no_tag.
    - intros x. rewrite <- !PyFacts.append_assoc. apply RoundTripFacts.quoted_may_end.
    - unfold _parse_and_execute_line.
      rewrite (define_line _ _ rt z _ _ Hsyntax), Hparse. cbn [fst snd].
      rewrite RoundTripFacts.concatenation_parts_of_one;
        [| | apply RoundTripFacts.quoted_stripped].
      + cbn [define_loop]. change (Py.is_empty (dq +:+ ?s)) with false. cbn iota.
        rewrite wrapped_quoted, slice_quoted. cbn [app Py.join foldr].
        rewrite PyFacts.append_empty_r. by destruct rt.
      + unfold colon_free. unfold dq. cbn [String.append Py.all_chars].
        rewrite RoundTripFacts.all_chars_append. unfold colon_free in Hcolon_text.
        by rewrite Hcolon_text. }
  rewrite Hdefine. cbn [how say after]. split; [done |]. split; [by destruct rt |].
  destruct (RoundTripFacts.show_syntax_usual name Hname Hwrapped) as [Hsyntax Hparse].
  unfold _parse_and_execute_line.
  rewrite (show_line _ _ rt _ _ _ Hsyntax), Hparse. cbn [fst snd].
  rewrite RoundTripFacts.concatenation_parts_of_one.
  - cbn [show_loop String.append Py.is_empty]. cbn iota.
    change (wrapped dq dq (String "(" ?s)) with false. cbn iota.
    rewrite wrapped_between. cbn [Py.slice_1_m1].
    rewrite drop_last_append_char, Hwrapped.
    assert (Hlookup : variables
              (set_variables (<[name := text]> (variables z))
                 (recorded (define_literal_line name text) rt z)) !! name = Some text).
    { cbn [variables set_variables]. apply lookup_insert_eq. }
    rewrite Hlookup. cbn [app Py.join foldr]. by rewrite PyFacts.append_empty_r.
  - unfold colon_free. cbn [String.append Py.all_chars].
    rewrite RoundTripFacts.all_chars_append. unfold colon_free in Hcolon_name.
    by rewrite Hcolon_name.
  - unfold is_stripped, Py.strip. apply andb_true_iff. split; [done |].
    apply String.eqb_eq. cbn [String.append Py.lstrip].
    change (Py.isspace "(") with false. cbn iota.
    change (String "(" (name +:+ ")")) with ("(" +:+ name +:+ ")").
    rewrite <- PyFacts.append_assoc. by rewrite LineFacts.rstrip_append.
Qed.

Lemma X11_define_then_show_witness :
  _parse_and_execute_line (show_variable_line "greeting") false
    (after (_parse_and_execute_line
              (define_literal_line "greeting" "Hello, World!") false (initial [] ∅)))
  = say [Shown EmptyString "Hello, World!"]
      (recorded (show_variable_line "greeting") false
         (after (_parse_and_execute_line
                   (define_literal_line "greeting" "Hello, World!") false
                   (initial [] ∅)))).
Proof.
  apply (X11_define_then_show "greeting" "Hello, World!" false (initial [] ∅));
    vm_compute; reflexivity.
Defined.

(* ===================================================================== *)
(** ** Routing in compiler mode *)
(* ===================================================================== *)

Lemma statement_is_buffered (line command : string) (z : ZCLILanguage) :
  mode z = compiler ->
  command_word line = Some command ->
  command = "define" \/ command = "show" ->
  repl_line line z = Again (ret (set_program_lines (program_lines z ++ [line]) z)).
Proof.
  intros Hmode Hword Hcommand. unfold repl_line.
  destruct (String.eqb_spec (Py.lower line) "exit") as [Hexit | _].
  { apply RoutingFacts.exit_command_word in Hexit. rewrite Hexit in Hword.
    injection Hword as <-. destruct Hcommand as [H | H]; discriminate H. }
  rewrite Hmode.
  apply RoutingFacts.command_word_prefix in Hword.
  apply TagFacts.startswith_decompose in Hword.
  assert (Hcontrol :
    existsb (fun cmd => Py.startswith cmd (Py.lower (Py.strip (Py.color_tag_sub line))))
      control_commands = false).
  { rewrite Hword. by destruct Hcommand as [-> | ->]. }
  by rewrite Hcontrol.
Qed.

(** X12.  Routing of a typed line in compiler mode by its command word,
    with or without a colour directive: a line whose command word is
    [save], [open], [execute], [int], [comp] or [help] is executed at
    once; a line whose command word is [define] or [show] is appended to
    the buffer exactly as typed, nothing is printed and nothing else
    changes, not even the session history. *)
Theorem X12_compiler_mode_routing (line command : string) (z : ZCLILanguage) :
  mode z = compiler ->
  command_word line = Some command ->
  (command ∈ meta_commands ->
   repl_line line z = Again (_parse_and_execute_line line false z))
  /\ (command ∈ ["define"; "show"] ->
      repl_line line z
      = Again (ret (set_program_lines (program_lines z ++ [line]) z))).
Proof.
  intros Hmode Hword. split.
  - intros Hin. by eapply RoutingFacts.control_command_runs_at_once.
  - intros Hin. eapply statement_is_buffered; [done | done |].
    apply elem_of_cons in Hin as [-> | Hin]; [by left |].
    apply elem_of_cons in Hin as [-> | Hin]; [by right |].
    by apply elem_of_nil in Hin.
Qed.

Lemma X12_compiler_mode_routing_witness :
  ("show" ∈ meta_commands ->
   repl_line "  SHOW (first)  ((color red))" names_session
   = Again (_parse_and_execute_line "  SHOW (first)  ((color red))" false names_session))
  /\ ("show" ∈ ["define"; "show"] ->
      repl_line "  SHOW (first)  ((color red))" names_session
      = Again (ret (set_program_lines
                      (program_lines names_session ++ ["  SHOW (first)  ((color red))"])
                      names_session))).
Proof.
  apply (X12_compiler_mode_routing "  SHOW (first)  ((color red))" "show" names_session);
    vm_compute; reflexivity.
Defined.

(* ===================================================================== *)
(** ** A statement typed and the same statement in a running program *)
(* ===================================================================== *)

Lemma define_command_recorded line processed_line parts z :
  (exists k text,
     define_command processed_line parts true z = say [Diagnostic k text] z
     /\ define_command processed_line parts false (recorded line false z)
        = say [Diagnostic k text] (recorded line false z))
  \/ (exists z1 text,
        define_command processed_line parts true z = ret z1
        /\ define_command processed_line parts false (recorded line false z)
           = say [Notice text] (recorded line false z1)).
Proof.
  unfold define_command. cbn [recorded negb variables last_input_value set_session_history].
  destruct parts as [|p0 [|var_name [|p2 more]]]; try (left; by eexists _, _).
  destruct (define_loop _ _ _ _) as [e | evaluated] eqn:E.
  - apply define_loop_error in E as (k & text & -> & _). left. by eexists _, _.
  - right. by eexists _, _.
Qed.

Lemma show_command_recorded line color_code processed_line parts z :
  show_command color_code processed_line parts (recorded line false z)
  = {| printed := printed (show_command color_code processed_line parts z);
       after := recorded line false (after (show_command color_code processed_line parts z));
       how := how (show_command color_code processed_line parts z) |}.
Proof.
  unfold show_command, _get_user_input, show_print.
  cbn [recorded negb variables last_input_value stdin set_session_history].
  destruct parts as [|p0 [|target more]]; try reflexivity.
  destruct (String.eqb (Py.lower target) "input").
  - destruct more as [|prompt_part more].
    + by destruct (stdin z).
    + destruct (wrapped dq dq prompt_part); [| reflexivity]. by destruct (stdin z).
  - cbn [negb].
    destruct (String.eqb (Py.lower target) "((input))").
    + destruct (last_input_value z); rewrite ?orb_true_r; reflexivity.
    + destruct (show_loop _ _ _); rewrite ?orb_true_r; reflexivity.
Qed.

(** X13.  A [define] or [show] line does the same whether it is typed or
    replayed from a program, as long as the replay is not halted: the
    typed line returns, leaves the session the replayed line leaves with
    the line added to the session history, and prints what the replayed
    line prints, followed only by notices; a [show] line prints exactly
    the same. *)
Theorem X13_typed_and_replayed (line command : string) (z : ZCLILanguage) :
  command_word line = Some command ->
  command = "define" \/ command = "show" ->
  how (_parse_and_execute_line line true z) = Returned ->
  how (_parse_and_execute_line line false z) = Returned
  /\ after (_parse_and_execute_line line false z)
     = recorded line false (after (_parse_and_execute_line line true z))
  /\ exists notices,
       printed (_parse_and_execute_line line false z)
       = printed (_parse_and_execute_line line true z) ++ notices
       /\ Forall is_notice notices
       /\ (command = "show" -> notices = []).
Proof.
  intros Hword Hcommand. unfold _parse_and_execute_line.
  rewrite !(parse_and_execute_line_dispatch _ _ _ _ _ Hword).
  change (recorded line true z) with z.
  set (evs := (color_tag_parsing line).1.1).
  set (color_code := (color_tag_parsing line).1.2).
  set (processed_line := (color_tag_parsing line).2).
  set (parts := Py.split 2 processed_line).
  unfold command_branches.
  destruct Hcommand as [-> | ->]; cbn [String.eqb Ascii.eqb Bool.eqb].
  - destruct (define_command_recorded line processed_line parts z)
      as [(k & text & -> & ->) | (z1 & text & -> & ->)];
      intros _; cbn [except_Exception preceded say ret how after printed].
    + split; [done |]. split; [done |]. exists []. by rewrite app_nil_r.
    + split; [done |]. split; [done |]. exists [Notice text].
      rewrite app_nil_r. split; [done |]. split; [| intros H; discriminate H].
      constructor; [by eexists | constructor].
  - rewrite show_command_recorded. unfold except_Exception.
    cbn [how printed after preceded].
    destruct (how (show_command color_code processed_line parts z)) eqn:E;
      cbn [how printed after]; try (intros H; rewrite ?E in H; discriminate H).
    intros _. split; [done |]. split; [done |]. exists []. by rewrite app_nil_r.
Qed.

Lemma X13_typed_and_replayed_witness :
  how (_parse_and_execute_line full_name_line false names_session) = Returned
  /\ after (_parse_and_execute_line full_name_line false names_session)
     = recorded full_name_line false
         (after (_parse_and_execute_line full_name_line true names_session))
  /\ exists notices,
       printed (_parse_and_execute_line full_name_line false names_session)
       = printed (_parse_and_execute_line full_name_line true names_session) ++ notices
       /\ Forall is_notice notices
       /\ ("define" = "show" -> notices = []).
Proof.
  apply (X13_typed_and_replayed full_name_line "define" names_session).
  - vm_compute. reflexivity.
  - by left.
  - vm_compute. reflexivity.
Defined.

(* ===================================================================== *)
(** ** The value argument of [define] is found by position *)
(* ===================================================================== *)

Lemma define_syntax_two_blanks (body : string) (c : ascii) (text : string) :
  is_token (body +:+ String c EmptyString) = true ->
  define_syntax (define_two_blanks_line body c text)
  = Some (body +:+ String c EmptyString, misplaced_argument c text)
  /\ color_tag_parsing (define_two_blanks_line body c text)
     = ([], EmptyString, define_two_blanks_line body c text).
Proof.
  intros Hname. unfold define_two_blanks_line, misplaced_argument.
  assert (Hc : Py.isspace c = false).
  { unfold is_token in Hname. apply andb_true_iff in Hname as [_ Hname].
    rewrite RoundTripFacts.all_chars_append in Hname.
    apply andb_true_iff in Hname as [_ Hname]. cbn [Py.all_chars] in Hname.
    apply andb_true_iff in Hname as [Hname _]. by apply negb_true_iff in Hname. }
  assert (Hline : "define  " +:+ body +:+ String c (" " +:+ dq +:+ text +:+ dq)
                  = ("define  " +:+ body +:+ String c (" " +:+ dq +:+ text)) +:+ dq).
  { change (String c (" " +:+ dq +:+ text +:+ dq))
      with (String c (" " +:+ dq) +:+ text +:+ dq).
    change (String c (" " +:+ dq +:+ text)) with (String c (" " +:+ dq) +:+ text).
    by rewrite !PyFacts.append_assoc. }
  destruct (quoted_line_parsing
              ("define  " +:+ body +:+ String c (" " +:+ dq +:+ text)))
    as [Hstrip Hparse]; [done | done |].
  rewrite <- Hline in Hstrip, Hparse. split; [| done].
  unfold define_syntax, skipped. rewrite Hparse, Hstrip. cbn [snd].
  change (Py.is_empty ("define  " +:+ ?s)) with false.
  change (Py.startswith "$" ("define  " +:+ ?s)) with false. cbn [orb].
  cbn [Py.split]. change (Py.lstrip ("define  " +:+ ?s)) with ("define  " +:+ s).
  change (Py.is_empty ("define  " +:+ ?s)) with false. cbn iota.
  change (Py.break_space ("define  " +:+ ?s)) with ("define", "  " +:+ s). cbn iota.
  change (Py.lstrip ("  " +:+ ?s)) with (Py.lstrip s).
  change (body +:+ String c (" " +:+ dq +:+ text +:+ dq))
    with (body +:+ String c EmptyString +:+ String " " (dq +:+ text +:+ dq)).
  rewrite <- (PyFacts.append_assoc body).
  rewrite LineFacts.lstrip_token by done.
  assert (Hne : Py.is_empty ((body +:+ String c EmptyString)
                             +:+ String " " (dq +:+ text +:+ dq)) = false).
  { by destruct body. }
  rewrite Hne. rewrite LineFacts.break_space_token by done.
  change (Py.lstrip (String " " (dq +:+ ?s))) with (dq +:+ s).
  change (Py.is_empty (dq +:+ ?s)) with false. cbn iota.
  change (String.eqb (Py.lower "define") "define") with true. cbn iota.
  do 2 f_equal.
  replace (String.length "define" + String.length (body +:+ String c EmptyString) + 1)
    with (String.length ("define  " +:+ body) + 0)
    by (rewrite !PyFacts.length_append; simpl; lia).
  rewrite (PyFacts.append_assoc body).
  change ("define  " +:+ body +:+ String c EmptyString +:+ String " " (dq +:+ text +:+ dq))
    with ("define  " +:+ (body +:+ String c (" " +:+ dq +:+ text +:+ dq))).
  rewrite <- PyFacts.append_assoc, PyFacts.slice_from_append. cbn [Py.slice_from].
  unfold Py.strip. cbn [Py.lstrip]. rewrite Hc.
  change (String c (" " +:+ dq +:+ text +:+ dq))
    with (String c (" " +:+ dq) +:+ text +:+ dq).
  rewrite <- PyFacts.append_assoc. by rewrite LineFacts.rstrip_append.
Qed.

(** X14.  The value argument of [define] is found by counting characters,
    not words: with two blanks between the keyword and the name, the
    argument taken starts at the last character of the name.  For a name
    that does not end in a quote, an opening parenthesis or a colon, and a
    quoted text without a colon, the line is refused as an invalid element
    and nothing is stored. *)
Theorem X14_define_argument_by_position
    (body : string) (c : ascii) (text : string) (rt : bool) (z : ZCLILanguage) :
  is_token (body +:+ String c EmptyString) = true ->
  c <> "034"%char -> c <> "("%char -> c <> ":"%char ->
  colon_free text = true ->
  _parse_and_execute_line (define_two_blanks_line body c text) rt z
  = say [invalid_define_element (misplaced_argument c text)]
      (recorded (define_two_blanks_line body c text) rt z).
Proof.
  intros Hname Hquote Hparen Hcolon Htext.
  destruct (define_syntax_two_blanks body c text Hname) as [Hsyntax Hparse].
  unfold _parse_and_execute_line.
  rewrite (define_line _ _ rt z _ _ Hsyntax), Hparse. cbn [fst snd].
  assert (Hc : Py.isspace c = false).
  { unfold is_token in Hname. apply andb_true_iff in Hname as [_ Hname].
    rewrite RoundTripFacts.all_chars_append in Hname.
    apply andb_true_iff in Hname as [_ Hname]. cbn [Py.all_chars] in Hname.
    apply andb_true_iff in Hname as [Hname _]. by apply negb_true_iff in Hname. }
  rewrite RoundTripFacts.concatenation_parts_of_one.
  - unfold misplaced_argument. cbn [define_loop Py.is_empty]. cbn iota.
    assert (Hq : wrapped dq dq (String c (" " +:+ dq +:+ text +:+ dq)) = false).
    { unfold wrapped, dq. cbn [Py.startswith].
      by destruct (Ascii.eqb_spec "034" c) as [<- | _]. }
    assert (Hp : wrapped "(" ")" (String c (" " +:+ dq +:+ text +:+ dq)) = false).
    { unfold wrapped. cbn [Py.startswith].
      by destruct (Ascii.eqb_spec "(" c) as [<- | _]. }
    assert (Hi : String.eqb (Py.lower (String c (" " +:+ dq +:+ text +:+ dq)))
                   "((input))" = false).
    { cbn [Py.lower String.eqb]. rewrite RoundTripFacts.lower_char_open.
      by destruct (Ascii.eqb_spec c "(") as [-> | _]. }
    rewrite Hq, Hi, Hp. reflexivity.
  - unfold colon_free, misplaced_argument, dq. cbn [String.append Py.all_chars].
    rewrite RoundTripFacts.all_chars_append. unfold colon_free in Htext.
    rewrite Htext. by destruct (Ascii.eqb_spec c ":") as [-> | _].
  - unfold is_stripped, misplaced_argument, Py.strip.
    apply andb_true_iff. split; [done |]. apply String.eqb_eq.
    cbn [Py.lstrip]. rewrite Hc.
    change (String c (" " +:+ dq +:+ text +:+ dq))
      with (String c (" " +:+ dq) +:+ text +:+ dq).
    rewrite <- PyFacts.append_assoc. by rewrite LineFacts.rstrip_append.
Qed.

Lemma X14_define_argument_by_position_witness :
  _parse_and_execute_line (define_two_blanks_line "nam" "e" "Ann") false (initial [] ∅)
  = say [invalid_define_element (misplaced_argument "e" "Ann")]
      (recorded (define_two_blanks_line "nam" "e" "Ann") false (initial [] ∅)).
Proof.
  apply (X14_define_argument_by_position "nam" "e" "Ann" false (initial [] ∅));
    try (vm_compute; reflexivity); intros H; discriminate H.
Defined.
